(** * IntelliX.AI test-case generator: a model of the backend

    A shallow embedding of [backend/app/main.py] and
    [backend/app/vector_store.py].  Python values are modelled by the
    type [json]; a Python [str] is the list of its code points; the
    exceptions a function can raise are the constructors of [PyExc];
    the network, the embedding model and the Qdrant server are oracles
    collected in the record [World]; what a request does to them is
    recorded in a log of [Event]s. *)

From Stdlib Require Import ZArith NArith List String Ascii Bool Lia DecimalString.
From stdpp Require Import base option list gmap.

Local Open Scope Z_scope.

(** ** Python strings *)

Module Py.

(** A [str] is a sequence of Unicode code points. *)
Definition pystr := list N.

(** The code point of an ASCII character, and the [str] of an ASCII
    literal. *)
Definition ch (a : ascii) : N := N_of_ascii a.

Definition py (s : string) : pystr := map N_of_ascii (list_ascii_of_string s).

(** The double quote, and the [str] of an ASCII literal in which every
    apostrophe stands for a double quote (for JSON text). *)
Definition quote : N := 34.

Definition pyq (s : string) : pystr :=
  map (fun c => if N.eqb c 39 then quote else c) (py s).

Definition pystr_eqb (a b : pystr) : bool := bool_decide (a = b).

(** [s.find(c)] for a one-character needle: index of the first
    occurrence, or [-1]. *)
Fixpoint find_from (c : N) (s : pystr) (i : Z) : Z :=
  match s with
  | [] => -1
  | x :: r => if N.eqb x c then i else find_from c r (i + 1)
  end.

Definition find (s : pystr) (c : N) : Z := find_from c s 0.

(** [s.rfind(c)]: index of the last occurrence, or [-1]. *)
Fixpoint rfind_from (c : N) (s : pystr) (i last : Z) : Z :=
  match s with
  | [] => last
  | x :: r => rfind_from c r (i + 1) (if N.eqb x c then i else last)
  end.

Definition rfind (s : pystr) (c : N) : Z := rfind_from c s 0 (-1).

(** [s[a:b]]: a negative bound counts from the end, both bounds are
    clamped to the length, and an empty range gives the empty string. *)
Definition slice_bound (len i : Z) : Z :=
  if i <? 0 then Z.max 0 (len + i) else Z.min i len.

Definition slice {A} (s : list A) (a b : Z) : list A :=
  let len := Z.of_nat (length s) in
  let lo := slice_bound len a in
  let hi := slice_bound len b in
  take (Z.to_nat (hi - lo)) (drop (Z.to_nat lo) s).

(** [s.lower() == "true"], as used on the DOCKER_CONTAINER setting: only
    the ASCII letters T, R, U, E have t, r, u, e as their lower case. *)
Definition lower_ascii (c : N) : N :=
  if (N.leb 65 c && N.leb c 90)%bool then (c + 32)%N else c.

Definition lower_is (s : pystr) (lit : string) : bool :=
  pystr_eqb (map lower_ascii s) (py lit).

(** Truth value of a string: empty is false. *)
Definition str_truthy (s : pystr) : bool :=
  match s with [] => false | _ => true end.

End Py.
Export Py.

(** ** Python values, as far as JSON produces them *)

Module Value.

(** An [int] is unbounded; a [float] is kept as the literal it was read
    from (["1.5e3"], ["NaN"], ["-Infinity"]), since nothing below
    computes with it.  A [dict] keeps insertion order and has no
    duplicate key. *)
#[warnings="-register-all"]
Inductive json : Type :=
| JNull
| JBool (b : bool)
| JInt (n : Z)
| JFloat (literal : pystr)
| JStr (s : pystr)
| JArr (items : list json)
| JObj (fields : list (pystr * json)).

Definition pydict := list (pystr * json).

(** [d.get(k)] *)
Fixpoint dict_lookup (d : pydict) (k : pystr) : option json :=
  match d with
  | [] => None
  | (k', v) :: r => if pystr_eqb k' k then Some v else dict_lookup r k
  end.

(** [d.get(k, default)] *)
Definition dict_get (d : pydict) (k : pystr) (default : json) : json :=
  match dict_lookup d k with
  | Some v => v
  | None => default
  end.

(** [d[k] = v]: an existing key keeps its position. *)
Fixpoint dict_set (d : pydict) (k : pystr) (v : json) : pydict :=
  match d with
  | [] => [(k, v)]
  | (k', v') :: r =>
      if pystr_eqb k' k then (k', v) :: r else (k', v') :: dict_set r k v
  end.

(** Truth value of a dict: empty is false. *)
Definition dict_truthy (d : pydict) : bool :=
  match d with [] => false | _ => true end.

(** Truth value of an optional dict ([None] is false). *)
Definition opt_dict_truthy (p : option pydict) : bool :=
  match p with
  | Some d => dict_truthy d
  | None => false
  end.

(** [len(x)]; [None] where Python raises [TypeError]. *)
Definition py_len (x : json) : option Z :=
  match x with
  | JStr s => Some (Z.of_nat (length s))
  | JArr l => Some (Z.of_nat (length l))
  | JObj d => Some (Z.of_nat (length d))
  | _ => None
  end.

End Value.
Export Value.

(** ** [json.loads]

    The decoder follows CPython's [json] package with its default
    settings (the scanner of [_json.c], strict strings): the grammar,
    the acceptance of [NaN], [Infinity] and [-Infinity], the four
    whitespace characters, surrogate pairs in [\u] escapes, and the
    last value winning for a repeated object key.  The interpreter's
    limits on nesting depth and on the number of digits of an integer
    literal are not part of the model. *)

Module Json.

Inductive decode_error :=
| ExpectingValue
| UnterminatedString
| InvalidControlCharacter
| InvalidEscape
| InvalidUnicodeEscape
| ExpectingPropertyName
| ExpectingColon
| ExpectingComma
| ExtraData
| UnexpectedBOM
| OutOfFuel.

Inductive decoded (A : Type) :=
| Dec (a : A)
| DecErr (e : decode_error).
Arguments Dec {A} a.
Arguments DecErr {A} e.

Definition is_ws (c : N) : bool :=
  N.eqb c 32 || N.eqb c 9 || N.eqb c 10 || N.eqb c 13.

Fixpoint skip_ws (s : pystr) : pystr :=
  match s with
  | c :: r => if is_ws c then skip_ws r else s
  | [] => []
  end.

Definition is_digit (c : N) : bool := N.leb 48 c && N.leb c 57.

Definition hex_digit (c : N) : option N :=
  if N.leb 48 c && N.leb c 57 then Some (c - 48)%N
  else if N.leb 97 c && N.leb c 102 then Some (c - 87)%N
  else if N.leb 65 c && N.leb c 70 then Some (c - 55)%N
  else None.

Definition hex4 (a b c d : N) : option N :=
  match hex_digit a, hex_digit b, hex_digit c, hex_digit d with
  | Some x, Some y, Some z, Some w => Some (((x * 16 + y) * 16 + z) * 16 + w)%N
  | _, _, _, _ => None
  end.

Definition is_high_surrogate (c : N) : bool := N.leb 55296 c && N.leb c 56319.
Definition is_low_surrogate (c : N) : bool := N.leb 56320 c && N.leb c 57343.

Definition join_surrogates (hi lo : N) : N :=
  (65536 + ((hi - 55296) * 1024 + (lo - 56320)))%N.

(** The one-character escapes after a backslash. *)
Definition unescape (c : N) : option N :=
  if N.eqb c (quote) then Some c
  else if N.eqb c (ch "\") then Some c
  else if N.eqb c (ch "/") then Some c
  else if N.eqb c (ch "b") then Some 8%N
  else if N.eqb c (ch "f") then Some 12%N
  else if N.eqb c (ch "n") then Some 10%N
  else if N.eqb c (ch "r") then Some 13%N
  else if N.eqb c (ch "t") then Some 9%N
  else None.

(** [scanstring]: the input starts just after the opening quote; the
    result is the string and the input after the closing quote.  A [\u]
    escape needs one more character after its four digits, and a pair
    needs one more after the second escape, as in [_json.c]. *)
Fixpoint scanstring (s : pystr) (acc : pystr) {struct s} : decoded (pystr * pystr) :=
  match s with
  | [] => DecErr UnterminatedString
  | c :: r =>
      if N.eqb c (quote) then Dec (rev acc, r)
      else if N.eqb c (ch "\") then
        match r with
        | [] => DecErr UnterminatedString
        | e :: r1 =>
            if N.eqb e (ch "u") then
              match r1 with
              | h1 :: h2 :: h3 :: h4 :: ((_ :: _) as r2) =>
                  match hex4 h1 h2 h3 h4 with
                  | None => DecErr InvalidUnicodeEscape
                  | Some c1 =>
                      if is_high_surrogate c1 then
                        match r2 with
                        | b :: u :: g1 :: g2 :: g3 :: g4 :: ((_ :: _) as r3) =>
                            if N.eqb b (ch "\") && N.eqb u (ch "u") then
                              match hex4 g1 g2 g3 g4 with
                              | None => DecErr InvalidUnicodeEscape
                              | Some c2 =>
                                  if is_low_surrogate c2
                                  then scanstring r3 (join_surrogates c1 c2 :: acc)
                                  else scanstring r2 (c1 :: acc)
                              end
                            else scanstring r2 (c1 :: acc)
                        | _ => scanstring r2 (c1 :: acc)
                        end
                      else scanstring r2 (c1 :: acc)
                  end
              | _ => DecErr InvalidUnicodeEscape
              end
            else
              match unescape e with
              | Some c' => scanstring r1 (c' :: acc)
              | None => DecErr InvalidEscape
              end
        end
      else if N.leb c 31 then DecErr InvalidControlCharacter
      else scanstring r (c :: acc)
  end.

(** Numbers: an optional minus sign, then 0 or a digit 1-9 followed by
    digits, then optionally a dot with at least one digit, then optionally
    e or E with an optional sign and at least one digit; the longest
    match.  A fraction or an exponent that lacks its digits is left in
    the input. *)
Fixpoint span_digits (s : pystr) : pystr * pystr :=
  match s with
  | c :: r =>
      if is_digit c then let '(d, rest) := span_digits r in (c :: d, rest)
      else ([], s)
  | [] => ([], [])
  end.

Definition digit_value (c : N) : Z := Z.of_N (c - 48).

Definition digits_value (ds : pystr) : Z :=
  fold_left (fun acc c => acc * 10 + digit_value c) ds 0.

Definition match_integer (s : pystr) : option (pystr * pystr) :=
  match s with
  | c :: r =>
      if N.eqb c (ch "0") then Some ([c], r)
      else if is_digit c then let '(d, rest) := span_digits r in Some (c :: d, rest)
      else None
  | [] => None
  end.

Definition match_fraction (s : pystr) : pystr * pystr :=
  match s with
  | dot :: r =>
      if N.eqb dot (ch ".") then
        match span_digits r with
        | ([], _) => ([], s)
        | (d, rest) => (dot :: d, rest)
        end
      else ([], s)
  | [] => ([], s)
  end.

Definition match_exponent (s : pystr) : pystr * pystr :=
  match s with
  | e :: r =>
      if N.eqb e (ch "e") || N.eqb e (ch "E") then
        let '(sign, r1) :=
          match r with
          | sg :: r' =>
              if N.eqb sg (ch "-") || N.eqb sg (ch "+") then ([sg], r') else ([], r)
          | [] => ([], r)
          end in
        match span_digits r1 with
        | ([], _) => ([], s)
        | (d, rest) => (e :: sign ++ d, rest)
        end
      else ([], s)
  | [] => ([], s)
  end.

Definition match_number (s : pystr) : option (json * pystr) :=
  let '(neg, s1) :=
    match s with
    | c :: r => if N.eqb c (ch "-") then (true, r) else (false, s)
    | [] => (false, s)
    end in
  match match_integer s1 with
  | None => None
  | Some (int, s2) =>
      let '(frac, s3) := match_fraction s2 in
      let '(exp, s4) := match_exponent s3 in
      match frac, exp with
      | [], [] =>
          Some (JInt (if neg then - digits_value int else digits_value int), s4)
      | _, _ =>
          Some (JFloat ((if neg then [ch "-"] else []) ++ int ++ frac ++ exp), s4)
      end
  end.

(** [s.startswith(lit)], giving the rest of the input. *)
Fixpoint strip_prefix (lit s : pystr) : option pystr :=
  match lit, s with
  | [], _ => Some s
  | a :: lit', b :: s' => if N.eqb a b then strip_prefix lit' s' else None
  | _ :: _, [] => None
  end.

(** The named constants and numbers of [scan_once]. *)
Definition scan_atom (s : pystr) : decoded (json * pystr) :=
  match strip_prefix (py "null") s with
  | Some r => Dec (JNull, r)
  | None =>
  match strip_prefix (py "true") s with
  | Some r => Dec (JBool true, r)
  | None =>
  match strip_prefix (py "false") s with
  | Some r => Dec (JBool false, r)
  | None =>
  match strip_prefix (py "NaN") s with
  | Some r => Dec (JFloat (py "NaN"), r)
  | None =>
  match strip_prefix (py "Infinity") s with
  | Some r => Dec (JFloat (py "Infinity"), r)
  | None =>
  match strip_prefix (py "-Infinity") s with
  | Some r => Dec (JFloat (py "-Infinity"), r)
  | None =>
  match match_number s with
  | Some res => Dec res
  | None => DecErr ExpectingValue
  end end end end end end end.

(** [scan_once] with the loops of [_parse_array] and [_parse_object].
    Each call spends one unit of [fuel]; [decode] provides enough. *)
Fixpoint scan_once (fuel : nat) (s : pystr) {struct fuel} : decoded (json * pystr) :=
  match fuel with
  | O => DecErr OutOfFuel
  | S fuel' =>
      match s with
      | [] => DecErr ExpectingValue
      | c :: r =>
          if N.eqb c (quote) then
            match scanstring r [] with
            | Dec (str, rest) => Dec (JStr str, rest)
            | DecErr e => DecErr e
            end
          else if N.eqb c (ch "{") then
            match skip_ws r with
            | c' :: r' =>
                if N.eqb c' (ch "}") then Dec (JObj [], r')
                else object_loop fuel' (c' :: r') []
            | [] => DecErr ExpectingPropertyName
            end
          else if N.eqb c (ch "[") then
            match skip_ws r with
            | c' :: r' =>
                if N.eqb c' (ch "]") then Dec (JArr [], r')
                else array_loop fuel' (c' :: r') []
            | [] => DecErr ExpectingValue
            end
          else scan_atom s
      end
  end

with array_loop (fuel : nat) (s : pystr) (acc : list json) {struct fuel}
  : decoded (json * pystr) :=
  match fuel with
  | O => DecErr OutOfFuel
  | S fuel' =>
      match scan_once fuel' s with
      | DecErr e => DecErr e
      | Dec (v, rest) =>
          match skip_ws rest with
          | c :: r =>
              if N.eqb c (ch "]") then Dec (JArr (rev (v :: acc)), r)
              else if N.eqb c (ch ",") then array_loop fuel' (skip_ws r) (v :: acc)
              else DecErr ExpectingComma
          | [] => DecErr ExpectingComma
          end
      end
  end

with object_loop (fuel : nat) (s : pystr) (acc : pydict) {struct fuel}
  : decoded (json * pystr) :=
  match fuel with
  | O => DecErr OutOfFuel
  | S fuel' =>
      match s with
      | q :: r =>
          if N.eqb q (quote) then
            match scanstring r [] with
            | DecErr e => DecErr e
            | Dec (key, rest) =>
                match skip_ws rest with
                | colon :: r1 =>
                    if N.eqb colon (ch ":") then
                      match scan_once fuel' (skip_ws r1) with
                      | DecErr e => DecErr e
                      | Dec (v, rest') =>
                          let acc' := dict_set acc key v in
                          match skip_ws rest' with
                          | c :: r2 =>
                              if N.eqb c (ch "}") then Dec (JObj acc', r2)
                              else if N.eqb c (ch ",")
                              then object_loop fuel' (skip_ws r2) acc'
                              else DecErr ExpectingComma
                          | [] => DecErr ExpectingComma
                          end
                      end
                    else DecErr ExpectingColon
                | [] => DecErr ExpectingColon
                end
            end
          else DecErr ExpectingPropertyName
      | [] => DecErr ExpectingPropertyName
      end
  end.

Definition decode_fuel (s : pystr) : nat := 2 * length s + 2.

(** [JSONDecoder.decode]: one value between optional whitespace, and
    nothing after it. *)
Definition decode (s : pystr) : decoded json :=
  match scan_once (decode_fuel s) (skip_ws s) with
  | DecErr e => DecErr e
  | Dec (v, rest) =>
      match skip_ws rest with
      | [] => Dec v
      | _ :: _ => DecErr ExtraData
      end
  end.

(** [json.loads(s)] for a [str] argument. *)
Definition loads (s : pystr) : decoded json :=
  match s with
  | 65279%N :: _ => DecErr UnexpectedBOM
  | _ => decode s
  end.

End Json.

(** ** The builtin [hash] on strings

    CPython salts the hash of a [str] with a secret chosen when the
    process starts: 24 bytes from the operating system, or derived from
    the PYTHONHASHSEED setting.  The function is SipHash-1-3 (CPython
    3.11 and later) over the string's buffer, keyed by the first 16 bytes
    of the secret. *)

Module PyHash.

Definition mask64 : Z := 2 ^ 64 - 1.

Definition u64 (x : Z) : Z := Z.land x mask64.

Definition rotl (x b : Z) : Z :=
  u64 (Z.lor (Z.shiftl x b) (Z.shiftr x (64 - b))).

Record sipstate := { v0 : Z; v1 : Z; v2 : Z; v3 : Z }.

(** [HALF_ROUND(a,b,c,d,s,t)] *)
Definition half_round (a b c d s t : Z) : Z * Z * Z * Z :=
  let a := u64 (a + b) in
  let c := u64 (c + d) in
  let b := Z.lxor (rotl b s) a in
  let d := Z.lxor (rotl d t) c in
  let a := rotl a 32 in
  (a, b, c, d).

(** [SINGLE_ROUND(v0,v1,v2,v3)] *)
Definition single_round (st : sipstate) : sipstate :=
  let '(a, b, c, d) := half_round (v0 st) (v1 st) (v2 st) (v3 st) 13 16 in
  let '(c, b, a, d) := half_round c b a d 17 21 in
  {| v0 := a; v1 := b; v2 := c; v3 := d |}.

(** A little-endian word from at most eight bytes. *)
Fixpoint le_word (bytes : list Z) : Z :=
  match bytes with
  | [] => 0
  | b :: r => Z.lor b (Z.shiftl (le_word r) 8)
  end.

Definition absorb (st : sipstate) (m : Z) : sipstate :=
  let st := {| v0 := v0 st; v1 := v1 st; v2 := v2 st; v3 := Z.lxor (v3 st) m |} in
  let st := single_round st in
  {| v0 := Z.lxor (v0 st) m; v1 := v1 st; v2 := v2 st; v3 := v3 st |}.

(** The loop over whole 8-byte words; gives the state and the tail of
    fewer than eight bytes. *)
Fixpoint absorb_words (n : nat) (st : sipstate) (bytes : list Z) : sipstate * list Z :=
  match n with
  | O => (st, bytes)
  | S n' =>
      if Nat.leb 8 (length bytes)
      then absorb_words n' (absorb st (le_word (take 8 bytes))) (drop 8 bytes)
      else (st, bytes)
  end.

Definition siphash13 (k0 k1 : Z) (src : list Z) : Z :=
  let b := u64 (Z.shiftl (Z.of_nat (length src)) 56) in
  let st := {| v0 := Z.lxor k0 0x736f6d6570736575;
               v1 := Z.lxor k1 0x646f72616e646f6d;
               v2 := Z.lxor k0 0x6c7967656e657261;
               v3 := Z.lxor k1 0x7465646279746573 |} in
  let '(st, tail) := absorb_words (length src) st src in
  let b := Z.lor b (le_word tail) in
  let st := absorb st b in
  let st := {| v0 := v0 st; v1 := v1 st; v2 := Z.lxor (v2 st) 0xff; v3 := v3 st |} in
  let st := single_round (single_round (single_round st)) in
  Z.lxor (Z.lxor (v0 st) (v1 st)) (Z.lxor (v2 st) (v3 st)).

(** The buffer of a [str]: one, two or four bytes per code point, by
    the largest code point, little-endian. *)
Definition char_width (s : pystr) : nat :=
  if forallb (fun c => N.ltb c 256) s then 1%nat
  else if forallb (fun c => N.ltb c 65536) s then 2%nat
  else 4%nat.

Fixpoint le_bytes (width : nat) (x : Z) : list Z :=
  match width with
  | O => []
  | S w => Z.land x 255 :: le_bytes w (Z.shiftr x 8)
  end.

Definition str_buffer (s : pystr) : list Z :=
  let w := char_width s in
  flat_map (fun c => le_bytes w (Z.of_N c)) s.

(** [Py_hash_t] is a signed 64-bit integer. *)
Definition to_signed (x : Z) : Z := if 2 ^ 63 <=? x then x - 2 ^ 64 else x.

(** [_Py_HashBytes] on the buffer of a [str]. *)
Definition hash_str (secret : Z * Z) (s : pystr) : Z :=
  match str_buffer s with
  | [] => 0
  | src =>
      let x := to_signed (siphash13 (fst secret) (snd secret) src) in
      if x =? -1 then -2 else x
  end.

(** The secret derived from PYTHONHASHSEED: all zero for seed 0,
    otherwise 24 bytes of [lcg_urandom]; [k0] and [k1] are its first two
    little-endian words. *)
Fixpoint lcg_urandom (x : Z) (size : nat) : list Z :=
  match size with
  | O => []
  | S n =>
      let x := Z.land (x * 214013 + 2531011) (2 ^ 32 - 1) in
      Z.land (Z.shiftr x 16) 255 :: lcg_urandom x n
  end.

Definition secret_of_seed (seed : Z) : Z * Z :=
  if seed =? 0 then (0, 0)
  else
    let buf := lcg_urandom seed 24 in
    (le_word (take 8 buf), le_word (take 8 (drop 8 buf))).

End PyHash.

(** ** Exceptions, the outside world and the effects of a request *)

Module Sys.

(** The exceptions of [httpx] that a call can raise. *)
Inductive httpx_error :=
| ReadTimeout
| ConnectTimeout
| WriteTimeout
| PoolTimeout
| ConnectError
| ReadError
| WriteError
| RemoteProtocolError.

(** Exceptions, all subclasses of [Exception].  The [detail] of an
    [HTTPException] is kept by the f-string that built it, with the
    exception it quotes. *)
Inductive PyExc :=
| HttpxError (e : httpx_error)
| ValueError (msg : string)
| JSONDecodeError (e : Json.decode_error)
| TypeError
| AttributeError
| UnboundLocalError
| ValidationError
| StorageError
| HTTPException (status_code : Z) (detail : Detail)
with Detail :=
| JiraCredentialsNotProvided             (* "JIRA credentials not provided" *)
| ErrorFetchingJira (text : pystr)       (* "Error fetching JIRA ticket: {response.text}" *)
| ErrorGeneratingResponse (text : pystr) (* "Error generating test cases: {response.text}" *)
| FailedToParse (e : PyExc)              (* "Failed to parse LLM response: {str(e)}" *)
| TimeoutAfterAttempts (n : Z) (e : PyExc)
    (* "Timeout error communicating with Ollama after {max_retries} attempts: {str(e)}" *)
| ErrorCommunicating (e : PyExc)         (* "Error communicating with Ollama: {str(e)}" *)
| ErrorGenerating (e : PyExc)            (* "Error generating test cases: {str(e)}" *)
| NoTestCasesFound (jira_id : pystr).    (* "No test cases found for JIRA ID: {jira_id}" *)

(** What an HTTP call does: raise, or answer.  Of an answer the code
    reads [response.status_code], [response.text], and the value of
    [response.json()] or the error it raises. *)
Inductive HttpOutcome :=
| HttpRaises (e : httpx_error)
| HttpResponds (status_code : Z) (text : pystr) (json_body : Json.decoded json).

(** A stored point.  The components of a vector are 64-bit floats, kept
    by their bit patterns. *)
Definition Embedding := list Z.

Record Point := { vector : Embedding; payload : option pydict }.

(** The Qdrant server: reachable or not, and the points of the
    collection ["test_cases"]. *)
Record Qdrant := { up : bool; points : gmap Z Point }.

(** What the process cannot decide by itself. *)
Record World := {
  hash_secret : Z * Z;                      (* the salt of the builtin hash *)
  environ : pystr -> option pystr;          (* os.environ *)
  float_accepts : pystr -> bool;            (* whether float(text) succeeds *)
  py_str : json -> pystr;                   (* str(x) for a value that is no str *)
  json_dumps : json -> pystr;               (* json.dumps *)
  model_encode : pystr -> Embedding;        (* model.encode(text).tolist() *)
  jira_get : pystr -> pystr -> pystr -> HttpOutcome;
    (* the answer to GET url with basic authentication username, api_token *)
  ollama_post : nat -> pystr -> pystr -> pystr -> HttpOutcome;
    (* the answer to the n-th POST (from 0) to url with this model and prompt *)
  qdrant_search : gmap Z Point -> Embedding -> Z -> list Point
    (* the server's nearest-neighbour ranking *)
}.

Inductive Event :=
| JiraGet (url username api_token : pystr)
| OllamaPost (url model prompt : pystr)
| Sleep (seconds : Z)
| QdrantRetrieve (ids : list Z)
| QdrantUpsert (id : Z)
| QdrantSearch (limit : Z)
| Printed (e : PyExc)
| TaskFailed (e : PyExc).

(** A task given to [background_tasks.add_task]: the arguments of
    [store_test_case]. *)
Record Task := { task_jira_id : pystr; task_description : json; task_test_cases : json }.

(** The state a request runs in: the server, the number of POSTs made to
    the model endpoint, the log, and the request's background tasks. *)
Record State := {
  qdrant : Qdrant;
  posts : nat;
  log : list Event;
  tasks : list Task
}.

Inductive Outcome (A : Type) :=
| Returns (a : A)
| Raises (e : PyExc).
Arguments Returns {A} a.
Arguments Raises {A} e.

(** Computations: state passing with exceptions. *)
Definition M (A : Type) : Type := State -> Outcome A * State.

Definition ret {A} (a : A) : M A := fun s => (Returns a, s).

Definition raise {A} (e : PyExc) : M A := fun s => (Raises e, s).

Definition bind {A B} (c : M A) (k : A -> M B) : M B :=
  fun s =>
    match c s with
    | (Returns a, s') => k a s'
    | (Raises e, s') => (Raises e, s')
    end.

(** [try: c  except Exception as e: h e] *)
Definition try_except {A} (c : M A) (h : PyExc -> M A) : M A :=
  fun s =>
    match c s with
    | (Returns a, s') => (Returns a, s')
    | (Raises e, s') => h e s'
    end.

Definition emit (ev : Event) : M unit :=
  fun s => (Returns tt,
            {| qdrant := qdrant s; posts := posts s;
               log := log s ++ [ev]; tasks := tasks s |}).

Definition get_qdrant : M Qdrant := fun s => (Returns (qdrant s), s).

Definition set_points (pts : gmap Z Point) : M unit :=
  fun s => (Returns tt,
            {| qdrant := {| up := up (qdrant s); points := pts |};
               posts := posts s; log := log s; tasks := tasks s |}).

Definition next_post : M nat :=
  fun s => (Returns (posts s),
            {| qdrant := qdrant s; posts := S (posts s);
               log := log s; tasks := tasks s |}).

Definition add_task (t : Task) : M unit :=
  fun s => (Returns tt,
            {| qdrant := qdrant s; posts := posts s;
               log := log s; tasks := tasks s ++ [t] |}).

Definition from_option {A} (o : option A) (e : PyExc) : M A :=
  match o with
  | Some a => ret a
  | None => raise e
  end.

End Sys.
Export Sys.

Declare Scope py_scope.
Delimit Scope py_scope with py.
Notation "x <- c ;; k" := (bind c (fun x => k))
  (at level 20, c at level 99, k at level 200, only parsing) : py_scope.
Notation "c ;; k" := (bind c (fun _ => k))
  (at level 100, k at level 200, right associativity, only parsing) : py_scope.
Local Open Scope py_scope.

(** ** [backend/app/vector_store.py] *)

Module VectorStore.

(** The Qdrant client: every call raises when the server cannot be
    reached, or answers from the collection. *)
Definition client_retrieve (ids : list Z) : M (list Point) :=
  emit (QdrantRetrieve ids) ;;
  q <- get_qdrant ;;
  if up q then ret (omap (fun id => points q !! id) ids) else raise StorageError.

Definition client_upsert (id : Z) (p : Point) : M unit :=
  emit (QdrantUpsert id) ;;
  q <- get_qdrant ;;
  if up q then set_points (<[id := p]> (points q)) else raise StorageError.

Definition client_search (w : World) (query_vector : Embedding) (limit : Z)
  : M (list Point) :=
  emit (QdrantSearch limit) ;;
  q <- get_qdrant ;;
  if up q then ret (qdrant_search w (points q) query_vector limit)
  else raise StorageError.

(** [hash(jira_id) % (2**63)] *)
Definition point_id (w : World) (jira_id : pystr) : Z :=
  PyHash.hash_str (hash_secret w) jira_id mod 2 ^ 63.

(** [f"{x}"] *)
Definition format (w : World) (x : json) : pystr :=
  match x with
  | JStr s => s
  | _ => py_str w x
  end.

Definition store_test_case (w : World) (jira_id : pystr) (description test_cases : json)
  : M pystr :=
  let embedding_text := format w description ++ py " " ++ json_dumps w test_cases in
  let embedding := model_encode w embedding_text in
  let point_id := point_id w jira_id in
  client_upsert point_id
    {| vector := embedding;
       payload := Some [(py "jira_id", JStr jira_id);
                        (py "description", description);
                        (py "test_cases", test_cases)] |} ;;
  ret jira_id.

Definition retrieve_test_case (w : World) (jira_id : pystr) : M (option pydict) :=
  let point_id := point_id w jira_id in
  try_except
    (points <- client_retrieve [point_id] ;;
     match points with
     | p :: _ => ret (payload p)
     | [] => ret None
     end)
    (fun e => emit (Printed e) ;; ret None).

Definition search_similar_test_cases (w : World) (query : pystr) (limit : Z)
  : M (list (option pydict)) :=
  let query_embedding := model_encode w query in
  search_result <- client_search w query_embedding limit ;;
  ret (map payload search_result).

End VectorStore.

(** ** [backend/app/main.py] *)

Module Main.
Import VectorStore.

Local Open Scope string_scope.
Local Open Scope list_scope.
Local Open Scope Z_scope.

(** *** Models *)

Record JiraTicket := {
  jira_id : pystr;
  jira_username : option pystr;
  jira_api_token : option pystr;
  jira_base_url : option pystr
}.

Record TestCase := {
  test_id : pystr;
  title : pystr;
  steps : list pystr;
  expected_result : pystr
}.

Record TestCaseResponse := {
  response_jira_id : pystr;
  description : pystr;
  test_cases : list TestCase
}.

Record QueryRequest := { query : pystr; limit : Z }.

(** Validation of a value against a field's type.  A [str] field takes
    a string, a [List[...]] field a list whose items validate, and a
    model field a dict in which every field of the model is present and
    validates; other keys of the dict are dropped.  (Pydantic 1 would
    also turn a number into a [str]; the statements below concern
    strings, lists, dicts and missing keys only.) *)
Definition validate_str (x : json) : option pystr :=
  match x with
  | JStr s => Some s
  | _ => None
  end.

Definition validate_list {A} (item : json -> option A) (x : json) : option (list A) :=
  match x with
  | JArr l => mapM item l
  | _ => None
  end.

Definition validate_TestCase (x : json) : option TestCase :=
  match x with
  | JObj d =>
      i ← dict_lookup d (py "test_id") ≫= validate_str;
      t ← dict_lookup d (py "title") ≫= validate_str;
      s ← dict_lookup d (py "steps") ≫= validate_list validate_str;
      e ← dict_lookup d (py "expected_result") ≫= validate_str;
      Some {| test_id := i; title := t; steps := s; expected_result := e |}
  | _ => None
  end.

Definition validate_TestCaseResponse (jira_id : pystr) (description test_cases : json)
  : option TestCaseResponse :=
  d ← validate_str description;
  tcs ← validate_list validate_TestCase test_cases;
  Some {| response_jira_id := jira_id; description := d; test_cases := tcs |}.

(** [TestCaseResponse(jira_id=..., description=..., test_cases=...)] *)
Definition new_TestCaseResponse (jira_id : pystr) (description test_cases : json)
  : M TestCaseResponse :=
  from_option (validate_TestCaseResponse jira_id description test_cases) ValidationError.

(** *** Helper functions *)

Definition joinlines (lines : list string) : pystr :=
  match lines with
  | [] => []
  | l :: ls => pyq l ++ flat_map (fun x => 10%N :: pyq x) ls
  end.

(** [os.getenv(name, default)] *)
Definition getenv (w : World) (name default : string) : pystr :=
  match environ w (py name) with
  | Some v => v
  | None => py default
  end.

(** [x or default] for an optional string. *)
Definition or_else (x : option pystr) (default : pystr) : pystr :=
  match x with
  | Some s => if str_truthy s then s else default
  | None => default
  end.

(** [len(x)] evaluated for a log line. *)
Definition check_len (x : json) : M unit :=
  match py_len x with
  | Some _ => ret tt
  | None => raise TypeError
  end.

(** [x.get(k, default)] on a value that need not be a dict. *)
Definition value_get (x : json) (k : string) (default : json) : M json :=
  match x with
  | JObj d => ret (dict_get d (py k) default)
  | _ => raise AttributeError
  end.

Definition fetch_jira_description (w : World) (jira_id username api_token base_url : pystr)
  : M json :=
  if negb (str_truthy username && str_truthy api_token && str_truthy base_url)
  then raise (HTTPException 400 JiraCredentialsNotProvided)
  else
    let url := base_url ++ py "/rest/api/2/issue/" ++ jira_id in
    emit (JiraGet url username api_token) ;;
    match jira_get w url username api_token with
    | HttpRaises e => raise (HttpxError e)
    | HttpResponds status_code text json_body =>
        if negb (status_code =? 200)
        then raise (HTTPException status_code (ErrorFetchingJira text))
        else
          match json_body with
          | Json.DecErr e => raise (JSONDecodeError e)
          | Json.Dec data =>
              fields <- value_get data "fields" (JObj []) ;;
              value_get fields "description" (JStr (py "No description available"))
          end
    end.

(** The prompt up to the description. *)
Definition prompt_head : pystr :=
  joinlines
    ["You are a QA analyst. Based on the following JIRA ticket description, generate manual test cases in XRAY format with steps, expected result, and test ID.";
     EmptyString;
     "JIRA Description:";
     EmptyString].

(** The prompt after the description. *)
Definition prompt_tail : pystr :=
  joinlines
    [EmptyString;
     EmptyString;
     "Output format:";
     "[";
     "  {";
     "    'test_id': 'TC-001',";
     "    'title': 'Verify login with valid credentials',";
     "    'steps': ['Open login page', 'Enter valid credentials', 'Click login'],";
     "    'expected_result': 'User is logged in'";
     "  }";
     "]";
     EmptyString;
     "Return ONLY valid JSON without any extra text.";
     EmptyString].

(** The description used for a test request. *)
Definition mock_description : pystr :=
  joinlines
    [EmptyString;
     "            Test JIRA ticket description for IntelliX.AI";
     "            ";
     "            As a user, I want to be able to login to the system using my credentials";
     "            so that I can access my account and perform operations.";
     "            ";
     "            Acceptance Criteria:";
     "            1. User should be able to enter username and password";
     "            2. System should validate credentials";
     "            3. User should be redirected to dashboard on successful login";
     "            4. Error message should be shown for invalid credentials";
     "            5. 'Forgot Password' link should be available";
     "            "].

Definition max_retries : Z := 3.
Definition retry_delay : Z := 2.

(** The lines between [json_start = ...] and [return test_cases], on the
    text of the model's answer: the exception raised, or the parsed
    test cases. *)
Definition extract_test_cases (response_text : pystr) : PyExc + json :=
  let json_start := find response_text (ch "[") in
  let json_end := rfind response_text (ch "]") + 1 in
  if (json_start >=? 0) && (json_end >? 0) then
    let json_str := slice response_text json_start json_end in
    match Json.loads json_str with
    | Json.DecErr e => inl (JSONDecodeError e)
    | Json.Dec test_cases =>
        match py_len test_cases with
        | Some _ => inr test_cases
        | None => inl TypeError
        end
    end
  else inl (ValueError "No valid JSON found in response").

(** The body of the inner [try] on a 200 response: the value bound to
    [response_text] when the block is left, if any, and the result.
    [result.get] needs a dict, [response_text[:500]] a sequence, and
    [response_text.find] a string. *)
Definition parse_body (json_body : Json.decoded json) : option json * (PyExc + json) :=
  match json_body with
  | Json.DecErr e => (None, inl (JSONDecodeError e))
  | Json.Dec (JObj result) =>
      let response_text := dict_get result (py "response") (JStr []) in
      (Some response_text,
       match response_text with
       | JStr s => extract_test_cases s
       | JArr _ => inl AttributeError
       | _ => inl TypeError
       end)
  | Json.Dec _ => (None, inl AttributeError)
  end.

(** The inner [try] with its handler, whose log line evaluates
    [response_text[:500]] again before the [HTTPException] is raised. *)
Definition parse_response (json_body : Json.decoded json) : M json :=
  match parse_body json_body with
  | (_, inr test_cases) => ret test_cases
  | (None, inl _) => raise UnboundLocalError
  | (Some (JStr _), inl e) | (Some (JArr _), inl e) =>
      raise (HTTPException 500 (FailedToParse e))
  | (Some _, inl _) => raise TypeError
  end.

(** What one iteration of the loop does. *)
Inductive Step :=
| Return (test_cases : json)
| NextIteration.

(** [retry_count += 1; await asyncio.sleep(retry_delay * (2 ** retry_count))] *)
Definition back_off (retry_count : Z) : M Step :=
  let retry_count := retry_count + 1 in
  emit (Sleep (retry_delay * 2 ^ retry_count)) ;;
  ret NextIteration.

(** One iteration: the outer [try] with its two handlers. *)
Definition attempt (w : World) (url model prompt : pystr) (retry_count : Z) : M Step :=
  try_except
    (n <- next_post ;;
     emit (OllamaPost url model prompt) ;;
     match ollama_post w n url model prompt with
     | HttpRaises e => raise (HttpxError e)
     | HttpResponds status_code text json_body =>
         if negb (status_code =? 200) then
           if retry_count =? max_retries - 1
           then raise (HTTPException 500 (ErrorGeneratingResponse text))
           else back_off retry_count
         else
           test_cases <- parse_response json_body ;;
           ret (Return test_cases)
     end)
    (fun e =>
       match e with
       | HttpxError ReadTimeout | HttpxError ConnectTimeout =>
           if retry_count =? max_retries - 1
           then raise (HTTPException 500 (TimeoutAfterAttempts max_retries e))
           else back_off retry_count
       | _ => raise (HTTPException 500 (ErrorCommunicating e))
       end).

(** [while retry_count < max_retries]: every iteration that does not
    leave the function adds one to [retry_count], so the loop is a
    recursion on the iterations that remain, [max_retries - retry_count].
    Past the loop the function ends without a [return], which gives
    [None]. *)
Fixpoint while_retry (w : World) (url model prompt : pystr) (remaining : nat) : M json :=
  match remaining with
  | O => ret JNull
  | S remaining' =>
      let retry_count := max_retries - Z.of_nat remaining in
      step <- attempt w url model prompt retry_count ;;
      match step with
      | Return test_cases => ret test_cases
      | NextIteration => while_retry w url model prompt remaining'
      end
  end.

Definition generate_test_cases (w : World) (description : json) : M json :=
  let ollama_base := getenv w "OLLAMA_API_BASE" "http://localhost:11434" in
  let ollama_base :=
    if lower_is (getenv w "DOCKER_CONTAINER" "false") "true"
    then py "http://host.docker.internal:11434"
    else ollama_base in
  let model := getenv w "OLLAMA_MODEL" "deepseek-r1:8b" in
  (if float_accepts w (getenv w "OLLAMA_TIMEOUT" "120.0") then ret tt
   else raise (ValueError "could not convert string to float")) ;;
  let prompt := prompt_head ++ format w description ++ prompt_tail in
  while_retry w (ollama_base ++ py "/api/generate") model prompt (Z.to_nat max_retries).

(** *** API endpoints *)

(** The part of [generate_test_case] that obtains the description: the
    fixed text for a test request, the ticket tracker otherwise. *)
Definition obtain_description (w : World) (ticket : JiraTicket)
    (username api_token base_url : pystr) : M json :=
  let is_test_request :=
    pystr_eqb username (py "test_user") && pystr_eqb api_token (py "test_token") in
  if is_test_request then ret (JStr mock_description)
  else
    description <- fetch_jira_description w (jira_id ticket) username api_token base_url ;;
    check_len description ;;
    ret description.

(** The part of [generate_test_case] after a cache miss. *)
Definition generate_and_schedule (w : World) (ticket : JiraTicket)
    (username api_token base_url : pystr) : M TestCaseResponse :=
  description <- obtain_description w ticket username api_token base_url ;;
  test_cases <- generate_test_cases w description ;;
  check_len test_cases ;;
  add_task {| task_jira_id := jira_id ticket;
              task_description := description;
              task_test_cases := test_cases |} ;;
  new_TestCaseResponse (jira_id ticket) description test_cases.

(** POST /generate-test-case: the handler. *)
Definition generate_test_case (w : World) (ticket : JiraTicket) : M TestCaseResponse :=
  try_except
    (let username := or_else (jira_username ticket) (getenv w "JIRA_USERNAME" EmptyString) in
     let api_token := or_else (jira_api_token ticket) (getenv w "JIRA_API_TOKEN" EmptyString) in
     let base_url := or_else (jira_base_url ticket) (getenv w "JIRA_BASE_URL" EmptyString) in
     stored_case <- retrieve_test_case w (jira_id ticket) ;;
     match stored_case with
     | Some ((_ :: _) as stored) =>
         new_TestCaseResponse (jira_id ticket)
           (dict_get stored (py "description") (JStr []))
           (dict_get stored (py "test_cases") (JArr []))
     | _ => generate_and_schedule w ticket username api_token base_url
     end)
    (fun e => raise (HTTPException 500 (ErrorGenerating e))).

(** The background tasks of a request run in order once its response
    is made; the first exception ends them and reaches the server's log
    only. *)
Fixpoint run_tasks (w : World) (ts : list Task) : M unit :=
  match ts with
  | [] => ret tt
  | t :: ts' =>
      store_test_case w (task_jira_id t) (task_description t) (task_test_cases t) ;;
      run_tasks w ts'
  end.

Definition run_background (w : World) (ts : list Task) : M unit :=
  try_except (run_tasks w ts) (fun e => emit (TaskFailed e)).

Definition clear_tasks : M unit :=
  fun s => (Returns tt,
            {| qdrant := qdrant s; posts := posts s; log := log s; tasks := [] |}).

(** POST /generate-test-case as the caller sees it: the handler runs
    with a fresh [background_tasks], its outcome is the caller's, and the
    tasks run only when the handler returned. *)
Definition serve_generate_test_case (w : World) (ticket : JiraTicket) : M TestCaseResponse :=
  fun s =>
    match (clear_tasks ;; generate_test_case w ticket) s with
    | (Returns response, s') =>
        (Returns response, snd ((run_background w (tasks s') ;; clear_tasks) s'))
    | (Raises e, s') => (Raises e, snd (clear_tasks s'))
    end.

(** GET /fetch-stored-case/{jira_id} *)
Definition fetch_stored_case (w : World) (jira_id : pystr) : M TestCaseResponse :=
  stored_case <- retrieve_test_case w jira_id ;;
  match stored_case with
  | Some ((_ :: _) as stored) =>
      new_TestCaseResponse jira_id
        (dict_get stored (py "description") (JStr []))
        (dict_get stored (py "test_cases") (JArr []))
  | _ => raise (HTTPException 404 (NoTestCasesFound jira_id))
  end.

Definition payload_value (p : option pydict) : json :=
  match p with
  | Some d => JObj d
  | None => JNull
  end.

(** POST /search-test-cases *)
Definition search_test_cases (w : World) (q : QueryRequest) : M json :=
  results <- search_similar_test_cases w (query q) (limit q) ;;
  match results with
  | [] => ret (JObj [(py "message", JStr (py "No matching test cases found"));
                     (py "results", JArr [])])
  | _ => ret (JObj [(py "results", JArr (map payload_value results))])
  end.

End Main.

(** ** Sample worlds, for the examples below *)

Module Sample.
Import Main.

Local Open Scope string_scope.
Local Open Scope list_scope.
Local Open Scope Z_scope.

(** A reachable server with an empty collection, and one that cannot be
    reached. *)
Definition initial : State :=
  {| qdrant := {| up := true; points := ∅ |}; posts := 0; log := []; tasks := [] |}.

Definition unreachable : State :=
  {| qdrant := {| up := false; points := ∅ |}; posts := 0; log := []; tasks := [] |}.

(** A process started with PYTHONHASHSEED=[seed] and no other setting,
    whose model endpoint answers the n-th call with [post n], and whose
    ticket tracker refuses connections. *)
Definition world (seed : Z) (post : nat -> HttpOutcome) : World :=
  {| hash_secret := PyHash.secret_of_seed seed;
     environ := fun _ => None;
     float_accepts := fun text => pystr_eqb text (py "120.0");
     py_str := fun _ => py "None";
     json_dumps := fun _ => py "[]";
     model_encode := fun _ => [];
     jira_get := fun _ _ _ => HttpRaises ConnectError;
     ollama_post := fun n _ _ _ => post n;
     qdrant_search := fun pts _ limit => take (Z.to_nat limit) (map snd (map_to_list pts)) |}.

(** The 200 answer of the model endpoint whose [response] is [text]
    (free of control characters). *)
Definition answer (text : pystr) : HttpOutcome :=
  let body :=
    pyq "{'response':'"
    ++ flat_map (fun c => if N.eqb c quote || N.eqb c (ch "\") then [ch "\"; c] else [c]) text
    ++ pyq "'}" in
  HttpResponds 200 body (Json.loads body).

(** A reachable server that holds one point for the ticket, with the
    given payload. *)
Definition holding (w : World) (jira_id : pystr) (p : option pydict) : State :=
  {| qdrant := {| up := true;
                  points := {[ VectorStore.point_id w jira_id :=
                                 {| vector := []; payload := p |} ]} |};
     posts := 0; log := []; tasks := [] |}.

(** A stored record with one test case, which carries a key that is no
    field of a TestCase. *)
Definition login_record : pydict :=
  [(py "jira_id", JStr (py "PROJ-1"));
   (py "description", JStr (py "Login page"));
   (py "test_cases",
    JArr [JObj [(py "test_id", JStr (py "TC-001"));
                (py "title", JStr (py "Valid login"));
                (py "steps", JArr [JStr (py "Open login page"); JStr (py "Click login")]);
                (py "expected_result", JStr (py "User is logged in"));
                (py "priority", JStr (py "high"))]])].

(** A process whose model endpoint answers every call with [text]. *)
Definition answering (text : pystr) : World :=
  world 0 (fun _ => answer text).

(** A request that carries the test credentials, and one without
    credentials. *)
Definition test_ticket : JiraTicket :=
  {| jira_id := py "PROJ-1";
     jira_username := Some (py "test_user");
     jira_api_token := Some (py "test_token");
     jira_base_url := None |}.

(** A model output with commentary around the array. *)
Definition chatty_output : pystr :=
  pyq "Sure! [{'test_id':'TC-001','title':'t','steps':['a'],'expected_result':'r'}] Hope this helps".

Definition plain_ticket : JiraTicket :=
  {| jira_id := py "PROJ-1";
     jira_username := None;
     jira_api_token := None;
     jira_base_url := None |}.

End Sample.

(** ** Vocabulary of the statements *)

Module Statements.
Import Main.

Local Open Scope string_scope.
Local Open Scope list_scope.
Local Open Scope Z_scope.

(** The call ends in a read or connect timeout. *)
Definition is_timeout (o : HttpOutcome) : Prop :=
  o = HttpRaises ReadTimeout ∨ o = HttpRaises ConnectTimeout.

(** The OLLAMA_TIMEOUT setting, or its default, is a number. *)
Definition timeout_setting_ok (w : World) : Prop :=
  float_accepts w (getenv w "OLLAMA_TIMEOUT" "120.0") = true.

(** The URL, the model name and the prompt that [generate_test_cases]
    sends, and the state after one more POST of them. *)
Definition ollama_url (w : World) : pystr :=
  (if lower_is (getenv w "DOCKER_CONTAINER" "false") "true"
   then py "http://host.docker.internal:11434"
   else getenv w "OLLAMA_API_BASE" "http://localhost:11434") ++ py "/api/generate".

Definition ollama_model (w : World) : pystr := getenv w "OLLAMA_MODEL" "deepseek-r1:8b".

Definition prompt_for (w : World) (description : json) : pystr :=
  prompt_head ++ VectorStore.format w description ++ prompt_tail.

Definition posted (w : World) (description : json) (s : State) : State :=
  {| qdrant := qdrant s; posts := S (posts s);
     log := log s ++ [OllamaPost (ollama_url w) (ollama_model w) (prompt_for w description)];
     tasks := tasks s |}.

(** The state with more events in its log. *)
Definition logged (s : State) (events : list Event) : State :=
  {| qdrant := qdrant s; posts := posts s; log := log s ++ events; tasks := tasks s |}.

(** The state with no background task. *)
Definition no_tasks (s : State) : State :=
  {| qdrant := qdrant s; posts := posts s; log := log s; tasks := [] |}.

(** What [retrieve_test_case] finds for a ticket, and what it logs. *)
Definition cached (w : World) (jira_id : pystr) (s : State) : option pydict :=
  if up (qdrant s)
  then points (qdrant s) !! VectorStore.point_id w jira_id ≫= payload
  else None.

Definition lookup_events (w : World) (jira_id : pystr) (s : State) : list Event :=
  QdrantRetrieve [VectorStore.point_id w jira_id]
  :: (if up (qdrant s) then [] else [Printed StorageError]).

(** The credentials [generate_test_case] works with. *)
Definition username_of (w : World) (ticket : JiraTicket) : pystr :=
  or_else (jira_username ticket) (getenv w "JIRA_USERNAME" EmptyString).

Definition api_token_of (w : World) (ticket : JiraTicket) : pystr :=
  or_else (jira_api_token ticket) (getenv w "JIRA_API_TOKEN" EmptyString).

Definition base_url_of (w : World) (ticket : JiraTicket) : pystr :=
  or_else (jira_base_url ticket) (getenv w "JIRA_BASE_URL" EmptyString).

(** The exception is, or quotes, a failure of the backing store. *)
Fixpoint mentions_storage_error (e : PyExc) : bool :=
  match e with
  | StorageError => true
  | HTTPException _ d => detail_mentions_storage_error d
  | _ => false
  end
with detail_mentions_storage_error (d : Detail) : bool :=
  match d with
  | FailedToParse e | TimeoutAfterAttempts _ e | ErrorCommunicating e | ErrorGenerating e =>
      mentions_storage_error e
  | _ => false
  end.

(** "The operation surfaces the StorageError": with the server out of
    reach it raises, and the exception tells so. *)
Definition surfaces_storage_error {A} (c : M A) : Prop :=
  ∀ s, up (qdrant s) = false →
       ∃ e, fst (c s) = Raises e ∧ mentions_storage_error e = true.

(** The computation leaves the store and the background tasks as they
    are. *)
Definition preserves {A} (c : M A) : Prop :=
  ∀ s, qdrant (snd (c s)) = qdrant s ∧ tasks (snd (c s)) = tasks s.

(** How the cached branch reads a field of the stored payload: the
    value when present and of the field's type, the default when the key
    is missing. *)
Definition description_reads (stored : pydict) (d : pystr) : Prop :=
  dict_lookup stored (py "description") = Some (JStr d)
  ∨ (dict_lookup stored (py "description") = None ∧ d = []).

Definition test_cases_read (stored : pydict) (tcs : list TestCase) : Prop :=
  (∃ entries, dict_lookup stored (py "test_cases") = Some (JArr entries)
              ∧ mapM validate_TestCase entries = Some tcs)
  ∨ (dict_lookup stored (py "test_cases") = None ∧ tcs = []).

(** The handler of [generate_test_case] around the path of a cache
    miss. *)
Definition regenerate (w : World) (ticket : JiraTicket) : M TestCaseResponse :=
  try_except
    (generate_and_schedule w ticket
       (username_of w ticket) (api_token_of w ticket) (base_url_of w ticket))
    (fun e => raise (HTTPException 500 (ErrorGenerating e))).

(** The entry is a dict without one of the four fields of a TestCase. *)
Definition lacks_field (entry : json) : Prop :=
  ∃ d field,
    entry = JObj d
    ∧ field ∈ [py "test_id"; py "title"; py "steps"; py "expected_result"]
    ∧ dict_lookup d field = None.

(** The n-th call to the model endpoint is answered with status 200 and
    the model's output is [text]. *)
Definition answers_with (w : World) (n : nat) (text : pystr) : Prop :=
  ∃ body result,
    (∀ url model prompt,
       ollama_post w n url model prompt = HttpResponds 200 body (Json.Dec (JObj result)))
    ∧ dict_lookup result (py "response") = Some (JStr text).

(** The output has no [[] or no []], or what lies from the first [[] to
    the last []] is not JSON. *)
Definition no_json_array (text : pystr) : Prop :=
  ch "[" ∉ text ∨ ch "]" ∉ text
  ∨ ∃ e, Json.loads (slice text (find text (ch "[")) (rfind text (ch "]") + 1))
         = Json.DecErr e.

(** "An entry that misses fields is kept": a request whose model
    output parses to an array of dicts answers with one test case per
    entry. *)
Definition tolerates_missing_fields : Prop :=
  ∀ (w : World) (ticket : JiraTicket) (s : State) (text : pystr) (entries : list json),
    timeout_setting_ok w →
    cached w (jira_id ticket) s = None →
    username_of w ticket = py "test_user" →
    api_token_of w ticket = py "test_token" →
    answers_with w (posts s) text →
    extract_test_cases text = inr (JArr entries) →
    Forall (fun entry => ∃ d, entry = JObj d) entries →
    ∃ response,
      fst (serve_generate_test_case w ticket s) = Returns response
      ∧ length (test_cases response) = length entries.

(** "The retry policy applies to exception [e]": an endpoint that raises
    [e] on every call is called three times. *)
Definition retried_three_times (e : httpx_error) : Prop :=
  ∀ (w : World) (description : json) (s : State),
    timeout_setting_ok w →
    (∀ n url model prompt, ollama_post w n url model prompt = HttpRaises e) →
    posts (snd (generate_test_cases w description s)) = (posts s + 3)%nat.

End Statements.
Export Statements.

(** ** [backend/app/vector_store.py]: start-up *)

Module Startup.

Local Open Scope string_scope.
Local Open Scope list_scope.
Local Open Scope Z_scope.

Definition MAX_RETRIES : Z := 3.

(** The loaded sentence transformer, as far as the code uses it. *)
Definition Encoder := pystr -> Embedding.

(** [for attempt in range(MAX_RETRIES)]: the loop that loads the
    embedding model when the module is imported.  [load attempt] is what
    [SentenceTransformer('all-MiniLM-L6-v2')] does at that attempt;
    [model] is the module's variable, [None] at first.  The result is
    the variable when the loop is left. *)
Fixpoint load_loop (load : nat -> PyExc + Encoder) (attempt remaining : nat)
    (model : option Encoder) : M (option Encoder) :=
  match remaining with
  | O => ret model
  | S remaining' =>
      match load attempt with
      | inr m => ret (Some m)
      | inl e =>
          if Z.of_nat attempt <? MAX_RETRIES - 1 then
            let wait_time := (Z.of_nat attempt + 1) * 5 in
            emit (Sleep wait_time) ;;
            load_loop load (S attempt) remaining' model
          else raise e
      end
  end.

Definition load_model (load : nat -> PyExc + Encoder) : M (option Encoder) :=
  load_loop load 0 (Z.to_nat MAX_RETRIES) None.

(** [VectorStore.model_is_loaded]: [model is not None]. *)
Definition model_is_loaded (model : option Encoder) : bool :=
  match model with
  | Some _ => true
  | None => false
  end.

(** The collections of the Qdrant server, in the order
    [get_collections] lists them, with their vector parameters. *)
Inductive Distance := COSINE | EUCLID | DOT | MANHATTAN.

Record VectorParams := { vector_size : Z; distance : Distance }.

Record Server := { reachable : bool; collections : list (pystr * VectorParams) }.

Definition collection_name : pystr := py "test_cases".

(** [VectorStore._create_collection_if_not_exists]; both client calls
    raise when the server cannot be reached. *)
Definition create_collection_if_not_exists (srv : Server) : PyExc + Server :=
  if reachable srv then
    let collection_names := map fst (collections srv) in
    if negb (existsb (pystr_eqb collection_name) collection_names) then
      inr {| reachable := true;
             collections :=
               collections srv
               ++ [(collection_name, {| vector_size := 384; distance := COSINE |})] |}
    else inr srv
  else inl StorageError.

End Startup.

(** ** [backend/app/main.py]: the other endpoints *)

Module Endpoints.
Import Main VectorStore.

Local Open Scope string_scope.
Local Open Scope list_scope.
Local Open Scope Z_scope.

(** [for x in value]: the items of a list, the characters of a string,
    the keys of a dict; [None] where Python raises [TypeError]. *)
Definition py_iter (value : json) : option (list json) :=
  match value with
  | JArr items => Some items
  | JStr s => Some (map (fun c => JStr [c]) s)
  | JObj d => Some (map (fun kv => JStr (fst kv)) d)
  | _ => None
  end.

(** [str(n)] for a natural number. *)
Definition decimal (n : nat) : pystr := py (NilEmpty.string_of_uint (Nat.to_uint n)).

(** [sep.join(parts)] *)
Definition join (sep : pystr) (parts : list pystr) : pystr :=
  match parts with
  | [] => []
  | p :: ps => p ++ flat_map (fun x => sep ++ x) ps
  end.

(** A row of the CSV file, by column. *)
Record CsvRow := {
  row_test_id : json;          (* "Test ID" *)
  row_title : json;            (* "Title" *)
  row_steps : pystr;           (* "Steps" *)
  row_expected_result : json   (* "Expected Result" *)
}.

(** [f"{i+1}. {step}"] *)
Definition numbered_step (w : World) (i : nat) (step : json) : pystr :=
  decimal (i + 1) ++ py ". " ++ format w step.

(** The body of the loop of [create_csv_file] for one test case. *)
Definition csv_row (w : World) (tc : json) : PyExc + CsvRow :=
  match tc with
  | JObj d =>
      match py_iter (dict_get d (py "steps") (JArr [])) with
      | Some steps =>
          let steps_str := join [10%N] (imap (numbered_step w) steps) in
          inr {| row_test_id := dict_get d (py "test_id") (JStr []);
                 row_title := dict_get d (py "title") (JStr []);
                 row_steps := steps_str;
                 row_expected_result := dict_get d (py "expected_result") (JStr []) |}
      | None => inl TypeError
      end
  | _ => inl AttributeError
  end.

(** The loop of [create_csv_file]: the rows, or the first exception. *)
Fixpoint csv_rows (w : World) (test_cases : list json) : PyExc + list CsvRow :=
  match test_cases with
  | [] => inr []
  | tc :: rest =>
      match csv_row w tc with
      | inl e => inl e
      | inr row =>
          match csv_rows w rest with
          | inl e => inl e
          | inr rows => inr (row :: rows)
          end
      end
  end.

(** [create_csv_file]: the path of the file and the rows handed to
    pandas, which writes them under the four column names; [uuid] is the
    text of [uuid.uuid4()]. *)
Definition create_csv_file (w : World) (uuid jira_id : pystr) (test_cases : json)
  : PyExc + (pystr * list CsvRow) :=
  let filename := py "test_cases_" ++ jira_id ++ py "_" ++ uuid ++ py ".csv" in
  match py_iter test_cases with
  | None => inl TypeError
  | Some tcs =>
      match csv_rows w tcs with
      | inl e => inl e
      | inr rows => inr (py "/tmp/" ++ filename, rows)
      end
  end.

Record FileResponse := {
  file_path : pystr;
  media_type : pystr;
  file_name : pystr;
  file_rows : list CsvRow    (* what the file at [file_path] holds *)
}.

(** GET /get-test-case-csv/{jira_id} *)
Definition get_test_case_csv (w : World) (uuid jira_id : pystr) : M FileResponse :=
  stored_case <- retrieve_test_case w jira_id ;;
  match stored_case with
  | Some ((_ :: _) as stored) =>
      let test_cases := dict_get stored (py "test_cases") (JArr []) in
      match create_csv_file w uuid jira_id test_cases with
      | inl e => raise e
      | inr (csv_path, rows) =>
          ret {| file_path := csv_path;
                 media_type := py "text/csv";
                 file_name := py "test_cases_" ++ jira_id ++ py ".csv";
                 file_rows := rows |}
      end
  | _ => raise (HTTPException 404 (NoTestCasesFound jira_id))
  end.

(** GET /health *)
Definition health_check (model : option Startup.Encoder) : pydict :=
  [(py "status", JStr (py "ok"));
   (py "message", JStr (py "Backend API is running"));
   (py "version", JStr (py "1.0.0"));
   (py "model_loaded", JBool (Startup.model_is_loaded model))].

(** GET /test-ollama-api.  What the first [try] leaves in
    [version_info], and what the second leaves in [generation_result]. *)
Inductive VersionInfo :=
| VersionIs (info : json)        (* version_resp.json() *)
| VersionNone                    (* None *)
| VersionError (e : PyExc).      (* {"error": str(e)} *)

Inductive GenerationResult :=
| Generated (status_code : Z)                        (* success: True *)
| NotGenerated (status_code : Z) (error : pystr)     (* success: False, error: gen_resp.text *)
| GenerationError (e : PyExc).                       (* success: False, error: str(e) *)

Record OllamaReport := {
  version_success : bool;     (* version_api_check.success *)
  version_result : VersionInfo;
  generate_api_check : GenerationResult;
  report_ollama_base : pystr;
  report_model : pystr;
  report_timeout : pystr      (* the text the timeout was read from *)
}.

Definition version_check (version : HttpOutcome) : VersionInfo :=
  match version with
  | HttpRaises e => VersionError (HttpxError e)
  | HttpResponds status_code _ json_body =>
      if status_code =? 200 then
        match json_body with
        | Json.Dec info => VersionIs info
        | Json.DecErr e => VersionError (JSONDecodeError e)
        end
      else VersionNone
  end.

(** [version_info is not None]; a JSON [null] is [None]. *)
Definition is_not_None (info : VersionInfo) : bool :=
  match info with
  | VersionNone | VersionIs JNull => false
  | _ => true
  end.

Definition generation_check (generation : HttpOutcome) : GenerationResult :=
  match generation with
  | HttpRaises e => GenerationError (HttpxError e)
  | HttpResponds status_code text _ =>
      if status_code =? 200 then Generated status_code
      else NotGenerated status_code text
  end.

(** [version] is what the GET of [{ollama_base}/api/version] does;
    the POST is the next one to the model endpoint. *)
Definition test_ollama_api (w : World) (version : pystr -> HttpOutcome) : M OllamaReport :=
  let ollama_base := getenv w "OLLAMA_API_BASE" "http://localhost:11434" in
  let ollama_base :=
    if lower_is (getenv w "DOCKER_CONTAINER" "false") "true"
    then py "http://host.docker.internal:11434"
    else ollama_base in
  let model := getenv w "OLLAMA_MODEL" "deepseek-r1:8b" in
  let timeout := getenv w "OLLAMA_TIMEOUT" "120.0" in
  (if float_accepts w timeout then ret tt
   else raise (ValueError "could not convert string to float")) ;;
  let version_info := version_check (version (ollama_base ++ py "/api/version")) in
  n <- next_post ;;
  let url := ollama_base ++ py "/api/generate" in
  let prompt := py "Generate a simple test case for a login page" in
  emit (OllamaPost url model prompt) ;;
  let generation_result := generation_check (ollama_post w n url model prompt) in
  ret {| version_success := is_not_None version_info;
         version_result := version_info;
         generate_api_check := generation_result;
         report_ollama_base := ollama_base;
         report_model := model;
         report_timeout := timeout |}.

End Endpoints.

(** ** Vocabulary of the further statements *)

Module Footprint.
Import Main.

Local Open Scope string_scope.
Local Open Scope list_scope.
Local Open Scope Z_scope.

(** What a computation asks of the outside: lookups in the store, calls
    to the ticket tracker, calls to the model endpoint, seconds slept,
    and writes to the store. *)
Record Calls := {
  lookups : nat;
  tracker_calls : nat;
  model_calls : nat;
  slept : Z;
  writes : nat
}.

Definition no_calls : Calls :=
  {| lookups := 0; tracker_calls := 0; model_calls := 0; slept := 0; writes := 0 |}.

Definition plus (a b : Calls) : Calls :=
  {| lookups := lookups a + lookups b;
     tracker_calls := tracker_calls a + tracker_calls b;
     model_calls := model_calls a + model_calls b;
     slept := slept a + slept b;
     writes := writes a + writes b |}.

Definition cost (ev : Event) : Calls :=
  match ev with
  | QdrantRetrieve _ =>
      {| lookups := 1; tracker_calls := 0; model_calls := 0; slept := 0; writes := 0 |}
  | JiraGet _ _ _ =>
      {| lookups := 0; tracker_calls := 1; model_calls := 0; slept := 0; writes := 0 |}
  | OllamaPost _ _ _ =>
      {| lookups := 0; tracker_calls := 0; model_calls := 1; slept := 0; writes := 0 |}
  | Sleep seconds =>
      {| lookups := 0; tracker_calls := 0; model_calls := 0; slept := seconds; writes := 0 |}
  | QdrantUpsert _ =>
      {| lookups := 0; tracker_calls := 0; model_calls := 0; slept := 0; writes := 1 |}
  | _ => no_calls
  end.

Definition tally (events : list Event) : Calls :=
  foldr (fun ev total => plus (cost ev) total) no_calls events.

(** [a] is within the budget [b]. *)
Definition fits (a b : Calls) : Prop :=
  (lookups a <= lookups b)%nat
  ∧ (tracker_calls a <= tracker_calls b)%nat
  ∧ (model_calls a <= model_calls b)%nat
  ∧ slept a <= slept b
  ∧ (writes a <= writes b)%nat.

(** The computation only appends to the log, and what it appends is
    within the budget. *)
Definition spends {A} (c : M A) (budget : Calls) : Prop :=
  ∀ s, ∃ events, log (snd (c s)) = log s ++ events ∧ fits (tally events) budget.

Definition one_lookup : Calls :=
  {| lookups := 1; tracker_calls := 0; model_calls := 0; slept := 0; writes := 0 |}.

Definition one_tracker_call : Calls :=
  {| lookups := 0; tracker_calls := 1; model_calls := 0; slept := 0; writes := 0 |}.

Definition one_write : Calls :=
  {| lookups := 0; tracker_calls := 0; model_calls := 0; slept := 0; writes := 1 |}.

(** So many calls to the model endpoint and so many seconds of sleep,
    and nothing else. *)
Definition loop_budget (model_calls : nat) (seconds : Z) : Calls :=
  {| lookups := 0; tracker_calls := 0; model_calls := model_calls;
     slept := seconds; writes := 0 |}.

(** The most a request to POST /generate-test-case asks for. *)
Definition request_budget : Calls :=
  {| lookups := 1; tracker_calls := 1; model_calls := 3; slept := 12; writes := 1 |}.

(** The call fails in a way the loop retries: a read or connect
    timeout, or an answer whose status is not 200. *)
Definition retryable (o : HttpOutcome) : Prop :=
  is_timeout o
  ∨ ∃ status_code text json_body,
      o = HttpResponds status_code text json_body ∧ status_code ≠ 200.

(** The events of [k] failed attempts of the loop, each followed by its
    back-off. *)
Definition failed_attempts (w : World) (description : json) (k : nat) : list Event :=
  flat_map (fun i => [OllamaPost (ollama_url w) (ollama_model w) (prompt_for w description);
                      Sleep (retry_delay * 2 ^ (Z.of_nat i + 1))])
           (seq 0 k).

(** The row of the CSV file for a test case of a response. *)
Definition row_of (t : TestCase) : Endpoints.CsvRow :=
  {| Endpoints.row_test_id := JStr (test_id t);
     Endpoints.row_title := JStr (title t);
     Endpoints.row_steps :=
       Endpoints.join [10%N]
         (imap (fun i step => Endpoints.decimal (i + 1) ++ py ". " ++ step) (steps t));
     Endpoints.row_expected_result := JStr (expected_result t) |}.

(** The file GET /get-test-case-csv answers with. *)
Definition csv_file (uuid jira_id : pystr) (rows : list Endpoints.CsvRow)
  : Endpoints.FileResponse :=
  {| Endpoints.file_path :=
       py "/tmp/" ++ (py "test_cases_" ++ jira_id ++ py "_" ++ uuid ++ py ".csv");
     Endpoints.media_type := py "text/csv";
     Endpoints.file_name := py "test_cases_" ++ jira_id ++ py ".csv";
     Endpoints.file_rows := rows |}.

(** A test case the export can write: a dict whose steps, when it has
    any, can be iterated. *)
Definition exportable (tc : json) : Prop :=
  ∃ d, tc = JObj d ∧ Endpoints.py_iter (dict_get d (py "steps") (JArr [])) ≠ None.

(** The back-offs of [k] failed attempts to load the embedding model. *)
Definition load_back_offs (k : nat) : list Event :=
  map (fun attempt => Sleep ((Z.of_nat attempt + 1) * 5)) (seq 0 k).

(** The base URL of the model endpoint, as GET /test-ollama-api
    computes it. *)
Definition ollama_base (w : World) : pystr :=
  if lower_is (getenv w "DOCKER_CONTAINER" "false") "true"
  then py "http://host.docker.internal:11434"
  else getenv w "OLLAMA_API_BASE" "http://localhost:11434".

(** The state after the one POST of GET /test-ollama-api. *)
Definition probed (w : World) (s : State) : State :=
  {| qdrant := qdrant s; posts := S (posts s);
     log := log s ++ [OllamaPost (ollama_base w ++ py "/api/generate") (ollama_model w)
                        (py "Generate a simple test case for a login page")];
     tasks := tasks s |}.

End Footprint.
Export Footprint.

(** ** More sample worlds *)

Module Scenario.
Import Main.

Local Open Scope string_scope.
Local Open Scope list_scope.
Local Open Scope Z_scope.

(** A process whose model endpoint times out [k] times and then answers
    every call with [text]. *)
Definition flaky (k : nat) (text : pystr) : World :=
  Sample.world 0 (fun n => if (n <? k)%nat then HttpRaises ReadTimeout
                           else Sample.answer text).

(** A process whose model endpoint answers every call with status 503. *)
Definition overloaded : World :=
  Sample.world 0 (fun _ => HttpResponds 503 (py "busy") (Json.loads (py "busy"))).

(** A model output that is the array alone. *)
Definition bare_output : pystr :=
  pyq "[{'test_id':'TC-001','title':'t','steps':['a'],'expected_result':'r'}]".

(** A process whose ticket tracker answers every call with [o], and
    whose model endpoint answers every call with [bare_output]. *)
Definition tracking (o : HttpOutcome) : World :=
  {| hash_secret := PyHash.secret_of_seed 0;
     environ := fun _ => None;
     float_accepts := fun text => pystr_eqb text (py "120.0");
     py_str := fun _ => py "None";
     json_dumps := fun _ => py "[]";
     model_encode := fun _ => [];
     jira_get := fun _ _ _ => o;
     ollama_post := fun _ _ _ _ => Sample.answer bare_output;
     qdrant_search := fun pts _ limit => take (Z.to_nat limit) (map snd (map_to_list pts)) |}.

(** A request with credentials of its own. *)
Definition real_ticket : JiraTicket :=
  {| jira_id := py "PROJ-1";
     jira_username := Some (py "alice");
     jira_api_token := Some (py "secret");
     jira_base_url := Some (py "https://jira.example.com") |}.

(** The tracker's answer for a ticket that does not exist, and for one
    whose description was left empty. *)
Definition not_found : HttpOutcome :=
  HttpResponds 404 (py "Issue does not exist") (Json.loads (py "Issue does not exist")).

Definition empty_description : HttpOutcome :=
  HttpResponds 200 (pyq "{'fields':{'description':null}}")
    (Json.loads (pyq "{'fields':{'description':null}}")).

(** Loading the embedding model fails [k] times with a connection
    error, then gives a model. *)
Definition slow_download (k : nat) (attempt : nat) : PyExc + Startup.Encoder :=
  if (attempt <? k)%nat then inl (HttpxError ConnectError) else inr (fun _ => []).

(** A server that already has the collection, with vectors of another
    size. *)
Definition other_size : Startup.Server :=
  {| Startup.reachable := true;
     Startup.collections :=
       [(py "test_cases",
         {| Startup.vector_size := 768; Startup.distance := Startup.DOT |})] |}.

End Scenario.

(** Runs the monad's operations in the goal. *)
Ltac run :=
  repeat (progress (unfold bind, ret, raise, emit, try_except, next_post, add_task,
                      get_qdrant, set_points, from_option; simpl)).

Arguments ch : simpl never.
Arguments py : simpl never.
Arguments pyq : simpl never.
Arguments Main.joinlines : simpl never.
Arguments Main.getenv : simpl never.

(** * Properties *)

(** ** Searching and slicing strings *)

Section StringFacts.

Local Open Scope Z_scope.

Lemma find_from_absent (c : N) (s : pystr) (i : Z) :
  c ∉ s → find_from c s i = -1.
Proof.
  revert i. induction s as [|x s IH]; intros i Hc; simpl; [reflexivity|].
  destruct (N.eqb_spec x c) as [->|Hne].
  - exfalso. apply Hc. left.
  - apply IH. intros Hin. apply Hc. by right.
Qed.

Lemma find_from_first (c : N) (pre rest : pystr) (i : Z) :
  c ∉ pre → find_from c (pre ++ c :: rest) i = i + Z.of_nat (length pre).
Proof.
  revert i. induction pre as [|x pre IH]; intros i Hc; simpl.
  - rewrite N.eqb_refl. lia.
  - destruct (N.eqb_spec x c) as [->|Hne].
    + exfalso. apply Hc. left.
    + rewrite IH; [lia|]. intros Hin. apply Hc. by right.
Qed.

Lemma find_from_present (c : N) (s : pystr) (i : Z) :
  c ∈ s → i <= find_from c s i < i + Z.of_nat (length s).
Proof.
  revert i. induction s as [|x s IH]; intros i Hc.
  - by apply elem_of_nil in Hc.
  - simpl length. simpl find_from. destruct (N.eqb_spec x c) as [->|Hne]; [lia|].
    apply elem_of_cons in Hc as [->|Hc]; [done|].
    specialize (IH (i + 1) Hc). lia.
Qed.

Lemma rfind_from_absent (c : N) (s : pystr) (i last : Z) :
  c ∉ s → rfind_from c s i last = last.
Proof.
  revert i last. induction s as [|x s IH]; intros i last Hc; simpl; [reflexivity|].
  destruct (N.eqb_spec x c) as [->|Hne].
  - exfalso. apply Hc. left.
  - apply IH. intros Hin. apply Hc. by right.
Qed.

Lemma rfind_from_last (c : N) (pre post : pystr) (i last : Z) :
  c ∉ post → rfind_from c (pre ++ c :: post) i last = i + Z.of_nat (length pre).
Proof.
  revert i last. induction pre as [|x pre IH]; intros i last Hc; simpl.
  - rewrite N.eqb_refl. rewrite rfind_from_absent by done. lia.
  - rewrite IH by done. lia.
Qed.

Lemma rfind_from_present (c : N) (s : pystr) (i last : Z) :
  c ∈ s → i <= rfind_from c s i last < i + Z.of_nat (length s).
Proof.
  intros Hc. apply list_elem_of_split_r in Hc as (pre & post & -> & Hpost).
  rewrite rfind_from_last by done. rewrite length_app. simpl. lia.
Qed.

Lemma slice_middle {A} (pre mid post : list A) :
  slice (pre ++ mid ++ post)
        (Z.of_nat (length pre)) (Z.of_nat (length pre) + Z.of_nat (length mid)) = mid.
Proof.
  unfold slice, slice_bound. rewrite !length_app.
  destruct (Z.ltb_spec (Z.of_nat (length pre)) 0); [lia|].
  destruct (Z.ltb_spec (Z.of_nat (length pre) + Z.of_nat (length mid)) 0); [lia|].
  rewrite !Z.min_l by lia.
  replace (Z.of_nat (length pre) + Z.of_nat (length mid) - Z.of_nat (length pre))
    with (Z.of_nat (length mid)) by lia.
  rewrite !Nat2Z.id. rewrite drop_app_length. by rewrite take_app_length.
Qed.

Lemma slice_empty {A} (s : list A) (a b : Z) :
  0 <= a → 0 <= b → b <= a → slice s a b = [].
Proof.
  intros Ha Hb Hba. unfold slice, slice_bound.
  destruct (Z.ltb_spec a 0); [lia|]. destruct (Z.ltb_spec b 0); [lia|].
  replace (Z.to_nat (Z.min b (Z.of_nat (length s)) - Z.min a (Z.of_nat (length s))))
    with 0%nat by lia.
  reflexivity.
Qed.

End StringFacts.

(** ** The retry loop *)

Section Retry.
Import Main.

Local Open Scope string_scope.
Local Open Scope list_scope.
Local Open Scope Z_scope.


(** An attempt that times out either backs off or, when it is the last,
    raises. *)
Lemma attempt_timeout (w : World) (url model prompt : pystr) (retry_count : Z) (s : State) :
  is_timeout (ollama_post w (posts s) url model prompt) →
  ∃ e,
    attempt w url model prompt retry_count s =
      if retry_count =? max_retries - 1 then
        (Raises (HTTPException 500 (TimeoutAfterAttempts max_retries (HttpxError e))),
         {| qdrant := qdrant s; posts := S (posts s);
            log := log s ++ [OllamaPost url model prompt]; tasks := tasks s |})
      else
        (Returns NextIteration,
         {| qdrant := qdrant s; posts := S (posts s);
            log := log s ++ [OllamaPost url model prompt;
                             Sleep (retry_delay * 2 ^ (retry_count + 1))];
            tasks := tasks s |}).
Proof.
  intros [H|H]; [exists ReadTimeout | exists ConnectTimeout];
    unfold attempt; run; rewrite H;
    destruct (retry_count =? max_retries - 1); unfold back_off; run;
    by rewrite <- ?app_assoc.
Qed.

(** An attempt that raises anything else ends the loop at once. *)
Lemma attempt_other_exception (w : World) (url model prompt : pystr) (retry_count : Z)
    (s : State) (e : httpx_error) :
  ollama_post w (posts s) url model prompt = HttpRaises e →
  e ≠ ReadTimeout → e ≠ ConnectTimeout →
  attempt w url model prompt retry_count s =
    (Raises (HTTPException 500 (ErrorCommunicating (HttpxError e))),
     {| qdrant := qdrant s; posts := S (posts s);
        log := log s ++ [OllamaPost url model prompt]; tasks := tasks s |}).
Proof.
  intros H Hr Hc. unfold attempt; run. rewrite H. by destruct e.
Qed.

Lemma while_retry_step (w : World) (url model prompt : pystr) (remaining : nat) (s : State) :
  while_retry w url model prompt (S remaining) s =
    match attempt w url model prompt (max_retries - Z.of_nat (S remaining)) s with
    | (Returns (Return test_cases), s') => (Returns test_cases, s')
    | (Returns NextIteration, s') => while_retry w url model prompt remaining s'
    | (Raises e, s') => (Raises e, s')
    end.
Proof.
  simpl. unfold bind. destruct (attempt _ _ _ _ _ s) as [[[]|] ?]; reflexivity.
Qed.

(** With a usable timeout setting, [generate_test_cases] is the loop of
    three iterations on the URL, model and prompt it computes. *)
Lemma generate_test_cases_loop (w : World) (description : json) (s : State) :
  timeout_setting_ok w →
  generate_test_cases w description s =
    while_retry w (ollama_url w) (ollama_model w) (prompt_for w description) 3 s.
Proof.
  intros Hfloat. unfold generate_test_cases. rewrite Hfloat. reflexivity.
Qed.

(** Timeouts on the first [k] calls and another exception on the next
    one: the loop stops there. *)
Lemma while_retry_stops (w : World) (url model prompt : pystr) (e : httpx_error) :
  e ≠ ReadTimeout → e ≠ ConnectTimeout →
  ∀ (k remaining : nat) (s : State),
    (k < remaining)%nat →
    (∀ i, (i < k)%nat → is_timeout (ollama_post w (posts s + i) url model prompt)) →
    ollama_post w (posts s + k) url model prompt = HttpRaises e →
    fst (while_retry w url model prompt remaining s)
      = Raises (HTTPException 500 (ErrorCommunicating (HttpxError e)))
    ∧ posts (snd (while_retry w url model prompt remaining s)) = (posts s + k + 1)%nat.
Proof.
  intros Hr Hc. induction k as [|k IH]; intros remaining s Hlt Hbefore Hraise;
    (destruct remaining as [|remaining]; [lia|]); rewrite while_retry_step.
  - rewrite Nat.add_0_r in Hraise.
    rewrite (attempt_other_exception _ _ _ _ _ _ e) by done. simpl. split; [done | lia].
  - destruct (attempt_timeout w url model prompt (max_retries - Z.of_nat (S remaining)) s)
      as [e' ->].
    { rewrite <- (Nat.add_0_r (posts s)). apply Hbefore. lia. }
    destruct (Z.eqb_spec (max_retries - Z.of_nat (S remaining)) (max_retries - 1)); [lia|].
    match goal with |- context [while_retry _ _ _ _ _ ?s1] =>
      destruct (IH remaining s1) as [Hout Hposts] end.
    + lia.
    + intros i Hi. simpl posts.
      replace (S (posts s) + i)%nat with (posts s + S i)%nat by lia. apply Hbefore. lia.
    + simpl posts. by replace (S (posts s) + k)%nat with (posts s + S k)%nat by lia.
    + split; [done|]. rewrite Hposts. simpl. lia.
Qed.

(** C3 — If the model endpoint times out on every call, the pipeline
    makes exactly three attempts and then raises its generation error
    (HTTP 500, "Timeout error communicating with Ollama after 3
    attempts"); between consecutive attempts it sleeps
    [retry_delay * 2 ^ 1] and then [retry_delay * 2 ^ 2] seconds, and
    nothing else happens. *)
Theorem retry_exhaustion (w : World) (description : json) (s : State) :
  timeout_setting_ok w →
  (∀ n url model prompt, is_timeout (ollama_post w n url model prompt)) →
  ∃ e,
    generate_test_cases w description s =
      (Raises (HTTPException 500 (TimeoutAfterAttempts 3 (HttpxError e))),
       {| qdrant := qdrant s; posts := (posts s + 3)%nat;
          log := log s
                 ++ [OllamaPost (ollama_url w) (ollama_model w) (prompt_for w description);
                     Sleep (retry_delay * 2 ^ 1);
                     OllamaPost (ollama_url w) (ollama_model w) (prompt_for w description);
                     Sleep (retry_delay * 2 ^ 2);
                     OllamaPost (ollama_url w) (ollama_model w) (prompt_for w description)];
          tasks := tasks s |}).
Proof.
  intros Hfloat Htimeout. rewrite generate_test_cases_loop by done.
  set (url := ollama_url w). set (model := ollama_model w).
  set (prompt := prompt_for w description).
  rewrite while_retry_step.
  destruct (attempt_timeout w url model prompt (max_retries - Z.of_nat 3) s
              (Htimeout _ _ _ _)) as [e1 ->].
  change (max_retries - Z.of_nat 3 =? max_retries - 1) with false. cbv iota.
  rewrite while_retry_step.
  match goal with |- context [attempt _ _ _ _ _ ?s1] =>
    destruct (attempt_timeout w url model prompt (max_retries - Z.of_nat 2) s1
                (Htimeout _ _ _ _)) as [e2 ->] end.
  change (max_retries - Z.of_nat 2 =? max_retries - 1) with false. cbv iota.
  rewrite while_retry_step.
  match goal with |- context [attempt _ _ _ _ _ ?s1] =>
    destruct (attempt_timeout w url model prompt (max_retries - Z.of_nat 1) s1
                (Htimeout _ _ _ _)) as [e3 ->] end.
  change (max_retries - Z.of_nat 1 =? max_retries - 1) with true. cbv iota.
  exists e3. cbn [qdrant posts log tasks]. rewrite <- !app_assoc.
  replace (posts s + 3)%nat with (S (S (S (posts s)))) by lia. reflexivity.
Qed.

Lemma retry_exhaustion_witness :
  ∃ e,
    generate_test_cases (Sample.world 0 (fun _ => HttpRaises ReadTimeout))
                        (JStr (py "Login page")) Sample.initial =
      (Raises (HTTPException 500 (TimeoutAfterAttempts 3 (HttpxError e))),
       {| qdrant := qdrant Sample.initial; posts := 3;
          log := [OllamaPost (py "http://localhost:11434/api/generate") (py "deepseek-r1:8b")
                    (prompt_head ++ py "Login page" ++ prompt_tail);
                  Sleep 4;
                  OllamaPost (py "http://localhost:11434/api/generate") (py "deepseek-r1:8b")
                    (prompt_head ++ py "Login page" ++ prompt_tail);
                  Sleep 8;
                  OllamaPost (py "http://localhost:11434/api/generate") (py "deepseek-r1:8b")
                    (prompt_head ++ py "Login page" ++ prompt_tail)];
          tasks := [] |}).
Proof.
  apply (retry_exhaustion (Sample.world 0 (fun _ => HttpRaises ReadTimeout))
           (JStr (py "Login page")) Sample.initial).
  - reflexivity.
  - intros n url model prompt. left. reflexivity.
Defined.

(** C4, as amended — The retry policy covers read and connect timeouts,
    not every connection failure: when a call to the model endpoint
    raises any other exception, after [k] timeouts with [k < 3], the
    pipeline makes no further attempt; it raises HTTP 500 "Error
    communicating with Ollama" after [k + 1] calls. *)
Theorem other_exceptions_end_the_retries
    (w : World) (description : json) (s : State) (k : nat) (e : httpx_error) :
  timeout_setting_ok w →
  (k < 3)%nat →
  (∀ i url model prompt, (i < k)%nat →
     is_timeout (ollama_post w (posts s + i) url model prompt)) →
  (∀ url model prompt, ollama_post w (posts s + k) url model prompt = HttpRaises e) →
  e ≠ ReadTimeout → e ≠ ConnectTimeout →
  fst (generate_test_cases w description s)
    = Raises (HTTPException 500 (ErrorCommunicating (HttpxError e)))
  ∧ posts (snd (generate_test_cases w description s)) = (posts s + k + 1)%nat.
Proof.
  intros Hfloat Hk Hbefore Hraise Hr Hc. rewrite generate_test_cases_loop by done.
  apply while_retry_stops; auto.
Qed.

Lemma other_exceptions_end_the_retries_witness :
  fst (generate_test_cases
         (Sample.world 0 (fun n => HttpRaises (if Nat.eqb n 1 then ConnectError else ReadTimeout)))
         (JStr (py "Login page")) Sample.initial)
    = Raises (HTTPException 500 (ErrorCommunicating (HttpxError ConnectError)))
  ∧ posts (snd (generate_test_cases
         (Sample.world 0 (fun n => HttpRaises (if Nat.eqb n 1 then ConnectError else ReadTimeout)))
         (JStr (py "Login page")) Sample.initial)) = 2%nat.
Proof.
  apply (other_exceptions_end_the_retries
           (Sample.world 0 (fun n => HttpRaises (if Nat.eqb n 1 then ConnectError else ReadTimeout)))
           (JStr (py "Login page")) Sample.initial 1 ConnectError).
  - reflexivity.
  - lia.
  - intros i url model prompt Hi. destruct i as [|i]; [left; reflexivity | lia].
  - intros url model prompt. reflexivity.
  - discriminate.
  - discriminate.
Defined.

(** C4, as stated, fails: an endpoint that refuses every connection is
    called once, not three times. *)
Lemma connect_error_is_not_retried :
  ¬ retried_three_times ConnectError
  ∧ generate_test_cases (Sample.world 0 (fun _ => HttpRaises ConnectError))
                        (JStr (py "Login page")) Sample.initial
    = (Raises (HTTPException 500 (ErrorCommunicating (HttpxError ConnectError))),
       {| qdrant := qdrant Sample.initial; posts := 1;
          log := [OllamaPost (py "http://localhost:11434/api/generate")
                             (py "deepseek-r1:8b")
                             (prompt_head ++ py "Login page" ++ prompt_tail)];
          tasks := [] |}).
Proof.
  split.
  - intros H.
    specialize (H (Sample.world 0 (fun _ => HttpRaises ConnectError))
                  (JStr (py "Login page")) Sample.initial eq_refl
                  (fun _ _ _ _ => eq_refl)).
    vm_compute in H. discriminate H.
  - vm_compute. reflexivity.
Qed.

End Retry.

(** ** The decoder *)

Section Decoder.

Local Open Scope nat_scope.

Lemma skip_ws_length (s : pystr) : length (Json.skip_ws s) ≤ length s.
Proof.
  induction s as [|c s IH]; simpl; [lia|]. destruct (Json.is_ws c); simpl; lia.
Qed.

Lemma span_digits_length (s d rest : pystr) :
  Json.span_digits s = (d, rest) → length rest ≤ length s.
Proof.
  revert d rest. induction s as [|c s IH]; intros d rest; simpl.
  - intros [= <- <-]. simpl. lia.
  - destruct (Json.is_digit c).
    + destruct (Json.span_digits s) as [d' rest'] eqn:E. intros [= <- <-].
      specialize (IH _ _ eq_refl). lia.
    + intros [= <- <-]. simpl. lia.
Qed.

Lemma strip_prefix_length (lit s rest : pystr) :
  Json.strip_prefix lit s = Some rest → length s = length lit + length rest.
Proof.
  revert s. induction lit as [|a lit IH]; intros s; simpl.
  - by intros [= ->].
  - destruct s as [|b s]; [discriminate|]. destruct (N.eqb a b); [|discriminate].
    intros H. apply IH in H. simpl. lia.
Qed.

Lemma match_number_length (s : pystr) (v : json) (rest : pystr) :
  Json.match_number s = Some (v, rest) → length rest < length s.
Proof.
  unfold Json.match_number.
  set (signed := match s with [] => _ | _ => _ end).
  assert (Hs : length (snd signed) ≤ length s).
  { unfold signed. destruct s as [|c r]; simpl; [lia|].
    destruct (N.eqb c (ch "-")); simpl; lia. }
  destruct signed as [neg s1]. simpl in Hs.
  destruct (Json.match_integer s1) as [[int s2]|] eqn:Hint; [|discriminate].
  assert (H2 : length s2 < length s1).
  { unfold Json.match_integer in Hint. destruct s1 as [|c r]; [discriminate|].
    destruct (N.eqb c (ch "0")); [injection Hint as <- <-; simpl; lia|].
    destruct (Json.is_digit c); [|discriminate].
    destruct (Json.span_digits r) as [d rest'] eqn:E. injection Hint as <- <-.
    apply span_digits_length in E. simpl. lia. }
  destruct (Json.match_fraction s2) as [frac s3] eqn:Hfrac.
  assert (H3 : length s3 ≤ length s2).
  { unfold Json.match_fraction in Hfrac. destruct s2 as [|dot r]; [by injection Hfrac as <- <-|].
    destruct (N.eqb dot (ch ".")); [|by injection Hfrac as <- <-].
    destruct (Json.span_digits r) as [d rest'] eqn:E. apply span_digits_length in E.
    destruct d; injection Hfrac as <- <-; simpl; lia. }
  destruct (Json.match_exponent s3) as [exp s4] eqn:Hexp.
  assert (H4 : length s4 ≤ length s3).
  { unfold Json.match_exponent in Hexp. destruct s3 as [|e r]; [by injection Hexp as <- <-|].
    destruct (N.eqb e (ch "e") || N.eqb e (ch "E")); [|by injection Hexp as <- <-].
    set (sg := match r with [] => _ | _ => _ end) in Hexp.
    assert (Hsg : length (snd sg) ≤ length r).
    { unfold sg. destruct r as [|c r']; simpl; [lia|].
      destruct (N.eqb c (ch "-") || N.eqb c (ch "+")); simpl; lia. }
    destruct sg as [sign r1]. simpl in Hsg.
    destruct (Json.span_digits r1) as [d rest'] eqn:E. apply span_digits_length in E.
    destruct d; injection Hexp as <- <-; simpl; lia. }
  destruct frac, exp; intros [= <- <-]; lia.
Qed.

Lemma scan_atom_length (s : pystr) (v : json) (rest : pystr) :
  Json.scan_atom s = Json.Dec (v, rest) → length rest < length s.
Proof.
  unfold Json.scan_atom.
  repeat match goal with
  | |- context [Json.strip_prefix ?lit s] =>
      let E := fresh "E" in
      destruct (Json.strip_prefix lit s) eqn:E;
      [apply strip_prefix_length in E; intros [= <- <-];
       rewrite E; vm_compute length; lia|]
  end.
  destruct (Json.match_number s) as [[v' rest']|] eqn:Enum; [|discriminate].
  intros [= <- <-]. by apply match_number_length in Enum.
Qed.

Lemma scan_atom_fuel (s : pystr) : Json.scan_atom s ≠ Json.DecErr Json.OutOfFuel.
Proof.
  unfold Json.scan_atom.
  repeat match goal with
  | |- context [Json.strip_prefix ?lit s] => destruct (Json.strip_prefix lit s); [discriminate|]
  end.
  destruct (Json.match_number s); discriminate.
Qed.

Ltac scanstring_cases :=
  repeat match goal with
  | |- context [match ?l with [] => _ | _ :: _ => _ end] => is_var l; destruct l
  | |- context [if ?b then _ else _] => destruct b
  | |- context [match ?o with Some _ => _ | None => _ end] => destruct o
  end;
  try discriminate.

Lemma scanstring_length_aux (n : nat) :
  ∀ s acc str rest,
    length s ≤ n → Json.scanstring s acc = Json.Dec (str, rest) → length rest < length s.
Proof.
  induction n as [|n IH]; intros s acc str rest Hn.
  - destruct s; [discriminate | simpl in Hn; lia].
  - destruct s as [|c r]; [discriminate|]. simpl in Hn. simpl Json.scanstring.
    scanstring_cases;
      intros H;
      first [ injection H as <- <-; simpl; lia
            | apply IH in H; simpl in *; lia ].
Qed.

Lemma scanstring_length (s acc str rest : pystr) :
  Json.scanstring s acc = Json.Dec (str, rest) → length rest < length s.
Proof. by apply (scanstring_length_aux (length s)). Qed.

Lemma scanstring_fuel_aux (n : nat) :
  ∀ s acc, length s ≤ n → Json.scanstring s acc ≠ Json.DecErr Json.OutOfFuel.
Proof.
  induction n as [|n IH]; intros s acc Hn.
  - destruct s; [discriminate | simpl in Hn; lia].
  - destruct s as [|c r]; [discriminate|]. simpl in Hn. simpl Json.scanstring.
    scanstring_cases; apply IH; simpl in *; lia.
Qed.

Lemma scanstring_fuel (s acc : pystr) : Json.scanstring s acc ≠ Json.DecErr Json.OutOfFuel.
Proof. by apply (scanstring_fuel_aux (length s)). Qed.

(** Every successful scan consumes input. *)
Lemma scan_progress (fuel : nat) :
  (∀ s v rest, Json.scan_once fuel s = Json.Dec (v, rest) → length rest < length s)
  ∧ (∀ s acc v rest, Json.array_loop fuel s acc = Json.Dec (v, rest) →
       length rest < length s)
  ∧ (∀ s acc v rest, Json.object_loop fuel s acc = Json.Dec (v, rest) →
       length rest < length s).
Proof.
  induction fuel as [|fuel (IHscan & IHarr & IHobj)];
    [by repeat split; intros; discriminate|].
  repeat split.
  - intros s v rest. simpl. destruct s as [|c r]; [discriminate|].
    destruct (N.eqb c quote).
    { destruct (Json.scanstring r []) as [[str rest']|] eqn:E; [|discriminate].
      intros [= <- <-]. apply scanstring_length in E. simpl. lia. }
    destruct (N.eqb c (ch "{")).
    { pose proof (skip_ws_length r) as Hws.
      destruct (Json.skip_ws r) as [|c' r']; [discriminate|].
      destruct (N.eqb c' (ch "}")).
      - intros [= <- <-]. simpl in *. lia.
      - intros H. apply IHobj in H. simpl in *. lia. }
    destruct (N.eqb c (ch "[")).
    { pose proof (skip_ws_length r) as Hws.
      destruct (Json.skip_ws r) as [|c' r']; [discriminate|].
      destruct (N.eqb c' (ch "]")).
      - intros [= <- <-]. simpl in *. lia.
      - intros H. apply IHarr in H. simpl in *. lia. }
    apply scan_atom_length.
  - intros s acc v rest. simpl.
    destruct (Json.scan_once fuel s) as [[v' rest']|] eqn:E; [|discriminate].
    apply IHscan in E. pose proof (skip_ws_length rest') as Hws.
    destruct (Json.skip_ws rest') as [|c r]; [discriminate|].
    destruct (N.eqb c (ch "]")); [intros [= <- <-]; simpl in *; lia|].
    destruct (N.eqb c (ch ",")); [|discriminate].
    intros H. apply IHarr in H. pose proof (skip_ws_length r). simpl in *. lia.
  - intros s acc v rest. simpl. destruct s as [|q r]; [discriminate|].
    destruct (N.eqb q quote); [|discriminate].
    destruct (Json.scanstring r []) as [[key rest1]|] eqn:Ekey; [|discriminate].
    apply scanstring_length in Ekey. pose proof (skip_ws_length rest1) as Hws1.
    destruct (Json.skip_ws rest1) as [|colon r1]; [discriminate|].
    destruct (N.eqb colon (ch ":")); [|discriminate].
    destruct (Json.scan_once fuel (Json.skip_ws r1)) as [[v' rest2]|] eqn:Eval; [|discriminate].
    apply IHscan in Eval. pose proof (skip_ws_length r1) as Hws2.
    pose proof (skip_ws_length rest2) as Hws3.
    destruct (Json.skip_ws rest2) as [|c r2]; [discriminate|].
    destruct (N.eqb c (ch "}")); [intros [= <- <-]; simpl in *; lia|].
    destruct (N.eqb c (ch ",")); [|discriminate].
    intros H. apply IHobj in H. pose proof (skip_ws_length r2). simpl in *. lia.
Qed.

(** With two units of fuel per character, the fuel is not exhausted. *)
Lemma scan_fuel (fuel : nat) :
  (∀ s, 2 * length s + 1 ≤ fuel → Json.scan_once fuel s ≠ Json.DecErr Json.OutOfFuel)
  ∧ (∀ s acc, 2 * length s + 2 ≤ fuel →
       Json.array_loop fuel s acc ≠ Json.DecErr Json.OutOfFuel)
  ∧ (∀ s acc, 2 * length s + 2 ≤ fuel →
       Json.object_loop fuel s acc ≠ Json.DecErr Json.OutOfFuel).
Proof.
  induction fuel as [|fuel (IHscan & IHarr & IHobj)];
    [by repeat split; intros; lia|].
  destruct (scan_progress fuel) as (Pscan & _ & _).
  repeat split.
  - intros s Hfuel. simpl. destruct s as [|c r]; [discriminate|]. simpl in Hfuel.
    destruct (N.eqb c quote).
    { pose proof (scanstring_fuel r []).
      destruct (Json.scanstring r []) as [[str rest']|]; [discriminate | congruence]. }
    destruct (N.eqb c (ch "{")).
    { pose proof (skip_ws_length r) as Hws.
      destruct (Json.skip_ws r) as [|c' r']; [discriminate|].
      destruct (N.eqb c' (ch "}")); [discriminate|]. apply IHobj. simpl in *. lia. }
    destruct (N.eqb c (ch "[")).
    { pose proof (skip_ws_length r) as Hws.
      destruct (Json.skip_ws r) as [|c' r']; [discriminate|].
      destruct (N.eqb c' (ch "]")); [discriminate|]. apply IHarr. simpl in *. lia. }
    apply scan_atom_fuel.
  - intros s acc Hfuel. simpl.
    pose proof (IHscan s) as Hscan.
    destruct (Json.scan_once fuel s) as [[v' rest']|e] eqn:E;
      [|intros [= ->]; apply Hscan; [lia | reflexivity]].
    apply Pscan in E. pose proof (skip_ws_length rest') as Hws.
    destruct (Json.skip_ws rest') as [|c r]; [discriminate|].
    destruct (N.eqb c (ch "]")); [discriminate|].
    destruct (N.eqb c (ch ",")); [|discriminate].
    apply IHarr. pose proof (skip_ws_length r). simpl in *. lia.
  - intros s acc Hfuel. simpl. destruct s as [|q r]; [discriminate|]. simpl in Hfuel.
    destruct (N.eqb q quote); [|discriminate].
    pose proof (scanstring_fuel r []).
    destruct (Json.scanstring r []) as [[key rest1]|] eqn:Ekey; [|congruence].
    apply scanstring_length in Ekey. pose proof (skip_ws_length rest1) as Hws1.
    destruct (Json.skip_ws rest1) as [|colon r1]; [discriminate|].
    destruct (N.eqb colon (ch ":")); [|discriminate].
    pose proof (skip_ws_length r1) as Hws2.
    pose proof (IHscan (Json.skip_ws r1)) as Hscan.
    destruct (Json.scan_once fuel (Json.skip_ws r1)) as [[v' rest2]|e] eqn:Eval;
      [|intros [= ->]; apply Hscan; [simpl in *; lia | reflexivity]].
    apply Pscan in Eval. pose proof (skip_ws_length rest2) as Hws3.
    destruct (Json.skip_ws rest2) as [|c r2]; [discriminate|].
    destruct (N.eqb c (ch "}")); [discriminate|].
    destruct (N.eqb c (ch ",")); [|discriminate].
    apply IHobj. pose proof (skip_ws_length r2). simpl in *. lia.
Qed.

(** [json.loads] always gives a value or a decoding error of its own. *)
Lemma loads_total (s : pystr) : Json.loads s ≠ Json.DecErr Json.OutOfFuel.
Proof.
  assert (Hdec : Json.decode s ≠ Json.DecErr Json.OutOfFuel).
  { unfold Json.decode, Json.decode_fuel.
    destruct (scan_fuel (2 * length s + 2)) as (Hscan & _ & _).
    specialize (Hscan (Json.skip_ws s)). pose proof (skip_ws_length s).
    destruct (Json.scan_once _ _) as [[v rest]|e];
      [destruct (Json.skip_ws rest); discriminate|].
    intros [= ->]. apply Hscan; [lia | reflexivity]. }
  unfold Json.loads. destruct s as [|c r]; [done|].
  destruct c as [|p]; [done|].
  repeat (destruct p as [p|p|]; try done).
Qed.

End Decoder.

Section Parsing.
Import Main.

Local Open Scope string_scope.
Local Open Scope list_scope.
Local Open Scope Z_scope.

Lemma array_loop_array (fuel : nat) :
  ∀ s acc v rest, Json.array_loop fuel s acc = Json.Dec (v, rest) → ∃ l, v = JArr l.
Proof.
  induction fuel as [|fuel IH]; intros s acc v rest; simpl; [discriminate|].
  destruct (Json.scan_once fuel s) as [[v' rest']|]; [|discriminate].
  destruct (Json.skip_ws rest') as [|c r]; [discriminate|].
  destruct (N.eqb c (ch "]")).
  - intros H. inversion H; subst. eauto.
  - destruct (N.eqb c (ch ",")); [apply IH | discriminate].
Qed.

Lemma scan_once_bracket (fuel : nat) (body : pystr) (v : json) (rest : pystr) :
  Json.scan_once fuel (ch "[" :: body) = Json.Dec (v, rest) → ∃ l, v = JArr l.
Proof.
  destruct fuel as [|fuel]; simpl; [discriminate|].
  change (N.eqb (ch "[") quote) with false. 
  change (N.eqb (ch "[") (ch "{")) with false. 
  change (N.eqb (ch "[") (ch "[")) with true. cbv iota.
  destruct (Json.skip_ws body) as [|c r]; [discriminate|].
  destruct (N.eqb c (ch "]")).
  - intros H. inversion H; subst. eauto.
  - apply array_loop_array.
Qed.

Lemma loads_bracket (body : pystr) (v : json) :
  Json.loads (ch "[" :: body) = Json.Dec v → ∃ l, v = JArr l.
Proof.
  unfold Json.loads. change (ch "[") with 91%N. cbv iota.
  unfold Json.decode.
  change (Json.skip_ws (91%N :: body)) with (91%N :: body).
  destruct (Json.scan_once _ _) as [[v' rest]|] eqn:E; [|discriminate].
  apply (scan_once_bracket _ body) in E.
  destruct (Json.skip_ws rest); [|discriminate]. by intros [= <-].
Qed.

(** With a first [[] before a last []], the slice is the text between
    them, brackets included. *)
Lemma slice_between (pre mid post : pystr) :
  ch "[" ∉ pre → ch "]" ∉ post →
  let text := pre ++ ch "[" :: mid ++ ch "]" :: post in
  0 <= find text (ch "[") ∧ 0 < rfind text (ch "]") + 1
  ∧ slice text (find text (ch "[")) (rfind text (ch "]") + 1) = ch "[" :: mid ++ [ch "]"].
Proof.
  intros Hpre Hpost text.
  assert (Hfind : find text (ch "[") = Z.of_nat (length pre)).
  { unfold find, text. rewrite find_from_first by done. lia. }
  assert (Hrfind : rfind text (ch "]") + 1
                   = Z.of_nat (length pre) + Z.of_nat (length (ch "[" :: mid ++ [ch "]"]))).
  { unfold rfind, text.
    replace (pre ++ ch "[" :: mid ++ ch "]" :: post)
      with ((pre ++ ch "[" :: mid) ++ ch "]" :: post) by (by rewrite <- app_assoc).
    rewrite rfind_from_last by done.
    simpl length. rewrite !length_app. simpl length. lia. }
  rewrite Hfind, Hrfind. repeat split; [lia | simpl length; lia |].
  replace text with (pre ++ (ch "[" :: mid ++ [ch "]"]) ++ post)
    by (unfold text; simpl; by rewrite <- app_assoc).
  apply slice_middle.
Qed.

Lemma extract_test_cases_between (pre mid post : pystr) :
  ch "[" ∉ pre → ch "]" ∉ post →
  extract_test_cases (pre ++ ch "[" :: mid ++ ch "]" :: post) =
    match Json.loads (ch "[" :: mid ++ [ch "]"]) with
    | Json.Dec test_cases => inr test_cases
    | Json.DecErr e => inl (JSONDecodeError e)
    end.
Proof.
  intros Hpre Hpost.
  destruct (slice_between pre mid post Hpre Hpost) as (Hfind & Hrfind & Hslice).
  unfold extract_test_cases. rewrite Hslice.
  destruct (Z.geb_spec (find (pre ++ ch "[" :: mid ++ ch "]" :: post) (ch "[")) 0); [|lia].
  destruct (Z.gtb_spec (rfind (pre ++ ch "[" :: mid ++ ch "]" :: post) (ch "]") + 1) 0);
    [|lia].
  simpl andb. cbv iota.
  destruct (Json.loads _) as [v|e] eqn:E; [|reflexivity].
  apply loads_bracket in E as [l ->]. reflexivity.
Qed.

(** Without a bracket pair, or with a slice that is not JSON, the
    extraction raises. *)
Lemma extract_test_cases_fails (text : pystr) :
  no_json_array text →
  ∃ cause,
    (cause = ValueError "No valid JSON found in response" ∨ ∃ e, cause = JSONDecodeError e)
    ∧ extract_test_cases text = inl cause.
Proof.
  intros Hno. unfold extract_test_cases.
  destruct (decide (ch "[" ∈ text)) as [Hopen|Hopen].
  - destruct (decide (ch "]" ∈ text)) as [Hclose|Hclose].
    + destruct Hno as [? | [? | [e He]]]; [done | done |].
      pose proof (find_from_present _ _ 0 Hopen).
      pose proof (rfind_from_present _ _ 0 (-1) Hclose).
      unfold find, rfind in *.
      destruct (Z.geb_spec (find_from (ch "[") text 0) 0); [|lia].
      destruct (Z.gtb_spec (rfind_from (ch "]") text 0 (-1) + 1) 0); [|lia].
      simpl andb. cbv iota. rewrite He. eauto.
    + unfold rfind. rewrite rfind_from_absent by done.
      rewrite andb_false_r. eauto.
  - unfold find. rewrite find_from_absent by done. simpl. eauto.
Qed.

(** A closing bracket only before the first opening one leaves an empty
    slice, which is not JSON. *)
Lemma reversed_brackets_no_json_array (text : pystr) :
  ch "[" ∈ text → ch "]" ∈ text → rfind text (ch "]") < find text (ch "[") →
  no_json_array text.
Proof.
  intros Hopen Hclose Horder. right. right. exists Json.ExpectingValue.
  pose proof (find_from_present _ _ 0 Hopen).
  pose proof (rfind_from_present _ _ 0 (-1) Hclose).
  unfold find, rfind in *. by rewrite slice_empty by lia.
Qed.

(** An attempt answered with 200, whichever it is: the outcome is that
    of the extraction, after one POST and no sleep. *)
Lemma attempt_answer (w : World) (url model prompt : pystr) (retry_count : Z) (s : State)
    (text : pystr) :
  answers_with w (posts s) text →
  attempt w url model prompt retry_count s =
    match extract_test_cases text with
    | inr test_cases =>
        (Returns (Return test_cases),
         {| qdrant := qdrant s; posts := S (posts s);
            log := log s ++ [OllamaPost url model prompt]; tasks := tasks s |})
    | inl cause =>
        (Raises (HTTPException 500
                   (ErrorCommunicating (HTTPException 500 (FailedToParse cause)))),
         {| qdrant := qdrant s; posts := S (posts s);
            log := log s ++ [OllamaPost url model prompt]; tasks := tasks s |})
    end.
Proof.
  intros (body & result & Hpost & Hresponse).
  unfold attempt; run. rewrite Hpost. simpl.
  unfold parse_response, parse_body, dict_get. rewrite Hresponse.
  destruct (extract_test_cases text); reflexivity.
Qed.

(** A first call answered with 200. *)
Lemma generate_test_cases_answer (w : World) (description : json) (s : State) (text : pystr) :
  timeout_setting_ok w → answers_with w (posts s) text →
  generate_test_cases w description s =
    match extract_test_cases text with
    | inr test_cases => (Returns test_cases, posted w description s)
    | inl cause =>
        (Raises (HTTPException 500
                   (ErrorCommunicating (HTTPException 500 (FailedToParse cause)))),
         posted w description s)
    end.
Proof.
  intros Hfloat Hanswer.
  rewrite generate_test_cases_loop by done. rewrite while_retry_step.
  rewrite (attempt_answer _ _ _ _ _ _ text) by done.
  destruct (extract_test_cases text); reflexivity.
Qed.

(** C5 — Response parsing slices the model output from the first [[] to
    the last []] and decodes that slice as JSON; on the output
    [Sure! [{"test_id":"TC-001","title":"t","steps":["a"],"expected_result":"r"}] Hope this helps]
    it yields exactly one test case, whose test_id is TC-001, and the
    request answers with that test case. *)
Theorem parse_extraction :
  (∀ pre mid post : pystr,
     ch "[" ∉ pre → ch "]" ∉ post →
     let text := pre ++ ch "[" :: mid ++ ch "]" :: post in
     slice text (find text (ch "[")) (rfind text (ch "]") + 1) = ch "[" :: mid ++ [ch "]"]
     ∧ extract_test_cases text =
         match Json.loads (ch "[" :: mid ++ [ch "]"]) with
         | Json.Dec test_cases => inr test_cases
         | Json.DecErr e => inl (JSONDecodeError e)
         end)
  ∧ extract_test_cases Sample.chatty_output =
      inr (JArr [JObj [(py "test_id", JStr (py "TC-001"));
                       (py "title", JStr (py "t"));
                       (py "steps", JArr [JStr (py "a")]);
                       (py "expected_result", JStr (py "r"))]])
  ∧ fst (serve_generate_test_case
           (Sample.answering Sample.chatty_output)
           Sample.test_ticket Sample.initial) =
      Returns {| response_jira_id := py "PROJ-1";
                 description := mock_description;
                 test_cases := [ {| test_id := py "TC-001"; title := py "t";
                                    steps := [py "a"]; expected_result := py "r" |} ] |}.
Proof.
  split; [|split].
  - intros pre mid post Hpre Hpost text. split.
    + apply slice_between; done.
    + apply extract_test_cases_between; done.
  - vm_compute. reflexivity.
  - vm_compute. reflexivity.
Qed.

Lemma parse_extraction_witness :
  slice Sample.chatty_output (find Sample.chatty_output (ch "["))
        (rfind Sample.chatty_output (ch "]") + 1)
    = pyq "[{'test_id':'TC-001','title':'t','steps':['a'],'expected_result':'r'}]".
Proof.
  apply (proj1 parse_extraction (py "Sure! ")
           (pyq "{'test_id':'TC-001','title':'t','steps':['a'],'expected_result':'r'}")
           (py " Hope this helps")).
  - vm_compute. intros H. repeat (apply elem_of_cons in H as [H|H]; [discriminate H|]).
    by apply elem_of_nil in H.
  - vm_compute. intros H. repeat (apply elem_of_cons in H as [H|H]; [discriminate H|]).
    by apply elem_of_nil in H.
Defined.

(** C6 — When the model's output has no bracket pair, or the slice from
    the first [[] to the last []] is not JSON, parsing fails with the
    parse error (HTTP 500, "Failed to parse LLM response", caused by the
    [ValueError] or the JSON decoding error): the pipeline raises rather
    than returning a list, and it does so right after the POST that
    brought the output, in whichever iteration of the loop, with no
    retry and no other attempt to read the output. *)
Theorem parse_failure (w : World) (description : json) (s : State) (text : pystr) :
  timeout_setting_ok w →
  answers_with w (posts s) text →
  no_json_array text →
  ∃ cause,
    (cause = ValueError "No valid JSON found in response" ∨ ∃ e, cause = JSONDecodeError e)
    ∧ extract_test_cases text = inl cause
    ∧ generate_test_cases w description s =
        (Raises (HTTPException 500
                   (ErrorCommunicating (HTTPException 500 (FailedToParse cause)))),
         posted w description s)
    ∧ ∀ url model prompt retry_count,
        attempt w url model prompt retry_count s =
          (Raises (HTTPException 500
                     (ErrorCommunicating (HTTPException 500 (FailedToParse cause)))),
           {| qdrant := qdrant s; posts := S (posts s);
              log := log s ++ [OllamaPost url model prompt]; tasks := tasks s |}).
Proof.
  intros Hfloat Hanswer Hno.
  destruct (extract_test_cases_fails text Hno) as (cause & Hcause & Hextract).
  exists cause. split; [done | split; [done | split]].
  - rewrite (generate_test_cases_answer w description s text) by done.
    by rewrite Hextract.
  - intros url model prompt retry_count.
    rewrite (attempt_answer _ _ _ _ _ _ text) by done. by rewrite Hextract.
Qed.

Lemma parse_failure_witness :
  ∃ cause,
    (cause = ValueError "No valid JSON found in response" ∨ ∃ e, cause = JSONDecodeError e)
    ∧ extract_test_cases (py "I cannot help with that.") = inl cause
    ∧ generate_test_cases
        (Sample.answering (py "I cannot help with that."))
        (JStr (py "Login page")) Sample.initial =
        (Raises (HTTPException 500
                   (ErrorCommunicating (HTTPException 500 (FailedToParse cause)))),
         posted (Sample.answering (py "I cannot help with that."))
                (JStr (py "Login page")) Sample.initial)
    ∧ ∀ url model prompt retry_count,
        attempt (Sample.answering (py "I cannot help with that."))
                url model prompt retry_count Sample.initial =
          (Raises (HTTPException 500
                     (ErrorCommunicating (HTTPException 500 (FailedToParse cause)))),
           {| qdrant := qdrant Sample.initial; posts := 1;
              log := [OllamaPost url model prompt]; tasks := [] |}).
Proof.
  apply (parse_failure
           (Sample.answering (py "I cannot help with that."))
           (JStr (py "Login page")) Sample.initial (py "I cannot help with that.")).
  - reflexivity.
  - eexists _, [(py "response", JStr (py "I cannot help with that."))].
    split; [intros; vm_compute; reflexivity | reflexivity].
  - left. vm_compute. intros H.
    repeat (apply elem_of_cons in H as [H|H]; [discriminate H|]).
    by apply elem_of_nil in H.
Defined.

End Parsing.

(** ** The vector store *)

Section Store.
Import Main VectorStore.

Local Open Scope string_scope.
Local Open Scope list_scope.
Local Open Scope Z_scope.

(** [retrieve_test_case] never raises: it answers with the payload of the
    point it finds, and with [None] when the server is out of reach. *)
Lemma retrieve_test_case_cached (w : World) (jira_id : pystr) (s : State) :
  retrieve_test_case w jira_id s
    = (Returns (cached w jira_id s), logged s (lookup_events w jira_id s)).
Proof.
  unfold retrieve_test_case, client_retrieve, cached, lookup_events, logged. run.
  destruct (up (qdrant s)); run.
  - destruct (points (qdrant s) !! point_id w jira_id) as [p|]; reflexivity.
  - by rewrite <- app_assoc.
Qed.

Lemma store_test_case_up (w : World) (jira_id : pystr) (description test_cases : json)
    (s : State) :
  up (qdrant s) = true →
  store_test_case w jira_id description test_cases s =
    (Returns jira_id,
     {| qdrant :=
          {| up := true;
             points :=
               <[point_id w jira_id :=
                   {| vector := model_encode w (format w description ++ py " "
                                                ++ json_dumps w test_cases);
                      payload := Some [(py "jira_id", JStr jira_id);
                                       (py "description", description);
                                       (py "test_cases", test_cases)] |}]>
                 (points (qdrant s)) |};
        posts := posts s;
        log := log s ++ [QdrantUpsert (point_id w jira_id)];
        tasks := tasks s |}).
Proof.
  intros Hup. unfold store_test_case, client_upsert. run. rewrite Hup. run.
  by rewrite Hup.
Qed.

Lemma store_test_case_down (w : World) (jira_id : pystr) (description test_cases : json)
    (s : State) :
  up (qdrant s) = false →
  store_test_case w jira_id description test_cases s =
    (Raises StorageError, logged s [QdrantUpsert (point_id w jira_id)]).
Proof.
  intros Hup. unfold store_test_case, client_upsert. run. by rewrite Hup.
Qed.

(** C9 — [store_test_case] followed by [retrieve_test_case] for the same
    ticket gives a record whose description and test_cases are the
    stored ones. *)
Theorem store_then_retrieve (w : World) (jira_id : pystr) (description test_cases : json)
    (s : State) :
  up (qdrant s) = true →
  ∃ s1 s2 stored,
    store_test_case w jira_id description test_cases s = (Returns jira_id, s1)
    ∧ retrieve_test_case w jira_id s1 = (Returns (Some stored), s2)
    ∧ dict_lookup stored (py "jira_id") = Some (JStr jira_id)
    ∧ dict_lookup stored (py "description") = Some description
    ∧ dict_lookup stored (py "test_cases") = Some test_cases.
Proof.
  intros Hup. rewrite store_test_case_up by done.
  eexists _, _, _. split; [reflexivity|].
  rewrite retrieve_test_case_cached. unfold cached. simpl.
  rewrite lookup_insert_eq. simpl. repeat split; reflexivity.
Qed.

Lemma store_then_retrieve_witness :
  ∃ s1 s2 stored,
    store_test_case (Sample.world 0 (fun _ => HttpRaises ReadTimeout)) (py "PROJ-1")
      (JStr (py "Login page")) (JArr []) Sample.initial = (Returns (py "PROJ-1"), s1)
    ∧ retrieve_test_case (Sample.world 0 (fun _ => HttpRaises ReadTimeout)) (py "PROJ-1") s1
      = (Returns (Some stored), s2)
    ∧ dict_lookup stored (py "jira_id") = Some (JStr (py "PROJ-1"))
    ∧ dict_lookup stored (py "description") = Some (JStr (py "Login page"))
    ∧ dict_lookup stored (py "test_cases") = Some (JArr []).
Proof.
  apply (store_then_retrieve (Sample.world 0 (fun _ => HttpRaises ReadTimeout)) (py "PROJ-1")
           (JStr (py "Login page")) (JArr []) Sample.initial).
  reflexivity.
Defined.

(** The two branches of [generate_test_case] after the lookup. *)
Lemma generate_test_case_branches (w : World) (ticket : JiraTicket) (s : State) :
  generate_test_case w ticket s =
    match cached w (jira_id ticket) s with
    | Some ((_ :: _) as stored) =>
        try_except
          (new_TestCaseResponse (jira_id ticket)
             (dict_get stored (py "description") (JStr []))
             (dict_get stored (py "test_cases") (JArr [])))
          (fun e => raise (HTTPException 500 (ErrorGenerating e)))
          (logged s (lookup_events w (jira_id ticket) s))
    | _ => regenerate w ticket (logged s (lookup_events w (jira_id ticket) s))
    end.
Proof.
  unfold generate_test_case, try_except, bind at 1.
  rewrite retrieve_test_case_cached.
  destruct (cached w (jira_id ticket) s) as [[|entry stored]|]; reflexivity.
Qed.

Lemma fetch_stored_case_branches (w : World) (jira_id : pystr) (s : State) :
  fetch_stored_case w jira_id s =
    match cached w jira_id s with
    | Some ((_ :: _) as stored) =>
        new_TestCaseResponse jira_id
          (dict_get stored (py "description") (JStr []))
          (dict_get stored (py "test_cases") (JArr []))
          (logged s (lookup_events w jira_id s))
    | _ => (Raises (HTTPException 404 (NoTestCasesFound jira_id)),
            logged s (lookup_events w jira_id s))
    end.
Proof.
  unfold fetch_stored_case, bind at 1. rewrite retrieve_test_case_cached.
  destruct (cached w jira_id s) as [[|entry stored]|]; reflexivity.
Qed.

(** The response built from a stored payload. *)
Lemma cached_response (jira_id : pystr) (stored : pydict) (d : pystr)
    (tcs : list TestCase) (s : State) :
  description_reads stored d → test_cases_read stored tcs →
  new_TestCaseResponse jira_id
    (dict_get stored (py "description") (JStr []))
    (dict_get stored (py "test_cases") (JArr [])) s
  = (Returns {| response_jira_id := jira_id; description := d; test_cases := tcs |}, s).
Proof.
  intros Hd Htcs. unfold new_TestCaseResponse, validate_TestCaseResponse, dict_get.
  destruct Hd as [-> | [-> ->]]; (destruct Htcs as [(entries & -> & Hentries) | [-> ->]]);
    simpl; rewrite ?Hentries; reflexivity.
Qed.

(** A response that cannot be built raises [ValidationError] and does
    nothing else. *)
Lemma new_TestCaseResponse_state (jira_id : pystr) (description test_cases : json)
    (s : State) :
  snd (new_TestCaseResponse jira_id description test_cases s) = s.
Proof.
  unfold new_TestCaseResponse, from_option.
  by destruct (validate_TestCaseResponse _ _ _).
Qed.

(** With the server out of reach, the first task fails, which is
    logged. *)
Lemma run_background_down (w : World) (t : Task) (ts : list Task) (s : State) :
  up (qdrant s) = false →
  run_background w (t :: ts) s =
    (Returns tt,
     logged s [QdrantUpsert (point_id w (task_jira_id t)); TaskFailed StorageError]).
Proof.
  intros Hup. unfold run_background, try_except. simpl. unfold bind at 1.
  rewrite store_test_case_down by done. run. unfold logged. by rewrite <- !app_assoc.
Qed.

End Store.

(** ** What a request leaves untouched *)

Section Frames.
Import Main VectorStore.

Local Open Scope string_scope.
Local Open Scope list_scope.
Local Open Scope Z_scope.

Lemma preserves_ret {A} (a : A) : preserves (ret a).
Proof. by intros s. Qed.

Lemma preserves_raise {A} (e : PyExc) : preserves (@raise A e).
Proof. by intros s. Qed.

Lemma preserves_emit (ev : Event) : preserves (emit ev).
Proof. by intros s. Qed.

Lemma preserves_next_post : preserves next_post.
Proof. by intros s. Qed.

Lemma preserves_bind {A B} (c : M A) (k : A → M B) :
  preserves c → (∀ a, preserves (k a)) → preserves (bind c k).
Proof.
  intros Hc Hk s. unfold bind. specialize (Hc s).
  destruct (c s) as [[a|e] s']; simpl in *; [|done].
  destruct Hc as [Hq' Ht'], (Hk a s') as [Hq Ht]. split; congruence.
Qed.

Lemma preserves_try_except {A} (c : M A) (h : PyExc → M A) :
  preserves c → (∀ e, preserves (h e)) → preserves (try_except c h).
Proof.
  intros Hc Hh s. unfold try_except. specialize (Hc s).
  destruct (c s) as [[a|e] s']; simpl in *; [done|].
  destruct Hc as [Hq' Ht'], (Hh e s') as [Hq Ht]. split; congruence.
Qed.

Ltac frame :=
  repeat first
    [ progress intros
    | apply preserves_bind | apply preserves_try_except
    | apply preserves_ret | apply preserves_raise
    | apply preserves_emit | apply preserves_next_post
    | match goal with
      | |- preserves (match ?x with _ => _ end) => destruct x
      | |- preserves (if ?b then _ else _) => destruct b
      end ].

Lemma preserves_fetch_jira_description (w : World) (jira_id username api_token base_url : pystr) :
  preserves (fetch_jira_description w jira_id username api_token base_url).
Proof. unfold fetch_jira_description, value_get. frame. Qed.

Lemma preserves_attempt (w : World) (url model prompt : pystr) (retry_count : Z) :
  preserves (attempt w url model prompt retry_count).
Proof. unfold attempt, back_off, parse_response. frame. Qed.

Lemma preserves_while_retry (w : World) (url model prompt : pystr) (remaining : nat) :
  preserves (while_retry w url model prompt remaining).
Proof.
  induction remaining as [|remaining IH]; simpl; [apply preserves_ret|].
  apply preserves_bind; [apply preserves_attempt|]. intros []; [apply preserves_ret | done].
Qed.

Lemma preserves_generate_test_cases (w : World) (description : json) :
  preserves (generate_test_cases w description).
Proof.
  unfold generate_test_cases. apply preserves_bind; [frame|].
  intros _. apply preserves_while_retry.
Qed.

Lemma preserves_obtain_description (w : World) (ticket : JiraTicket)
    (username api_token base_url : pystr) :
  preserves (obtain_description w ticket username api_token base_url).
Proof.
  unfold obtain_description, check_len.
  destruct (_ && _); [apply preserves_ret|].
  apply preserves_bind; [apply preserves_fetch_jira_description|]. frame.
Qed.

End Frames.

(** ** The requests *)

Section Requests.
Import Main VectorStore.

Local Open Scope string_scope.
Local Open Scope list_scope.
Local Open Scope Z_scope.

Lemma cached_up (w : World) (jira_id : pystr) (s : State) (stored : pydict) :
  cached w jira_id s = Some stored →
  lookup_events w jira_id s = [QdrantRetrieve [point_id w jira_id]].
Proof.
  unfold cached, lookup_events. by destruct (up (qdrant s)).
Qed.

(** The request for a ticket whose record is found. *)
Lemma serve_cached (w : World) (ticket : JiraTicket) (s : State) (stored : pydict) :
  cached w (jira_id ticket) s = Some stored → stored ≠ [] →
  serve_generate_test_case w ticket s =
    (match validate_TestCaseResponse (jira_id ticket)
             (dict_get stored (py "description") (JStr []))
             (dict_get stored (py "test_cases") (JArr [])) with
     | Some response => Returns response
     | None => Raises (HTTPException 500 (ErrorGenerating ValidationError))
     end,
     no_tasks (logged s [QdrantRetrieve [point_id w (jira_id ticket)]])).
Proof.
  intros Hcached Hstored. unfold serve_generate_test_case, bind, clear_tasks.
  rewrite generate_test_case_branches.
  change (cached w (jira_id ticket) _) with (cached w (jira_id ticket) s).
  change (lookup_events w (jira_id ticket) _) with (lookup_events w (jira_id ticket) s).
  rewrite Hcached, (cached_up _ _ _ _ Hcached).
  destruct stored as [|entry stored]; [done|].
  unfold try_except, new_TestCaseResponse, from_option.
  by destruct (validate_TestCaseResponse _ _ _).
Qed.

(** A request that missed the cache and answered has stored what it
    answered with. *)
Lemma serve_miss (w : World) (ticket : JiraTicket) (s s1 : State)
    (response : TestCaseResponse) :
  up (qdrant s) = true →
  opt_dict_truthy (cached w (jira_id ticket) s) = false →
  serve_generate_test_case w ticket s = (Returns response, s1) →
  ∃ description test_cases,
    validate_TestCaseResponse (jira_id ticket) description test_cases = Some response
    ∧ cached w (jira_id ticket) s1
      = Some [(py "jira_id", JStr (jira_id ticket));
              (py "description", description);
              (py "test_cases", test_cases)].
Proof.
  intros Hup Hmiss Hfirst. unfold serve_generate_test_case in Hfirst.
  assert (Hhandler :
    (clear_tasks ;; generate_test_case w ticket)%py s
    = regenerate w ticket (no_tasks (logged s (lookup_events w (jira_id ticket) s)))).
  { unfold bind, clear_tasks. rewrite generate_test_case_branches.
    change (cached w (jira_id ticket) _) with (cached w (jira_id ticket) s).
    change (lookup_events w (jira_id ticket) _) with (lookup_events w (jira_id ticket) s).
    by destruct (cached w (jira_id ticket) s) as [[|entry stored]|]. }
  rewrite Hhandler in Hfirst. clear Hhandler.
  set (s' := no_tasks _) in Hfirst.
  unfold regenerate, generate_and_schedule, try_except in Hfirst.
  unfold bind at 1 in Hfirst.
  destruct (preserves_obtain_description w ticket (username_of w ticket)
              (api_token_of w ticket) (base_url_of w ticket) s') as [Hq1 Ht1].
  destruct (obtain_description _ _ _ _ _ s') as [[description|e] sa]; [|discriminate].
  unfold bind at 1 in Hfirst.
  destruct (preserves_generate_test_cases w description sa) as [Hq2 Ht2].
  destruct (generate_test_cases w description sa) as [[test_cases|e] sb]; [|discriminate].
  simpl in Hq1, Ht1, Hq2, Ht2.
  unfold check_len in Hfirst. destruct (py_len test_cases); [|discriminate].
  unfold new_TestCaseResponse in Hfirst.
  destruct (validate_TestCaseResponse (jira_id ticket) description test_cases)
    as [response'|] eqn:Hvalid; [|discriminate].
  exists description, test_cases.
  revert Hfirst. run. rewrite Ht2, Ht1. simpl.
  unfold run_background, try_except. simpl run_tasks. unfold bind at 1.
  rewrite store_test_case_up by (simpl; congruence).
  run. intros [= -> <-]. split; [done|].
  unfold cached. simpl. by rewrite lookup_insert_eq.
Qed.

(** Once a request has answered, and the store was reachable, the same
    request is answered from the store, with the same response and with
    no call to the ticket tracker or to the model endpoint. *)
Lemma answered_request_is_cached (w : World) (ticket : JiraTicket) (s s1 : State)
    (response : TestCaseResponse) :
  up (qdrant s) = true →
  serve_generate_test_case w ticket s = (Returns response, s1) →
  serve_generate_test_case w ticket s1 =
    (Returns response, no_tasks (logged s1 [QdrantRetrieve [point_id w (jira_id ticket)]])).
Proof.
  intros Hup Hfirst.
  destruct (cached w (jira_id ticket) s) as [[|entry stored]|] eqn:Hcached.
  - destruct (serve_miss w ticket s s1 response) as (d & tcs & Hvalid & Hstored);
      [done | by rewrite Hcached | done |].
    rewrite (serve_cached w ticket s1 _ Hstored) by done.
    unfold dict_get. simpl. by rewrite Hvalid.
  - rewrite (serve_cached w ticket s _ Hcached) in Hfirst by done.
    destruct (validate_TestCaseResponse _ _ _) as [r|] eqn:Hvalid; [|discriminate].
    injection Hfirst as -> <-.
    rewrite (serve_cached w ticket _ (entry :: stored)) by done.
    by rewrite Hvalid.
  - destruct (serve_miss w ticket s s1 response) as (d & tcs & Hvalid & Hstored);
      [done | by rewrite Hcached | done |].
    rewrite (serve_cached w ticket s1 _ Hstored) by done.
    unfold dict_get. simpl. by rewrite Hvalid.
Qed.

(** C1 — For a ticket whose record the store holds, POST
    /generate-test-case answers from that record: the description and
    the test cases of the response are the stored ones, and the only
    thing the request does is the lookup: no call to the ticket tracker,
    none to the model endpoint, nothing persisted. *)
Theorem cache_short_circuit (w : World) (ticket : JiraTicket) (s : State) (stored : pydict) :
  cached w (jira_id ticket) s = Some stored →
  stored ≠ [] →
  snd (serve_generate_test_case w ticket s)
    = no_tasks (logged s [QdrantRetrieve [point_id w (jira_id ticket)]])
  ∧ ∀ d entries tcs,
      dict_lookup stored (py "description") = Some (JStr d) →
      dict_lookup stored (py "test_cases") = Some (JArr entries) →
      mapM validate_TestCase entries = Some tcs →
      fst (serve_generate_test_case w ticket s)
        = Returns {| response_jira_id := jira_id ticket;
                     description := d; test_cases := tcs |}.
Proof.
  intros Hcached Hstored. rewrite (serve_cached w ticket s stored) by done.
  split; [reflexivity|].
  intros d entries tcs Hd Hentries Htcs. unfold dict_get. rewrite Hd, Hentries.
  unfold validate_TestCaseResponse. simpl. by rewrite Htcs.
Qed.

Lemma cache_short_circuit_witness :
  snd (serve_generate_test_case (Sample.answering (py "[]")) Sample.plain_ticket
         (Sample.holding (Sample.answering (py "[]")) (py "PROJ-1") (Some Sample.login_record)))
    = no_tasks (logged (Sample.holding (Sample.answering (py "[]")) (py "PROJ-1")
                          (Some Sample.login_record))
                  [QdrantRetrieve [point_id (Sample.answering (py "[]")) (py "PROJ-1")]])
  ∧ fst (serve_generate_test_case (Sample.answering (py "[]")) Sample.plain_ticket
           (Sample.holding (Sample.answering (py "[]")) (py "PROJ-1") (Some Sample.login_record)))
    = Returns {| response_jira_id := py "PROJ-1";
                 description := py "Login page";
                 test_cases := [ {| test_id := py "TC-001"; title := py "Valid login";
                                    steps := [py "Open login page"; py "Click login"];
                                    expected_result := py "User is logged in" |} ] |}.
Proof.
  destruct (cache_short_circuit (Sample.answering (py "[]")) Sample.plain_ticket
              (Sample.holding (Sample.answering (py "[]")) (py "PROJ-1")
                 (Some Sample.login_record))
              Sample.login_record) as [Hstate Hresponse].
  - vm_compute. reflexivity.
  - discriminate.
  - split; [exact Hstate|].
    apply (Hresponse (py "Login page")
             [JObj [(py "test_id", JStr (py "TC-001"));
                    (py "title", JStr (py "Valid login"));
                    (py "steps", JArr [JStr (py "Open login page"); JStr (py "Click login")]);
                    (py "expected_result", JStr (py "User is logged in"));
                    (py "priority", JStr (py "high"))]]);
      vm_compute; reflexivity.
Defined.

(** C10 — Whether a record is present is decided by the truth value of
    the payload.  With a point whose payload is [None] or empty, GET
    /fetch-stored-case answers 404 and POST /generate-test-case goes on
    as after a cache miss.  With a non-empty payload, a missing
    description reads as the empty string and missing test_cases as the
    empty list, and both endpoints answer with them instead of
    raising. *)
Theorem payload_truthiness (w : World) (ticket : JiraTicket) (s : State)
    (vec : Embedding) (p : option pydict) :
  up (qdrant s) = true →
  points (qdrant s) !! point_id w (jira_id ticket) = Some {| vector := vec; payload := p |} →
  (opt_dict_truthy p = false →
     fetch_stored_case w (jira_id ticket) s
       = (Raises (HTTPException 404 (NoTestCasesFound (jira_id ticket))),
          logged s [QdrantRetrieve [point_id w (jira_id ticket)]])
     ∧ generate_test_case w ticket s
       = regenerate w ticket (logged s [QdrantRetrieve [point_id w (jira_id ticket)]]))
  ∧ (∀ stored d tcs,
       p = Some stored → stored ≠ [] →
       description_reads stored d → test_cases_read stored tcs →
       fetch_stored_case w (jira_id ticket) s
         = (Returns {| response_jira_id := jira_id ticket;
                       description := d; test_cases := tcs |},
            logged s [QdrantRetrieve [point_id w (jira_id ticket)]])
       ∧ generate_test_case w ticket s
         = (Returns {| response_jira_id := jira_id ticket;
                       description := d; test_cases := tcs |},
            logged s [QdrantRetrieve [point_id w (jira_id ticket)]])).
Proof.
  intros Hup Hpoint.
  assert (Hcached : cached w (jira_id ticket) s = p).
  { unfold cached. by rewrite Hup, Hpoint. }
  assert (Hevents : lookup_events w (jira_id ticket) s
                    = [QdrantRetrieve [point_id w (jira_id ticket)]]).
  { unfold lookup_events. by rewrite Hup. }
  rewrite fetch_stored_case_branches, generate_test_case_branches, Hcached, Hevents.
  split.
  - intros Hfalsy. by destruct p as [[|entry stored]|].
  - intros stored d tcs -> Hstored Hd Htcs.
    destruct stored as [|entry stored]; [done|].
    unfold try_except. by rewrite (cached_response _ _ d tcs).
Qed.

Lemma payload_truthiness_witness :
  (fetch_stored_case (Sample.answering (py "[]")) (py "PROJ-1")
     (Sample.holding (Sample.answering (py "[]")) (py "PROJ-1") (Some []))
   = (Raises (HTTPException 404 (NoTestCasesFound (py "PROJ-1"))),
      logged (Sample.holding (Sample.answering (py "[]")) (py "PROJ-1") (Some []))
        [QdrantRetrieve [point_id (Sample.answering (py "[]")) (py "PROJ-1")]])
   ∧ generate_test_case (Sample.answering (py "[]")) Sample.test_ticket
       (Sample.holding (Sample.answering (py "[]")) (py "PROJ-1") (Some []))
     = regenerate (Sample.answering (py "[]")) Sample.test_ticket
         (logged (Sample.holding (Sample.answering (py "[]")) (py "PROJ-1") (Some []))
            [QdrantRetrieve [point_id (Sample.answering (py "[]")) (py "PROJ-1")]]))
  ∧ fst (fetch_stored_case (Sample.answering (py "[]")) (py "PROJ-1")
           (Sample.holding (Sample.answering (py "[]")) (py "PROJ-1")
              (Some [(py "jira_id", JStr (py "PROJ-1"))])))
    = Returns {| response_jira_id := py "PROJ-1"; description := []; test_cases := [] |}.
Proof.
  split.
  - apply (payload_truthiness (Sample.answering (py "[]")) Sample.test_ticket
             (Sample.holding (Sample.answering (py "[]")) (py "PROJ-1") (Some []))
             [] (Some [])); reflexivity.
  - destruct (payload_truthiness (Sample.answering (py "[]")) Sample.test_ticket
                (Sample.holding (Sample.answering (py "[]")) (py "PROJ-1")
                   (Some [(py "jira_id", JStr (py "PROJ-1"))]))
                [] (Some [(py "jira_id", JStr (py "PROJ-1"))])) as [_ Hpresent];
      [reflexivity | reflexivity |].
    destruct (Hpresent [(py "jira_id", JStr (py "PROJ-1"))] [] []) as [Hfetch _].
    + reflexivity.
    + discriminate.
    + right. split; reflexivity.
    + right. split; reflexivity.
    + simpl jira_id in Hfetch. by rewrite Hfetch.
Defined.

(** C8, as amended — With the backing store out of reach, only the
    search surfaces the StorageError.  [retrieve_test_case] catches it,
    prints it and answers [None]: the lookup of POST /generate-test-case
    then goes on as after a cache miss, and GET /fetch-stored-case
    answers 404 as for an unknown ticket.  On the background path the
    task fails, which is logged and reaches no caller. *)
Theorem storage_error_paths (w : World) (s : State) :
  up (qdrant s) = false →
  (∀ q, search_test_cases w q s = (Raises StorageError, logged s [QdrantSearch (limit q)]))
  ∧ (∀ jira_id,
       retrieve_test_case w jira_id s
       = (Returns None,
          logged s [QdrantRetrieve [point_id w jira_id]; Printed StorageError]))
  ∧ (∀ jira_id,
       fetch_stored_case w jira_id s
       = (Raises (HTTPException 404 (NoTestCasesFound jira_id)),
          logged s [QdrantRetrieve [point_id w jira_id]; Printed StorageError]))
  ∧ (∀ ticket,
       generate_test_case w ticket s
       = regenerate w ticket
           (logged s [QdrantRetrieve [point_id w (jira_id ticket)]; Printed StorageError]))
  ∧ (∀ t ts,
       run_background w (t :: ts) s
       = (Returns tt,
          logged s [QdrantUpsert (point_id w (task_jira_id t)); TaskFailed StorageError])).
Proof.
  intros Hup.
  assert (Hcached : ∀ jira_id, cached w jira_id s = None).
  { intros jira_id. unfold cached. by rewrite Hup. }
  assert (Hevents : ∀ jira_id, lookup_events w jira_id s
                    = [QdrantRetrieve [point_id w jira_id]; Printed StorageError]).
  { intros jira_id. unfold lookup_events. by rewrite Hup. }
  repeat split.
  - intros q. unfold search_test_cases, search_similar_test_cases, client_search. run.
    by rewrite Hup.
  - intros jira_id. by rewrite retrieve_test_case_cached, Hcached, Hevents.
  - intros jira_id. by rewrite fetch_stored_case_branches, Hcached, Hevents.
  - intros ticket. by rewrite generate_test_case_branches, Hcached, Hevents.
  - intros t ts. by apply run_background_down.
Qed.

Lemma storage_error_paths_witness :
  fetch_stored_case (Sample.answering (py "[]")) (py "PROJ-1") Sample.unreachable
  = (Raises (HTTPException 404 (NoTestCasesFound (py "PROJ-1"))),
     logged Sample.unreachable
       [QdrantRetrieve [point_id (Sample.answering (py "[]")) (py "PROJ-1")];
        Printed StorageError]).
Proof.
  apply (storage_error_paths (Sample.answering (py "[]")) Sample.unreachable).
  reflexivity.
Defined.

(** C8, as stated, fails on the two lookups: with the store out of reach
    GET /fetch-stored-case answers "not found", and POST
    /generate-test-case answers with freshly generated test cases. *)
Lemma lookup_swallows_storage_error :
  ¬ surfaces_storage_error (fetch_stored_case (Sample.answering (py "[]")) (py "PROJ-1"))
  ∧ ¬ surfaces_storage_error
        (serve_generate_test_case (Sample.answering (py "[]")) Sample.test_ticket)
  ∧ fst (fetch_stored_case (Sample.answering (py "[]")) (py "PROJ-1") Sample.unreachable)
    = Raises (HTTPException 404 (NoTestCasesFound (py "PROJ-1")))
  ∧ fst (serve_generate_test_case (Sample.answering (py "[]")) Sample.test_ticket
           Sample.unreachable)
    = Returns {| response_jira_id := py "PROJ-1";
                 description := mock_description; test_cases := [] |}.
Proof.
  split; [|split; [|split]].
  - intros H. destruct (H Sample.unreachable eq_refl) as (e & He & Hmentions).
    vm_compute in He. injection He as <-. vm_compute in Hmentions. discriminate.
  - intros H. destruct (H Sample.unreachable eq_refl) as (e & He & _).
    vm_compute in He. discriminate.
  - vm_compute. reflexivity.
  - vm_compute. reflexivity.
Qed.

Lemma lacks_field_invalid (entry : json) :
  lacks_field entry → validate_TestCase entry = None.
Proof.
  intros (d & field & -> & Hfield & Hmissing). unfold validate_TestCase.
  repeat (apply elem_of_cons in Hfield as [-> | Hfield];
          [rewrite Hmissing; simpl;
           repeat match goal with
                  | |- context [dict_lookup d ?k ≫= ?f] => destruct (dict_lookup d k ≫= f); simpl
                  end; reflexivity|]).
  by apply elem_of_nil in Hfield.
Qed.

(** The path of a cache miss, once the description is there and the
    model has answered with an array. *)
Lemma regenerate_answer (w : World) (ticket : JiraTicket) (s s1 : State)
    (d text : pystr) (entries : list json) :
  timeout_setting_ok w →
  obtain_description w ticket (username_of w ticket) (api_token_of w ticket)
    (base_url_of w ticket) s = (Returns (JStr d), s1) →
  answers_with w (posts s1) text →
  extract_test_cases text = inr (JArr entries) →
  regenerate w ticket s =
    match mapM validate_TestCase entries with
    | Some tcs =>
        (Returns {| response_jira_id := jira_id ticket; description := d; test_cases := tcs |},
         {| qdrant := qdrant s1; posts := S (posts s1);
            log := log (posted w (JStr d) s1);
            tasks := tasks s1 ++ [ {| task_jira_id := jira_id ticket;
                                      task_description := JStr d;
                                      task_test_cases := JArr entries |} ] |})
    | None =>
        (Raises (HTTPException 500 (ErrorGenerating ValidationError)),
         {| qdrant := qdrant s1; posts := S (posts s1);
            log := log (posted w (JStr d) s1);
            tasks := tasks s1 ++ [ {| task_jira_id := jira_id ticket;
                                      task_description := JStr d;
                                      task_test_cases := JArr entries |} ] |})
    end.
Proof.
  intros Hfloat Hdescription Hanswer Hextract.
  unfold regenerate, generate_and_schedule, try_except, bind at 1.
  rewrite Hdescription. unfold bind at 1.
  rewrite (generate_test_cases_answer w (JStr d) s1 text), Hextract by done.
  unfold check_len. run.
  unfold new_TestCaseResponse, validate_TestCaseResponse, validate_list. run.
  destruct (mapM validate_TestCase entries); reflexivity.
Qed.

(** C7, as amended — The entries of a successfully parsed array are
    returned by the generation pipeline as they were parsed, with no
    field defaulted.  The request answers with them when every entry
    has its test_id, title, steps and expected_result, of the declared
    types; when an entry misses one of these fields, building the
    response fails and the whole request fails with HTTP 500, nothing
    being persisted. *)
Theorem missing_field_fails_request (w : World) (ticket : JiraTicket) (s s1 : State)
    (d text : pystr) (entries : list json) :
  timeout_setting_ok w →
  opt_dict_truthy (cached w (jira_id ticket) s) = false →
  obtain_description w ticket (username_of w ticket) (api_token_of w ticket)
    (base_url_of w ticket) (no_tasks (logged s (lookup_events w (jira_id ticket) s)))
    = (Returns (JStr d), s1) →
  answers_with w (posts s1) text →
  extract_test_cases text = inr (JArr entries) →
  generate_test_cases w (JStr d) s1 = (Returns (JArr entries), posted w (JStr d) s1)
  ∧ ((∃ entry, entry ∈ entries ∧ lacks_field entry) →
       serve_generate_test_case w ticket s
       = (Raises (HTTPException 500 (ErrorGenerating ValidationError)),
          no_tasks (posted w (JStr d) s1)))
  ∧ (∀ tcs, mapM validate_TestCase entries = Some tcs →
       fst (serve_generate_test_case w ticket s)
       = Returns {| response_jira_id := jira_id ticket;
                    description := d; test_cases := tcs |}).
Proof.
  intros Hfloat Hmiss Hdescription Hanswer Hextract.
  assert (Hhandler :
    (clear_tasks ;; generate_test_case w ticket)%py s
    = regenerate w ticket (no_tasks (logged s (lookup_events w (jira_id ticket) s)))).
  { unfold bind, clear_tasks. rewrite generate_test_case_branches.
    change (cached w (jira_id ticket) _) with (cached w (jira_id ticket) s).
    change (lookup_events w (jira_id ticket) _) with (lookup_events w (jira_id ticket) s).
    by destruct (cached w (jira_id ticket) s) as [[|entry stored]|]. }
  split; [|split].
  - by rewrite (generate_test_cases_answer w (JStr d) s1 text), Hextract.
  - intros (entry & Hin & Hlacks).
    unfold serve_generate_test_case. rewrite Hhandler.
    rewrite (regenerate_answer w ticket _ s1 d text entries) by done.
    assert (mapM validate_TestCase entries = None) as ->; [|reflexivity].
    apply mapM_None, Exists_exists. exists entry. split; [done|].
    by apply lacks_field_invalid.
  - intros tcs Htcs.
    unfold serve_generate_test_case. rewrite Hhandler.
    rewrite (regenerate_answer w ticket _ s1 d text entries) by done.
    by rewrite Htcs.
Qed.

Lemma missing_field_fails_request_witness :
  serve_generate_test_case (Sample.answering (pyq "[{'test_id':'TC-001'}]"))
    Sample.test_ticket Sample.initial
  = (Raises (HTTPException 500 (ErrorGenerating ValidationError)),
     no_tasks (posted (Sample.answering (pyq "[{'test_id':'TC-001'}]"))
                 (JStr mock_description)
                 (logged Sample.initial
                    [QdrantRetrieve
                       [point_id (Sample.answering (pyq "[{'test_id':'TC-001'}]"))
                          (py "PROJ-1")]]))).
Proof.
  destruct (missing_field_fails_request
              (Sample.answering (pyq "[{'test_id':'TC-001'}]"))
              Sample.test_ticket Sample.initial
              (logged Sample.initial
                 [QdrantRetrieve
                    [point_id (Sample.answering (pyq "[{'test_id':'TC-001'}]")) (py "PROJ-1")]])
              mock_description (pyq "[{'test_id':'TC-001'}]")
              [JObj [(py "test_id", JStr (py "TC-001"))]])
    as (_ & Hfails & _).
  - reflexivity.
  - reflexivity.
  - reflexivity.
  - eexists _, [(py "response", JStr (pyq "[{'test_id':'TC-001'}]"))].
    split; [intros; vm_compute; reflexivity | vm_compute; reflexivity].
  - vm_compute. reflexivity.
  - apply Hfails. exists (JObj [(py "test_id", JStr (py "TC-001"))]). split.
    + apply elem_of_cons. by left.
    + exists [(py "test_id", JStr (py "TC-001"))], (py "title").
      split; [reflexivity | split; [|reflexivity]].
      apply elem_of_cons. right. apply elem_of_cons. by left.
Defined.

(** C7, as stated, fails: when the model answers
    [[{"test_id":"TC-001"}]], an entry without title, steps and
    expected_result, the request does not answer with a test case whose
    missing fields are empty; it fails with HTTP 500. *)
Lemma entry_without_fields_fails_request :
  ¬ tolerates_missing_fields
  ∧ extract_test_cases (pyq "[{'test_id':'TC-001'}]")
    = inr (JArr [JObj [(py "test_id", JStr (py "TC-001"))]])
  ∧ fst (serve_generate_test_case (Sample.answering (pyq "[{'test_id':'TC-001'}]"))
           Sample.test_ticket Sample.initial)
    = Raises (HTTPException 500 (ErrorGenerating ValidationError)).
Proof.
  split; [|split].
  - intros H.
    destruct (H (Sample.answering (pyq "[{'test_id':'TC-001'}]"))
                Sample.test_ticket Sample.initial
                (pyq "[{'test_id':'TC-001'}]")
                [JObj [(py "test_id", JStr (py "TC-001"))]])
      as (response & Hresponse & _).
    + reflexivity.
    + reflexivity.
    + reflexivity.
    + reflexivity.
    + eexists _, [(py "response", JStr (pyq "[{'test_id':'TC-001'}]"))].
      split; [intros; vm_compute; reflexivity | vm_compute; reflexivity].
    + vm_compute. reflexivity.
    + constructor; [eauto | constructor].
    + vm_compute in Hresponse. discriminate Hresponse.
  - vm_compute. reflexivity.
  - vm_compute. reflexivity.
Qed.

End Requests.

(** ** The key of a ticket *)

Section Keys.
Import Main VectorStore.

Local Open Scope string_scope.
Local Open Scope list_scope.
Local Open Scope Z_scope.

(** The key lies in the store's range of ids. *)
Lemma point_id_range (w : World) (jira_id : pystr) :
  0 <= point_id w jira_id < 2 ^ 63.
Proof. unfold point_id. apply Z.mod_pos_bound. reflexivity. Qed.

(** In one process the key depends on the ticket only through the
    process's hash secret. *)
Lemma point_id_same_secret (w1 w2 : World) (jira_id : pystr) :
  hash_secret w1 = hash_secret w2 → point_id w1 jira_id = point_id w2 jira_id.
Proof. unfold point_id. by intros ->. Qed.

(** C2 — The key of a ticket is not a function of the ticket alone: it
    is computed with the builtin [hash], which is salted per process.
    Two processes, started with PYTHONHASHSEED=1 and PYTHONHASHSEED=2,
    give ticket PROJ-1 different keys, so that the record the first one
    stores is not found by the second. *)
Theorem point_id_changes_across_restarts :
  point_id (Sample.world 1 (fun _ => HttpRaises ReadTimeout)) (py "PROJ-1")
    = 3100968060559513587
  ∧ point_id (Sample.world 2 (fun _ => HttpRaises ReadTimeout)) (py "PROJ-1")
    = 9084180353048072530
  ∧ fst (retrieve_test_case (Sample.world 1 (fun _ => HttpRaises ReadTimeout)) (py "PROJ-1")
           (snd (store_test_case (Sample.world 1 (fun _ => HttpRaises ReadTimeout))
                   (py "PROJ-1") (JStr (py "Login page")) (JArr []) Sample.initial)))
    = Returns (Some [(py "jira_id", JStr (py "PROJ-1"));
                     (py "description", JStr (py "Login page"));
                     (py "test_cases", JArr [])])
  ∧ fst (retrieve_test_case (Sample.world 2 (fun _ => HttpRaises ReadTimeout)) (py "PROJ-1")
           (snd (store_test_case (Sample.world 1 (fun _ => HttpRaises ReadTimeout))
                   (py "PROJ-1") (JStr (py "Login page")) (JArr []) Sample.initial)))
    = Returns None.
Proof.
  split; [|split; [|split]]; vm_compute; reflexivity.
Qed.

End Keys.

(** * Further properties *)

(** ** More on the retry loop *)

Section RetryMore.
Import Main.

Local Open Scope string_scope.
Local Open Scope list_scope.
Local Open Scope Z_scope.

(** An attempt that fails in a retried way: it backs off, unless it is
    the last one. *)
Lemma attempt_retryable (w : World) (url model prompt : pystr) (retry_count : Z) (s : State) :
  retryable (ollama_post w (posts s) url model prompt) →
  retry_count ≠ max_retries - 1 →
  attempt w url model prompt retry_count s =
    (Returns NextIteration,
     {| qdrant := qdrant s; posts := S (posts s);
        log := log s ++ [OllamaPost url model prompt;
                         Sleep (retry_delay * 2 ^ (retry_count + 1))];
        tasks := tasks s |}).
Proof.
  intros Hfail Hlast.
  destruct Hfail as [Htimeout | (status_code & text & json_body & Hpost & Hstatus)].
  - destruct (attempt_timeout w url model prompt retry_count s Htimeout) as [e ->].
    by destruct (Z.eqb_spec retry_count (max_retries - 1)).
  - unfold attempt; run. rewrite Hpost.
    destruct (Z.eqb_spec status_code 200); [done|]. simpl.
    destruct (Z.eqb_spec retry_count (max_retries - 1)); [done|].
    unfold back_off; run. by rewrite <- app_assoc.
Qed.

(** The events of [k] failed attempts that start at [retry_count]. *)
Lemma failed_attempts_from (url model prompt : pystr) (retry_count : Z) (k : nat) :
  flat_map (fun i => [OllamaPost url model prompt;
                      Sleep (retry_delay * 2 ^ (retry_count + Z.of_nat i + 1))])
           (seq 0 (S k))
  = [OllamaPost url model prompt; Sleep (retry_delay * 2 ^ (retry_count + 1))]
    ++ flat_map (fun i => [OllamaPost url model prompt;
                           Sleep (retry_delay * 2 ^ (retry_count + 1 + Z.of_nat i + 1))])
                (seq 0 k).
Proof.
  rewrite <- cons_seq, <- seq_shift.
  assert (Hshift : ∀ l,
    flat_map (fun i => [OllamaPost url model prompt;
                        Sleep (retry_delay * 2 ^ (retry_count + Z.of_nat i + 1))])
             (map S l)
    = flat_map (fun i => [OllamaPost url model prompt;
                          Sleep (retry_delay * 2 ^ (retry_count + 1 + Z.of_nat i + 1))]) l).
  { induction l as [|i l IH]; [done|]. cbn [map flat_map app]. rewrite IH.
    replace (retry_count + Z.of_nat (S i) + 1) with (retry_count + 1 + Z.of_nat i + 1)
      by lia.
    reflexivity. }
  cbn [flat_map]. rewrite Hshift.
  replace (retry_count + Z.of_nat 0 + 1) with (retry_count + 1) by lia.
  reflexivity.
Qed.

(** [k] retried failures lead to the iteration that follows them. *)
Lemma while_retry_after_failures (w : World) (url model prompt : pystr) :
  ∀ (k remaining : nat) (s : State),
    (k < remaining)%nat →
    (∀ i, (i < k)%nat → retryable (ollama_post w (posts s + i) url model prompt)) →
    while_retry w url model prompt remaining s =
      while_retry w url model prompt (remaining - k)
        {| qdrant := qdrant s; posts := (posts s + k)%nat;
           log := log s
                  ++ flat_map
                       (fun i => [OllamaPost url model prompt;
                                  Sleep (retry_delay
                                         * 2 ^ (max_retries - Z.of_nat remaining
                                                + Z.of_nat i + 1))])
                       (seq 0 k);
           tasks := tasks s |}.
Proof.
  induction k as [|k IH]; intros remaining s Hlt Hfail.
  - simpl. rewrite Nat.sub_0_r, Nat.add_0_r, app_nil_r. by destruct s.
  - destruct remaining as [|remaining]; [lia|].
    rewrite while_retry_step, attempt_retryable.
    + rewrite (IH remaining) by
        (try lia; intros i Hi; simpl posts;
         replace (S (posts s) + i)%nat with (posts s + S i)%nat by lia;
         apply Hfail; lia).
      rewrite failed_attempts_from. simpl posts. simpl log. simpl qdrant. simpl tasks.
      replace (S (posts s) + k)%nat with (posts s + S k)%nat by lia.
      replace (S remaining - S k)%nat with (remaining - k)%nat by lia.
      rewrite <- !app_assoc.
      replace (max_retries - Z.of_nat (S remaining) + 1)
        with (max_retries - Z.of_nat remaining) by lia.
      reflexivity.
    + rewrite <- (Nat.add_0_r (posts s)). apply Hfail. lia.
    + unfold max_retries. lia.
Qed.

(** X1 — Failures that are retried, then an answer: the pipeline gives what
    the answer holds. After [k] timeouts or non-200 answers, with [k < 3],
    an answer with status 200 is parsed; the pipeline has then posted [k +
    1] times and slept [retry_delay * 2 ^ i] seconds after the [i]-th
    failure. *)
Theorem retry_then_answer (w : World) (description : json) (s : State) (k : nat)
    (text : pystr) :
  timeout_setting_ok w →
  (k < 3)%nat →
  (∀ i url model prompt, (i < k)%nat →
     retryable (ollama_post w (posts s + i) url model prompt)) →
  answers_with w (posts s + k) text →
  generate_test_cases w description s =
    (match extract_test_cases text with
     | inr test_cases => Returns test_cases
     | inl cause =>
         Raises (HTTPException 500
                   (ErrorCommunicating (HTTPException 500 (FailedToParse cause))))
     end,
     {| qdrant := qdrant s; posts := (posts s + k + 1)%nat;
        log := log s ++ failed_attempts w description k
               ++ [OllamaPost (ollama_url w) (ollama_model w) (prompt_for w description)];
        tasks := tasks s |}).
Proof.
  intros Hfloat Hk Hfail Hanswer. rewrite generate_test_cases_loop by done.
  rewrite (while_retry_after_failures _ _ _ _ k) by (try lia; auto).
  destruct (3 - k)%nat as [|remaining] eqn:Hrem; [lia|].
  rewrite while_retry_step, (attempt_answer _ _ _ _ _ _ text) by done.
  unfold failed_attempts. change (max_retries - Z.of_nat 3) with 0.
  simpl posts. simpl log. simpl qdrant. simpl tasks.
  replace (S (posts s + k)) with (posts s + k + 1)%nat by lia.
  rewrite <- !app_assoc.
  destruct (extract_test_cases text); reflexivity.
Qed.

Lemma retry_then_answer_witness :
  generate_test_cases (Scenario.flaky 1 Scenario.bare_output) (JStr (py "Login page"))
    Sample.initial =
    (match extract_test_cases Scenario.bare_output with
     | inr test_cases => Returns test_cases
     | inl cause =>
         Raises (HTTPException 500
                   (ErrorCommunicating (HTTPException 500 (FailedToParse cause))))
     end,
     {| qdrant := qdrant Sample.initial; posts := 2;
        log := failed_attempts (Scenario.flaky 1 Scenario.bare_output)
                 (JStr (py "Login page")) 1
               ++ [OllamaPost (ollama_url (Scenario.flaky 1 Scenario.bare_output))
                     (ollama_model (Scenario.flaky 1 Scenario.bare_output))
                     (prompt_for (Scenario.flaky 1 Scenario.bare_output)
                        (JStr (py "Login page")))];
        tasks := [] |}).
Proof.
  apply (retry_then_answer (Scenario.flaky 1 Scenario.bare_output)
           (JStr (py "Login page")) Sample.initial 1 Scenario.bare_output).
  - reflexivity.
  - lia.
  - intros i url model prompt Hi. left.
    assert (i = 0%nat) as -> by lia. left. reflexivity.
  - eexists _, [(py "response", JStr Scenario.bare_output)].
    split; [intros; vm_compute; reflexivity | vm_compute; reflexivity].
Defined.

(** X2 — When the third attempt fails with a status other than 200, after
    two failures that were retried, the pipeline gives up: it raises HTTP
    500 whose detail quotes the body of that last answer, after three POSTs
    and sleeps of [retry_delay * 2 ^ 1] and [retry_delay * 2 ^ 2] seconds. *)
Theorem status_exhaustion (w : World) (description : json) (s : State)
    (status_code : Z) (text : pystr) (json_body : Json.decoded json) :
  timeout_setting_ok w →
  (∀ i url model prompt, (i < 2)%nat →
     retryable (ollama_post w (posts s + i) url model prompt)) →
  (∀ url model prompt,
     ollama_post w (posts s + 2) url model prompt
     = HttpResponds status_code text json_body) →
  status_code ≠ 200 →
  generate_test_cases w description s =
    (Raises (HTTPException 500
               (ErrorCommunicating (HTTPException 500 (ErrorGeneratingResponse text)))),
     {| qdrant := qdrant s; posts := (posts s + 3)%nat;
        log := log s ++ failed_attempts w description 2
               ++ [OllamaPost (ollama_url w) (ollama_model w) (prompt_for w description)];
        tasks := tasks s |}).
Proof.
  intros Hfloat Hfail Hlast Hstatus. rewrite generate_test_cases_loop by done.
  rewrite (while_retry_after_failures _ _ _ _ 2) by (try lia; auto).
  change (3 - 2)%nat with 1%nat. rewrite while_retry_step.
  unfold attempt; run. rewrite Hlast.
  destruct (Z.eqb_spec status_code 200); [done|]. simpl.
  unfold failed_attempts. change (max_retries - Z.of_nat 3) with 0.
  replace (S (posts s + 2)) with (posts s + 3)%nat by lia.
  by rewrite <- !app_assoc.
Qed.

Lemma status_exhaustion_witness :
  generate_test_cases Scenario.overloaded (JStr (py "Login page")) Sample.initial =
    (Raises (HTTPException 500
               (ErrorCommunicating
                  (HTTPException 500 (ErrorGeneratingResponse (py "busy"))))),
     {| qdrant := qdrant Sample.initial; posts := 3;
        log := failed_attempts Scenario.overloaded (JStr (py "Login page")) 2
               ++ [OllamaPost (ollama_url Scenario.overloaded)
                     (ollama_model Scenario.overloaded)
                     (prompt_for Scenario.overloaded (JStr (py "Login page")))];
        tasks := [] |}).
Proof.
  apply (status_exhaustion Scenario.overloaded (JStr (py "Login page")) Sample.initial
           503 (py "busy") (Json.loads (py "busy"))).
  - reflexivity.
  - intros i url model prompt Hi. right. eexists _, _, _. split; [reflexivity | lia].
  - reflexivity.
  - lia.
Defined.

End RetryMore.

(** ** What the pipeline returns *)

Section Returned.
Import Main.

Local Open Scope string_scope.
Local Open Scope list_scope.
Local Open Scope Z_scope.

(** What the extraction returns is a list: the slice it decodes starts
    at the first opening bracket. *)
Lemma extract_test_cases_array (text : pystr) (v : json) :
  extract_test_cases text = inr v → ∃ items, v = JArr items.
Proof.
  unfold extract_test_cases.
  destruct (decide (ch "[" ∈ text)) as [Hopen|Hopen].
  - apply list_elem_of_split_l in Hopen as (pre & rest & -> & Hpre).
    unfold find. rewrite find_from_first by done. rewrite Z.add_0_l.
    destruct (_ && _); [|discriminate].
    unfold slice, slice_bound.
    destruct (Z.ltb_spec (Z.of_nat (length pre)) 0); [lia|].
    rewrite (Z.min_l (Z.of_nat (length pre))) by (rewrite length_app; simpl length; lia).
    rewrite Nat2Z.id, drop_app_length.
    destruct (Z.to_nat _) as [|n]; simpl take.
    + discriminate.
    + destruct (Json.loads _) as [v'|] eqn:E; [|discriminate].
      apply loads_bracket in E as [items ->].
      simpl. intros [= <-]. eauto.
  - unfold find. rewrite find_from_absent by done. discriminate.
Qed.

Lemma parse_response_array (json_body : Json.decoded json) (s s' : State) (v : json) :
  parse_response json_body s = (Returns v, s') → ∃ items, v = JArr items.
Proof.
  unfold parse_response, parse_body.
  destruct json_body as [[| | | | | |result]|]; try discriminate.
  destruct (dict_get result (py "response") (JStr [])) as [| | | |text| |];
    try discriminate.
  destruct (extract_test_cases text) as [|v'] eqn:E; [discriminate|].
  intros [= <- _]. by apply extract_test_cases_array in E.
Qed.

(** An attempt that returns test cases returns a list. *)
Lemma attempt_array (w : World) (url model prompt : pystr) (retry_count : Z)
    (s s' : State) (v : json) :
  attempt w url model prompt retry_count s = (Returns (Return v), s') →
  ∃ items, v = JArr items.
Proof.
  unfold attempt, try_except, bind at 1, next_post, bind at 1, emit.
  destruct (ollama_post w (posts s) url model prompt) as [e|status_code text json_body].
  - destruct e, (retry_count =? max_retries - 1); discriminate.
  - destruct (negb (status_code =? 200)).
    + destruct (retry_count =? max_retries - 1); discriminate.
    + unfold bind.
      destruct (parse_response json_body _) as [[v'|e] s1] eqn:E.
      * intros [= <- _]. by apply parse_response_array in E.
      * destruct e as [[]| | | | | | | |]; try discriminate;
          destruct (retry_count =? max_retries - 1); discriminate.
Qed.

(** The last attempt never asks for another iteration. *)
Lemma attempt_last (w : World) (url model prompt : pystr) (s : State) :
  fst (attempt w url model prompt (max_retries - 1) s) ≠ Returns NextIteration.
Proof.
  unfold attempt, try_except, bind at 1, next_post, bind at 1, emit.
  destruct (ollama_post w (posts s) url model prompt) as [e|status_code text json_body].
  - destruct e; discriminate.
  - destruct (negb (status_code =? 200)); [discriminate|].
    unfold bind.
    destruct (parse_response json_body _) as [[v'|e] s1]; [discriminate|].
    destruct e as [[]| | | | | | | |]; discriminate.
Qed.

(** X3 — Whenever the pipeline returns, it returns a list: the loop is never
    left without a result (which would give [None]), and the decoded slice,
    which starts with an opening bracket, is an array. *)
Theorem generate_test_cases_returns_list (w : World) (description : json) (s s' : State)
    (v : json) :
  generate_test_cases w description s = (Returns v, s') → ∃ items, v = JArr items.
Proof.
  unfold generate_test_cases.
  destruct (float_accepts w _); [|discriminate].
  unfold bind at 1, ret at 1. change (Z.to_nat max_retries) with 3%nat.
  set (url := _ ++ py "/api/generate"). set (model := getenv w "OLLAMA_MODEL" _).
  set (prompt := prompt_head ++ _).
  rewrite while_retry_step.
  destruct (attempt w url model prompt _ s) as [[[v1|]|e1] s1] eqn:E1;
    [intros [= <- _]; by apply attempt_array in E1 | | discriminate].
  rewrite while_retry_step.
  destruct (attempt w url model prompt _ s1) as [[[v2|]|e2] s2] eqn:E2;
    [intros [= <- _]; by apply attempt_array in E2 | | discriminate].
  rewrite while_retry_step.
  pose proof (attempt_last w url model prompt s2) as Hlast.
  change (max_retries - Z.of_nat 1) with (max_retries - 1).
  destruct (attempt w url model prompt _ s2) as [[[v3|]|e3] s3] eqn:E3;
    [intros [= <- _]; by apply attempt_array in E3 | done | discriminate].
Qed.

Lemma generate_test_cases_returns_list_witness :
  ∃ items,
    JArr [JObj [(py "test_id", JStr (py "TC-001")); (py "title", JStr (py "t"));
                (py "steps", JArr [JStr (py "a")]);
                (py "expected_result", JStr (py "r"))]]
    = JArr items.
Proof.
  eapply (generate_test_cases_returns_list (Sample.answering Sample.chatty_output)
            (JStr (py "Login page")) Sample.initial).
  vm_compute. reflexivity.
Defined.

End Returned.

(** ** What a request asks of the outside *)

Section Budget.
Import Main VectorStore.

Local Open Scope string_scope.
Local Open Scope list_scope.
Local Open Scope Z_scope.

Lemma plus_assoc (a b c : Calls) : plus a (plus b c) = plus (plus a b) c.
Proof. unfold plus. simpl. f_equal; lia. Qed.

Lemma tally_app (l1 l2 : list Event) : tally (l1 ++ l2) = plus (tally l1) (tally l2).
Proof.
  induction l1 as [|ev l1 IH]; simpl.
  - unfold plus, no_calls. by destruct (tally l2).
  - change (tally (l1 ++ l2)) with (tally (l1 ++ l2)). unfold tally in *.
    rewrite IH. apply plus_assoc.
Qed.

Lemma fits_plus (a a' b b' : Calls) : fits a b → fits a' b' → fits (plus a a') (plus b b').
Proof. unfold fits, plus. simpl. lia. Qed.

Lemma fits_trans (a b c : Calls) : fits a b → fits b c → fits a c.
Proof. unfold fits. lia. Qed.

Lemma fits_plus_l (a b : Calls) : fits no_calls b → fits a (plus a b).
Proof. unfold fits, plus, no_calls. simpl. lia. Qed.

Lemma spends_weaken {A} (c : M A) (b b' : Calls) : spends c b → fits b b' → spends c b'.
Proof.
  intros Hc Hfits s. destruct (Hc s) as (events & Hlog & Hb).
  exists events. split; [done|]. by eapply fits_trans.
Qed.

Lemma spends_ret {A} (a : A) : spends (ret a) no_calls.
Proof. intros s. exists []. split; [by rewrite app_nil_r | unfold fits; simpl; lia]. Qed.

Lemma spends_raise {A} (e : PyExc) : spends (@raise A e) no_calls.
Proof. intros s. exists []. split; [by rewrite app_nil_r | unfold fits; simpl; lia]. Qed.

Lemma spends_emit (ev : Event) : spends (emit ev) (cost ev).
Proof.
  intros s. exists [ev]. split; [done|]. unfold tally. simpl.
  unfold fits, plus, no_calls. simpl. lia.
Qed.

Lemma spends_silent {A} (c : M A) : (∀ s, log (snd (c s)) = log s) → spends c no_calls.
Proof.
  intros Hc s. exists []. rewrite Hc, app_nil_r. split; [done|].
  unfold fits; simpl; lia.
Qed.

Lemma spends_bind {A B} (c : M A) (k : A → M B) (b1 b2 : Calls) :
  spends c b1 → (∀ a, spends (k a) b2) → fits no_calls b2 →
  spends (bind c k) (plus b1 b2).
Proof.
  intros Hc Hk Hzero s. unfold bind. destruct (Hc s) as (ev1 & Hlog1 & Hb1).
  destruct (c s) as [[a|e] s1]; simpl in *.
  - destruct (Hk a s1) as (ev2 & Hlog2 & Hb2). exists (ev1 ++ ev2).
    rewrite Hlog2, Hlog1, app_assoc, tally_app. split; [done|]. by apply fits_plus.
  - exists ev1. split; [done|]. eapply fits_trans; [done|]. by apply fits_plus_l.
Qed.

Lemma spends_try_except {A} (c : M A) (h : PyExc → M A) (b1 b2 : Calls) :
  spends c b1 → (∀ e, spends (h e) b2) → fits no_calls b2 →
  spends (try_except c h) (plus b1 b2).
Proof.
  intros Hc Hh Hzero s. unfold try_except. destruct (Hc s) as (ev1 & Hlog1 & Hb1).
  destruct (c s) as [[a|e] s1]; simpl in *.
  - exists ev1. split; [done|]. eapply fits_trans; [done|]. by apply fits_plus_l.
  - destruct (Hh e s1) as (ev2 & Hlog2 & Hb2). exists (ev1 ++ ev2).
    rewrite Hlog2, Hlog1, app_assoc, tally_app. split; [done|]. by apply fits_plus.
Qed.

(** Closes a goal [fits a b] between explicit budgets. *)
Ltac fits := unfold fits, plus, cost, no_calls; simpl; lia.

Lemma spends_new_TestCaseResponse (jira_id : pystr) (description test_cases : json) :
  spends (new_TestCaseResponse jira_id description test_cases) no_calls.
Proof.
  apply spends_silent. intros s. by rewrite new_TestCaseResponse_state.
Qed.

Lemma spends_retrieve_test_case (w : World) (jira_id : pystr) :
  spends (retrieve_test_case w jira_id) one_lookup.
Proof.
  intros s. rewrite retrieve_test_case_cached. eexists. split; [reflexivity|].
  unfold lookup_events. destruct (up (qdrant s)); unfold tally; simpl; fits.
Qed.

Lemma spends_store_test_case (w : World) (jira_id : pystr) (description test_cases : json) :
  spends (store_test_case w jira_id description test_cases) one_write.
Proof.
  intros s. destruct (up (qdrant s)) eqn:Hup.
  - rewrite store_test_case_up by done. eexists. split; [reflexivity|].
    unfold tally; simpl; fits.
  - rewrite store_test_case_down by done. eexists. split; [reflexivity|].
    unfold tally; simpl; fits.
Qed.

(** The ticket tracker is called at most once, and never again after a
    failure. *)
Lemma spends_fetch_jira_description (w : World) (jira_id username api_token base_url : pystr) :
  spends (fetch_jira_description w jira_id username api_token base_url) one_tracker_call.
Proof.
  unfold fetch_jira_description.
  destruct (negb _); [eapply spends_weaken; [apply spends_raise | fits]|].
  eapply spends_weaken;
    [apply (spends_bind _ _ one_tracker_call no_calls); [apply spends_emit | | fits] | fits].
  intros _. destruct (jira_get w _ _ _) as [e|status_code text json_body];
    [apply spends_raise|].
  destruct (negb _); [apply spends_raise|].
  destruct json_body as [data|e]; [|apply spends_raise].
  apply spends_silent. intros s. unfold bind, value_get.
  destruct data; try reflexivity.
  unfold ret. simpl. by destruct (dict_get _ _ _).
Qed.

Lemma spends_obtain_description (w : World) (ticket : JiraTicket)
    (username api_token base_url : pystr) :
  spends (obtain_description w ticket username api_token base_url) one_tracker_call.
Proof.
  unfold obtain_description.
  destruct (_ && _); [eapply spends_weaken; [apply spends_ret | fits]|].
  eapply spends_weaken;
    [apply (spends_bind _ _ one_tracker_call no_calls);
       [apply spends_fetch_jira_description | | fits] | fits].
  intros description. apply spends_silent. intros s. unfold bind, check_len.
  by destruct (py_len description).
Qed.

Lemma parse_response_state (json_body : Json.decoded json) (s : State) :
  snd (parse_response json_body s) = s.
Proof.
  unfold parse_response.
  by destruct (parse_body json_body) as [[[| | | | | |]|] [|]].
Qed.

(** What an attempt appends to the log: its POST, and its back-off when
    the loop goes on. *)
Lemma attempt_log (w : World) (url model prompt : pystr) (retry_count : Z) (s : State) :
  ∃ back_off_events,
    log (snd (attempt w url model prompt retry_count s))
      = log s ++ OllamaPost url model prompt :: back_off_events
    ∧ (back_off_events = []
       ∨ (retry_count ≠ max_retries - 1
          ∧ back_off_events = [Sleep (retry_delay * 2 ^ (retry_count + 1))])).
Proof.
  unfold attempt, try_except, bind at 1, next_post, bind at 1, emit, back_off.
  destruct (ollama_post w (posts s) url model prompt) as [e|status_code text json_body].
  - destruct (Z.eqb_spec retry_count (max_retries - 1));
      destruct e; run; rewrite <- ?app_assoc; eauto.
  - destruct (negb (status_code =? 200)).
    + destruct (Z.eqb_spec retry_count (max_retries - 1)); run;
        rewrite <- ?app_assoc; eauto.
    + unfold bind.
      match goal with |- context [parse_response json_body ?s1] =>
        pose proof (parse_response_state json_body s1) as Hs;
        destruct (parse_response json_body s1) as [[v|e] s2] end;
        simpl in Hs; subst s2; [simpl; eauto|].
      destruct (Z.eqb_spec retry_count (max_retries - 1));
        destruct e as [[]| | | | | | | |]; run; rewrite <- ?app_assoc; eauto.
Qed.

Lemma spends_attempt (w : World) (url model prompt : pystr) (retry_count : Z) :
  0 <= retry_count →
  spends (attempt w url model prompt retry_count)
         (loop_budget 1 (if retry_count =? max_retries - 1 then 0
                         else retry_delay * 2 ^ (retry_count + 1))).
Proof.
  intros Hpos s.
  assert (0 <= retry_delay * 2 ^ (retry_count + 1)) by (unfold retry_delay; lia).
  destruct (attempt_log w url model prompt retry_count s)
    as (events & -> & [-> | [Hlast ->]]);
    eexists; (split; [reflexivity|]); unfold tally, loop_budget; simpl;
    destruct (Z.eqb_spec retry_count (max_retries - 1)); try done; fits.
Qed.

(** The loop with three iterations ahead. *)
Lemma spends_while_retry (w : World) (url model prompt : pystr) :
  spends (while_retry w url model prompt 3) (loop_budget 3 12).
Proof.
  assert (H0 : spends (while_retry w url model prompt 0) no_calls) by apply spends_ret.
  assert (H1 : spends (while_retry w url model prompt 1) (loop_budget 1 0)).
  { simpl while_retry. eapply spends_weaken;
      [apply (spends_bind _ _ (loop_budget 1 0) no_calls);
         [by apply (spends_attempt w url model prompt 2) | | fits] | unfold loop_budget; fits].
    intros []; [apply spends_ret | apply H0]. }
  assert (H2 : spends (while_retry w url model prompt 2) (loop_budget 2 8)).
  { simpl while_retry. eapply spends_weaken;
      [apply (spends_bind _ _ (loop_budget 1 8) (loop_budget 1 0));
         [by apply (spends_attempt w url model prompt 1) | | unfold loop_budget; fits]
      | unfold loop_budget; fits].
    intros []; [eapply spends_weaken; [apply spends_ret | unfold loop_budget; fits]
               | apply H1]. }
  simpl while_retry. eapply spends_weaken;
    [apply (spends_bind _ _ (loop_budget 1 4) (loop_budget 2 8));
       [by apply (spends_attempt w url model prompt 0) | | unfold loop_budget; fits]
    | unfold loop_budget; fits].
  intros []; [eapply spends_weaken; [apply spends_ret | unfold loop_budget; fits] | apply H2].
Qed.

Lemma spends_generate_test_cases (w : World) (description : json) :
  spends (generate_test_cases w description) (loop_budget 3 12).
Proof.
  unfold generate_test_cases.
  eapply spends_weaken;
    [apply (spends_bind _ _ no_calls (loop_budget 3 12)); [ | | fits] | fits].
  { destruct (float_accepts w _); [apply spends_ret | apply spends_raise]. }
  intros _. apply spends_while_retry.
Qed.

(** X4 — The pipeline posts at most three times and sleeps at most twelve
    seconds in all, whatever the model endpoint does and however the
    pipeline ends; it asks nothing of the ticket tracker or of the store. *)
Theorem generate_test_cases_budget (w : World) (description : json) :
  spends (generate_test_cases w description) (loop_budget 3 12).
Proof.
  intros s. unfold generate_test_cases, bind at 1.
  destruct (float_accepts w _).
  - unfold ret at 1. change (Z.to_nat max_retries) with 3%nat.
    apply spends_while_retry.
  - exists []. unfold raise. simpl. rewrite app_nil_r. split; [done | fits].
Qed.

End Budget.

(** ** More on the requests *)

Section RequestsMore.
Import Main VectorStore.

Local Open Scope string_scope.
Local Open Scope list_scope.
Local Open Scope Z_scope.

Ltac fits := unfold fits, plus, cost, no_calls, one_lookup, one_tracker_call, one_write,
               loop_budget, request_budget; simpl; lia.

Ltac fits_in := unfold fits, tally, plus, cost, no_calls, one_lookup, one_tracker_call,
                  one_write, loop_budget, request_budget in *; simpl in *; lia.

(** The path of a cache miss leaves the store alone and schedules at
    most one task, for the ticket of the request. *)
Lemma generate_and_schedule_frame (w : World) (ticket : JiraTicket)
    (username api_token base_url : pystr) (s s' : State)
    (out : Outcome TestCaseResponse) :
  generate_and_schedule w ticket username api_token base_url s = (out, s') →
  qdrant s' = qdrant s
  ∧ (tasks s' = tasks s
     ∨ ∃ t, tasks s' = tasks s ++ [t] ∧ task_jira_id t = jira_id ticket).
Proof.
  unfold generate_and_schedule. unfold bind at 1.
  destruct (preserves_obtain_description w ticket username api_token base_url s)
    as [Hq1 Ht1].
  destruct (obtain_description _ _ _ _ _ s) as [[description|e] sa]; simpl in *;
    [|intros [= _ <-]; by auto].
  unfold bind at 1.
  destruct (preserves_generate_test_cases w description sa) as [Hq2 Ht2].
  destruct (generate_test_cases w description sa) as [[test_cases|e] sb]; simpl in *;
    [|intros [= _ <-]; split; [congruence | left; congruence]].
  unfold check_len. destruct (py_len test_cases); run;
    [|intros [= _ <-]; split; [congruence | left; congruence]].
  intros H.
  match type of H with
  | new_TestCaseResponse ?a ?b ?c ?s0 = _ =>
      pose proof (new_TestCaseResponse_state a b c s0) as Hs
  end.
  rewrite H in Hs. simpl in Hs. subst s'. simpl. split; [congruence|].
  right. eexists. split; [simpl; rewrite Ht2, Ht1; reflexivity | reflexivity].
Qed.

(** The handler itself never writes to the store; it leaves at most one
    task, for the ticket of the request. *)
Lemma handler_frame (w : World) (ticket : JiraTicket) (s s' : State)
    (out : Outcome TestCaseResponse) :
  (clear_tasks ;; generate_test_case w ticket)%py s = (out, s') →
  qdrant s' = qdrant s
  ∧ (tasks s' = []
     ∨ ∃ t, tasks s' = [t] ∧ task_jira_id t = jira_id ticket).
Proof.
  unfold bind, clear_tasks. rewrite generate_test_case_branches.
  change (cached w (jira_id ticket) _) with (cached w (jira_id ticket) s).
  change (lookup_events w (jira_id ticket) _) with (lookup_events w (jira_id ticket) s).
  set (s0 := logged _ _).
  assert (Hmiss : regenerate w ticket s0 = (out, s') →
    qdrant s' = qdrant s
    ∧ (tasks s' = [] ∨ ∃ t, tasks s' = [t] ∧ task_jira_id t = jira_id ticket)).
  { unfold regenerate, try_except.
    destruct (generate_and_schedule w ticket (username_of w ticket)
                (api_token_of w ticket) (base_url_of w ticket) s0) as [[r|e] s1] eqn:Hg;
      apply generate_and_schedule_frame in Hg; simpl in Hg;
      intros [= _ <-]; auto. }
  destruct (cached w (jira_id ticket) s) as [[|entry stored]|]; try done.
  unfold try_except.
  pose proof (new_TestCaseResponse_state (jira_id ticket)
                (dict_get (entry :: stored) (py "description") (JStr []))
                (dict_get (entry :: stored) (py "test_cases") (JArr [])) s0) as Hs.
  destruct (new_TestCaseResponse _ _ _ s0) as [[r|e] s1]; simpl in *; subst s1;
    intros [= _ <-]; auto.
Qed.

(** X5 — Whatever a request to POST /generate-test-case does to the store,
    it does to the point of its own ticket: the store stays reachable or not
    as it was, every other point is left as it was, and a request that fails
    leaves the whole store as it was. *)
Theorem request_touches_own_point (w : World) (ticket : JiraTicket) (s : State) :
  up (qdrant (snd (serve_generate_test_case w ticket s))) = up (qdrant s)
  ∧ (∀ id, id ≠ point_id w (jira_id ticket) →
       points (qdrant (snd (serve_generate_test_case w ticket s))) !! id
       = points (qdrant s) !! id)
  ∧ (∀ e, fst (serve_generate_test_case w ticket s) = Raises e →
       qdrant (snd (serve_generate_test_case w ticket s)) = qdrant s).
Proof.
  unfold serve_generate_test_case.
  destruct ((clear_tasks ;; generate_test_case w ticket)%py s) as [[r|e] s1] eqn:Hh;
    apply handler_frame in Hh; destruct Hh as [Hq Ht];
    [|simpl; by rewrite Hq].
  assert (Hstore :
    ∀ sb, sb = snd ((run_background w (tasks s1) ;; clear_tasks)%py s1) →
    qdrant sb = qdrant s
    ∨ ∃ p, qdrant sb
           = {| up := up (qdrant s);
                points := <[point_id w (jira_id ticket) := p]> (points (qdrant s)) |}).
  { intros sb ->.
    destruct Ht as [-> | (t & -> & Hid)]; [left; by rewrite <- Hq|].
    unfold run_background, try_except. simpl run_tasks. unfold bind, ret.
    destruct (up (qdrant s1)) eqn:Hup.
    - rewrite store_test_case_up by done. simpl. right. eexists.
      by rewrite Hid, <- Hq, Hup.
    - rewrite store_test_case_down by done. left. simpl. by rewrite <- Hq. }
  destruct ((run_background w (tasks s1) ;; clear_tasks)%py s1) as [ob sb].
  specialize (Hstore sb eq_refl). simpl in Hstore.
  simpl fst. simpl snd. split; [|split].
  - by destruct Hstore as [-> | [p ->]].
  - intros id Hid. destruct Hstore as [-> | [p ->]]; [done|].
    simpl. by rewrite lookup_insert_ne.
  - discriminate.
Qed.

(** X6 — Every failure of POST /generate-test-case reaches the caller as
    HTTP 500 "Error generating test cases", whatever was raised inside, the
    status of the ticket tracker included. *)
Theorem request_fails_with_500 (w : World) (ticket : JiraTicket) (s : State) (e : PyExc) :
  fst (serve_generate_test_case w ticket s) = Raises e →
  ∃ cause, e = HTTPException 500 (ErrorGenerating cause).
Proof.
  unfold serve_generate_test_case, bind, clear_tasks, generate_test_case, try_except.
  match goal with |- context [bind ?c ?k ?s0] => destruct (bind c k s0) as [[r|e'] s1] end;
    [discriminate|].
  intros [= <-]. eauto.
Qed.

Lemma request_fails_with_500_witness :
  ∃ cause,
    HTTPException 500 (ErrorGenerating (HTTPException 400 JiraCredentialsNotProvided))
    = HTTPException 500 (ErrorGenerating cause).
Proof.
  apply (request_fails_with_500 (Sample.answering Scenario.bare_output) Sample.plain_ticket
           Sample.initial).
  vm_compute. reflexivity.
Defined.

Lemma spends_generate_and_schedule (w : World) (ticket : JiraTicket)
    (username api_token base_url : pystr) :
  spends (generate_and_schedule w ticket username api_token base_url)
         (plus one_tracker_call (loop_budget 3 12)).
Proof.
  unfold generate_and_schedule.
  apply (spends_bind _ _ one_tracker_call (loop_budget 3 12));
    [apply spends_obtain_description| |fits].
  intros description.
  apply (spends_weaken _ (plus (loop_budget 3 12) no_calls)); [|fits].
  apply (spends_bind _ _ (loop_budget 3 12) no_calls);
    [apply spends_generate_test_cases| |fits].
  intros test_cases. apply spends_silent. intros s.
  unfold check_len. destruct (py_len test_cases); run; [|done].
  by rewrite new_TestCaseResponse_state.
Qed.

Lemma spends_generate_test_case (w : World) (ticket : JiraTicket) :
  spends (generate_test_case w ticket)
         (plus one_lookup (plus one_tracker_call (loop_budget 3 12))).
Proof.
  unfold generate_test_case.
  eapply spends_weaken;
    [apply (spends_try_except _ _
              (plus one_lookup (plus one_tracker_call (loop_budget 3 12))) no_calls)
    |fits]; [| intros e; apply spends_raise | fits].
  apply (spends_bind _ _ one_lookup (plus one_tracker_call (loop_budget 3 12)));
    [apply spends_retrieve_test_case| |fits].
  intros [[|entry stored]|]; try apply spends_generate_and_schedule.
  eapply spends_weaken; [apply spends_new_TestCaseResponse | fits].
Qed.

(** X7 — One request to POST /generate-test-case, background task included,
    looks the ticket up at most once, calls the ticket tracker at most once
    and the model endpoint at most three times, sleeps at most twelve
    seconds between attempts, and writes to the store at most once. *)
Theorem request_budget_kept (w : World) (ticket : JiraTicket) :
  spends (serve_generate_test_case w ticket) request_budget.
Proof.
  intros s. unfold serve_generate_test_case.
  destruct (spends_generate_test_case w ticket (snd (clear_tasks s)))
    as (ev1 & Hlog1 & Hfit1).
  assert (Hh : (clear_tasks ;; generate_test_case w ticket)%py s
               = generate_test_case w ticket (snd (clear_tasks s))) by done.
  rewrite <- Hh in Hlog1. simpl in Hlog1.
  destruct ((clear_tasks ;; generate_test_case w ticket)%py s) as [[r|e] s1] eqn:Hrun;
    apply handler_frame in Hrun; destruct Hrun as [_ Ht]; simpl in Hlog1.
  - destruct Ht as [-> | (t & -> & _)].
    + exists ev1. split; [done|]. clear -Hfit1. fits_in.
    + unfold run_background, try_except. simpl run_tasks. unfold bind, ret.
      destruct (spends_store_test_case w (task_jira_id t) (task_description t)
                  (task_test_cases t) s1) as (ev2 & Hlog2 & Hfit2).
      destruct (store_test_case w (task_jira_id t) (task_description t)
                  (task_test_cases t) s1) as [[id|e] s2]; simpl in *.
      * exists (ev1 ++ ev2). rewrite Hlog2, Hlog1, app_assoc. split; [done|].
        rewrite tally_app. clear -Hfit1 Hfit2. fits_in.
      * exists (ev1 ++ ev2 ++ [TaskFailed e]).
        rewrite Hlog2, Hlog1, <- !app_assoc. split; [done|].
        rewrite !tally_app. clear -Hfit1 Hfit2. fits_in.
  - exists ev1. split; [done|]. clear -Hfit1. fits_in.
Qed.

End RequestsMore.

(** ** Requests that do not get a description *)

Section Descriptions.
Import Main VectorStore.

Local Open Scope string_scope.
Local Open Scope list_scope.
Local Open Scope Z_scope.

(** A request that misses the cache and cannot obtain the description
    fails with the wrapped exception, without a call to the model
    endpoint and without a task. *)
Lemma description_failure (w : World) (ticket : JiraTicket) (s s1 : State) (e : PyExc) :
  opt_dict_truthy (cached w (jira_id ticket) s) = false →
  obtain_description w ticket (username_of w ticket) (api_token_of w ticket)
    (base_url_of w ticket) (no_tasks (logged s (lookup_events w (jira_id ticket) s)))
  = (Raises e, s1) →
  serve_generate_test_case w ticket s
  = (Raises (HTTPException 500 (ErrorGenerating e)), no_tasks s1).
Proof.
  intros Hmiss Hfails. unfold serve_generate_test_case.
  assert (Hhandler :
    (clear_tasks ;; generate_test_case w ticket)%py s
    = regenerate w ticket (no_tasks (logged s (lookup_events w (jira_id ticket) s)))).
  { unfold bind, clear_tasks. rewrite generate_test_case_branches.
    change (cached w (jira_id ticket) _) with (cached w (jira_id ticket) s).
    change (lookup_events w (jira_id ticket) _) with (lookup_events w (jira_id ticket) s).
    by destruct (cached w (jira_id ticket) s) as [[|entry stored]|]. }
  rewrite Hhandler. unfold regenerate, generate_and_schedule, try_except.
  unfold bind at 1. rewrite Hfails. reflexivity.
Qed.

(** The description comes from the ticket tracker. *)
Lemma obtain_description_fetches (w : World) (ticket : JiraTicket)
    (username api_token base_url : pystr) (s : State) :
  ¬ (username = py "test_user" ∧ api_token = py "test_token") →
  obtain_description w ticket username api_token base_url s
  = (description <- fetch_jira_description w (jira_id ticket) username api_token base_url ;;
     check_len description ;; ret description)%py s.
Proof.
  intros Hreal. unfold obtain_description.
  destruct (pystr_eqb username (py "test_user")) eqn:Hu; [|done].
  destruct (pystr_eqb api_token (py "test_token")) eqn:Ht; [|done].
  exfalso. apply Hreal. unfold pystr_eqb in *.
  split; by eapply bool_decide_eq_true_1.
Qed.

(** X8 — A request that misses the cache, is no test request, and lacks the
    user name, the token or the base URL (in the request and in the
    environment) fails with HTTP 500 that quotes the 400 "JIRA credentials
    not provided": it has looked the ticket up and done nothing else, no
    call to the ticket tracker or to the model endpoint. *)
Theorem missing_credentials_rejected (w : World) (ticket : JiraTicket) (s : State) :
  opt_dict_truthy (cached w (jira_id ticket) s) = false →
  ¬ (username_of w ticket = py "test_user" ∧ api_token_of w ticket = py "test_token") →
  username_of w ticket = [] ∨ api_token_of w ticket = [] ∨ base_url_of w ticket = [] →
  serve_generate_test_case w ticket s
  = (Raises (HTTPException 500
               (ErrorGenerating (HTTPException 400 JiraCredentialsNotProvided))),
     no_tasks (logged s (lookup_events w (jira_id ticket) s))).
Proof.
  intros Hmiss Hreal Hempty.
  rewrite (description_failure w ticket s
             (no_tasks (logged s (lookup_events w (jira_id ticket) s)))
             (HTTPException 400 JiraCredentialsNotProvided)); [done | done |].
  rewrite obtain_description_fetches by done.
  unfold bind at 1, fetch_jira_description.
  destruct Hempty as [-> | [-> | ->]]; simpl; rewrite ?andb_false_r; reflexivity.
Qed.

Lemma missing_credentials_rejected_witness :
  serve_generate_test_case (Sample.answering Scenario.bare_output) Sample.plain_ticket
    Sample.initial
  = (Raises (HTTPException 500
               (ErrorGenerating (HTTPException 400 JiraCredentialsNotProvided))),
     no_tasks (logged Sample.initial
                 (lookup_events (Sample.answering Scenario.bare_output)
                    (jira_id Sample.plain_ticket) Sample.initial))).
Proof.
  apply (missing_credentials_rejected (Sample.answering Scenario.bare_output)
           Sample.plain_ticket Sample.initial).
  - reflexivity.
  - intros [Hu _]. vm_compute in Hu. discriminate Hu.
  - left. reflexivity.
Defined.

(** The request reaches the ticket tracker. *)
Lemma fetch_jira_description_calls (w : World) (jira_id username api_token base_url : pystr)
    (s : State) :
  username ≠ [] → api_token ≠ [] → base_url ≠ [] →
  fetch_jira_description w jira_id username api_token base_url s
  = (match jira_get w (base_url ++ py "/rest/api/2/issue/" ++ jira_id) username api_token with
    | HttpRaises e => Raises (HttpxError e)
    | HttpResponds status_code text json_body =>
        if negb (status_code =? 200)
        then Raises (HTTPException status_code (ErrorFetchingJira text))
        else
          match json_body with
          | Json.DecErr e => Raises (JSONDecodeError e)
          | Json.Dec (JObj data) =>
              match dict_get data (py "fields") (JObj []) with
              | JObj fields =>
                  Returns (dict_get fields (py "description")
                             (JStr (py "No description available")))
              | _ => Raises AttributeError
              end
          | Json.Dec _ => Raises AttributeError
          end
    end,
    logged s [JiraGet (base_url ++ py "/rest/api/2/issue/" ++ jira_id) username api_token]).
Proof.
  intros Hu Ht Hb. unfold fetch_jira_description.
  destruct username; [done|]. destruct api_token; [done|]. destruct base_url; [done|].
  simpl negb. cbv iota. unfold bind at 1, emit.
  destruct (jira_get w _ _ _) as [e|status_code text [data|e]]; run; try done;
    destruct (status_code =? 200); simpl; try done.
  destruct data; try done. simpl.
  by destruct (dict_get _ (py "fields") _).
Qed.

(** X9 — When the ticket tracker answers a request with a status other than
    200 (a ticket that does not exist, a wrong token), the caller gets HTTP
    500, not that status; the status and the tracker's text are quoted in
    the detail. The request has made one call to the tracker and none to the
    model endpoint. *)
Theorem tracker_refusal (w : World) (ticket : JiraTicket) (s : State)
    (status_code : Z) (text : pystr) (json_body : Json.decoded json) :
  opt_dict_truthy (cached w (jira_id ticket) s) = false →
  ¬ (username_of w ticket = py "test_user" ∧ api_token_of w ticket = py "test_token") →
  username_of w ticket ≠ [] → api_token_of w ticket ≠ [] → base_url_of w ticket ≠ [] →
  jira_get w (base_url_of w ticket ++ py "/rest/api/2/issue/" ++ jira_id ticket)
    (username_of w ticket) (api_token_of w ticket)
  = HttpResponds status_code text json_body →
  status_code ≠ 200 →
  serve_generate_test_case w ticket s
  = (Raises (HTTPException 500
               (ErrorGenerating (HTTPException status_code (ErrorFetchingJira text)))),
     no_tasks (logged s (lookup_events w (jira_id ticket) s
                         ++ [JiraGet (base_url_of w ticket ++ py "/rest/api/2/issue/"
                                      ++ jira_id ticket)
                               (username_of w ticket) (api_token_of w ticket)]))).
Proof.
  intros Hmiss Hreal Hu Ht Hb Hget Hstatus.
  erewrite description_failure; [| done |].
  2:{ rewrite obtain_description_fetches by done. unfold bind at 1.
      rewrite fetch_jira_description_calls by done. rewrite Hget.
      destruct (Z.eqb_spec status_code 200); [done|]. reflexivity. }
  unfold no_tasks, logged. simpl. by rewrite <- app_assoc.
Qed.

Lemma tracker_refusal_witness :
  serve_generate_test_case (Scenario.tracking Scenario.not_found) Scenario.real_ticket
    Sample.initial
  = (Raises (HTTPException 500
               (ErrorGenerating
                  (HTTPException 404 (ErrorFetchingJira (py "Issue does not exist"))))),
     no_tasks
       (logged Sample.initial
          (lookup_events (Scenario.tracking Scenario.not_found)
             (jira_id Scenario.real_ticket) Sample.initial
           ++ [JiraGet (base_url_of (Scenario.tracking Scenario.not_found)
                          Scenario.real_ticket
                        ++ py "/rest/api/2/issue/" ++ jira_id Scenario.real_ticket)
                 (username_of (Scenario.tracking Scenario.not_found) Scenario.real_ticket)
                 (api_token_of (Scenario.tracking Scenario.not_found)
                    Scenario.real_ticket)]))).
Proof.
  apply (tracker_refusal (Scenario.tracking Scenario.not_found) Scenario.real_ticket
           Sample.initial 404 (py "Issue does not exist")
           (Json.loads (py "Issue does not exist"))).
  - reflexivity.
  - intros [Hu _]. vm_compute in Hu. discriminate Hu.
  - vm_compute. discriminate.
  - vm_compute. discriminate.
  - vm_compute. discriminate.
  - reflexivity.
  - lia.
Defined.

(** X10 — A ticket whose description the tracker gives as something without
    a length (JSON null for a ticket with no description, a number, a
    boolean) fails the request with HTTP 500 caused by the [TypeError] of
    [len(description)]; the model endpoint is not called. *)
Theorem description_without_length (w : World) (ticket : JiraTicket) (s : State)
    (text : pystr) (data fields : pydict) (description : json) :
  opt_dict_truthy (cached w (jira_id ticket) s) = false →
  ¬ (username_of w ticket = py "test_user" ∧ api_token_of w ticket = py "test_token") →
  username_of w ticket ≠ [] → api_token_of w ticket ≠ [] → base_url_of w ticket ≠ [] →
  jira_get w (base_url_of w ticket ++ py "/rest/api/2/issue/" ++ jira_id ticket)
    (username_of w ticket) (api_token_of w ticket)
  = HttpResponds 200 text (Json.Dec (JObj data)) →
  dict_lookup data (py "fields") = Some (JObj fields) →
  dict_lookup fields (py "description") = Some description →
  py_len description = None →
  serve_generate_test_case w ticket s
  = (Raises (HTTPException 500 (ErrorGenerating TypeError)),
     no_tasks (logged s (lookup_events w (jira_id ticket) s
                         ++ [JiraGet (base_url_of w ticket ++ py "/rest/api/2/issue/"
                                      ++ jira_id ticket)
                               (username_of w ticket) (api_token_of w ticket)]))).
Proof.
  intros Hmiss Hreal Hu Ht Hb Hget Hfields Hdescription Hlen.
  erewrite description_failure; [| done |].
  2:{ rewrite obtain_description_fetches by done. unfold bind at 1.
      rewrite fetch_jira_description_calls by done. rewrite Hget. simpl.
      unfold dict_get. rewrite Hfields, Hdescription.
      unfold check_len. rewrite Hlen. reflexivity. }
  unfold no_tasks, logged. simpl. by rewrite <- app_assoc.
Qed.

Lemma description_without_length_witness :
  serve_generate_test_case (Scenario.tracking Scenario.empty_description)
    Scenario.real_ticket Sample.initial
  = (Raises (HTTPException 500 (ErrorGenerating TypeError)),
     no_tasks
       (logged Sample.initial
          (lookup_events (Scenario.tracking Scenario.empty_description)
             (jira_id Scenario.real_ticket) Sample.initial
           ++ [JiraGet (base_url_of (Scenario.tracking Scenario.empty_description)
                          Scenario.real_ticket
                        ++ py "/rest/api/2/issue/" ++ jira_id Scenario.real_ticket)
                 (username_of (Scenario.tracking Scenario.empty_description)
                    Scenario.real_ticket)
                 (api_token_of (Scenario.tracking Scenario.empty_description)
                    Scenario.real_ticket)]))).
Proof.
  apply (description_without_length (Scenario.tracking Scenario.empty_description)
           Scenario.real_ticket Sample.initial
           (pyq "{'fields':{'description':null}}")
           [(py "fields", JObj [(py "description", JNull)])]
           [(py "description", JNull)] JNull).
  - reflexivity.
  - intros [Hu _]. vm_compute in Hu. discriminate Hu.
  - vm_compute. discriminate.
  - vm_compute. discriminate.
  - vm_compute. discriminate.
  - vm_compute. reflexivity.
  - reflexivity.
  - reflexivity.
  - reflexivity.
Defined.

End Descriptions.

(** ** What a request leaves for the next ones *)

Section RoundTrip.
Import Main VectorStore.

Local Open Scope string_scope.
Local Open Scope list_scope.
Local Open Scope Z_scope.




(** X12 — Storing a ticket again replaces its record: after two calls of
    [store_test_case] for the same ticket the store is what the second call
    alone would have left, and a lookup gives the second description and
    test cases. *)
Theorem second_store_wins (w : World) (jira_id : pystr)
    (description1 test_cases1 description2 test_cases2 : json) (s : State) :
  up (qdrant s) = true →
  qdrant (snd (store_test_case w jira_id description2 test_cases2
                 (snd (store_test_case w jira_id description1 test_cases1 s))))
  = qdrant (snd (store_test_case w jira_id description2 test_cases2 s))
  ∧ cached w jira_id
      (snd (store_test_case w jira_id description2 test_cases2
              (snd (store_test_case w jira_id description1 test_cases1 s))))
    = Some [(py "jira_id", JStr jira_id);
            (py "description", description2);
            (py "test_cases", test_cases2)].
Proof.
  intros Hup. rewrite (store_test_case_up w jira_id description1) by done. simpl snd.
  rewrite !store_test_case_up by done. simpl. unfold cached. simpl.
  rewrite insert_insert_eq, lookup_insert_eq. done.
Qed.

Lemma second_store_wins_witness :
  qdrant (snd (store_test_case (Sample.answering Scenario.bare_output) (py "PROJ-1")
                 (JStr (py "Reset password")) (JArr [])
                 (snd (store_test_case (Sample.answering Scenario.bare_output) (py "PROJ-1")
                         (JStr (py "Login page")) (JArr []) Sample.initial))))
  = qdrant (snd (store_test_case (Sample.answering Scenario.bare_output) (py "PROJ-1")
                   (JStr (py "Reset password")) (JArr []) Sample.initial))
  ∧ cached (Sample.answering Scenario.bare_output) (py "PROJ-1")
      (snd (store_test_case (Sample.answering Scenario.bare_output) (py "PROJ-1")
              (JStr (py "Reset password")) (JArr [])
              (snd (store_test_case (Sample.answering Scenario.bare_output) (py "PROJ-1")
                      (JStr (py "Login page")) (JArr []) Sample.initial))))
    = Some [(py "jira_id", JStr (py "PROJ-1"));
            (py "description", JStr (py "Reset password"));
            (py "test_cases", JArr [])].
Proof.
  apply (second_store_wins (Sample.answering Scenario.bare_output) (py "PROJ-1")
           (JStr (py "Login page")) (JArr []) (JStr (py "Reset password")) (JArr [])
           Sample.initial).
  reflexivity.
Defined.

(** X13 — The record of a ticket is at the mercy of the keys: storing
    another ticket leaves it as it was when the two keys differ, and
    replaces it by the other ticket's record when they are the same, as
    nothing compares the ticket ids. *)
Theorem store_by_key (w : World) (jira_id other : pystr) (description test_cases : json)
    (s : State) :
  up (qdrant s) = true →
  (point_id w other ≠ point_id w jira_id →
     cached w jira_id (snd (store_test_case w other description test_cases s))
     = cached w jira_id s)
  ∧ (point_id w other = point_id w jira_id →
     cached w jira_id (snd (store_test_case w other description test_cases s))
     = Some [(py "jira_id", JStr other);
             (py "description", description);
             (py "test_cases", test_cases)]).
Proof.
  intros Hup. rewrite store_test_case_up by done. unfold cached. simpl. rewrite Hup.
  split; intros Hkey.
  - by rewrite lookup_insert_ne.
  - by rewrite Hkey, lookup_insert_eq.
Qed.

Lemma store_by_key_witness :
  (point_id (Sample.answering Scenario.bare_output) (py "PROJ-2")
   ≠ point_id (Sample.answering Scenario.bare_output) (py "PROJ-1") →
     cached (Sample.answering Scenario.bare_output) (py "PROJ-1")
       (snd (store_test_case (Sample.answering Scenario.bare_output) (py "PROJ-2")
               (JStr (py "Reset password")) (JArr [])
               (Sample.holding (Sample.answering Scenario.bare_output) (py "PROJ-1")
                  (Some Sample.login_record))))
     = cached (Sample.answering Scenario.bare_output) (py "PROJ-1")
         (Sample.holding (Sample.answering Scenario.bare_output) (py "PROJ-1")
            (Some Sample.login_record)))
  ∧ (point_id (Sample.answering Scenario.bare_output) (py "PROJ-2")
     = point_id (Sample.answering Scenario.bare_output) (py "PROJ-1") →
     cached (Sample.answering Scenario.bare_output) (py "PROJ-1")
       (snd (store_test_case (Sample.answering Scenario.bare_output) (py "PROJ-2")
               (JStr (py "Reset password")) (JArr [])
               (Sample.holding (Sample.answering Scenario.bare_output) (py "PROJ-1")
                  (Some Sample.login_record))))
     = Some [(py "jira_id", JStr (py "PROJ-2"));
             (py "description", JStr (py "Reset password"));
             (py "test_cases", JArr [])]).
Proof.
  apply (store_by_key (Sample.answering Scenario.bare_output) (py "PROJ-1") (py "PROJ-2")
           (JStr (py "Reset password")) (JArr [])
           (Sample.holding (Sample.answering Scenario.bare_output) (py "PROJ-1")
              (Some Sample.login_record))).
  reflexivity.
Defined.

End RoundTrip.

(** ** The read endpoints and the CSV export *)

Section CsvExport.
Import Main VectorStore Endpoints.

Local Open Scope string_scope.
Local Open Scope list_scope.
Local Open Scope Z_scope.

Lemma get_test_case_csv_branches (w : World) (uuid jira_id : pystr) (s : State) :
  get_test_case_csv w uuid jira_id s =
    (match cached w jira_id s with
     | Some ((_ :: _) as stored) =>
         match create_csv_file w uuid jira_id
                 (dict_get stored (py "test_cases") (JArr [])) with
         | inl e => Raises e
         | inr (csv_path, rows) =>
             Returns {| file_path := csv_path;
                        media_type := py "text/csv";
                        file_name := py "test_cases_" ++ jira_id ++ py ".csv";
                        file_rows := rows |}
         end
     | _ => Raises (HTTPException 404 (NoTestCasesFound jira_id))
     end,
     logged s (lookup_events w jira_id s)).
Proof.
  unfold get_test_case_csv, bind at 1. rewrite retrieve_test_case_cached.
  destruct (cached w jira_id s) as [[|entry stored]|]; try reflexivity.
  destruct (create_csv_file _ _ _ _) as [e|[csv_path rows]]; reflexivity.
Qed.

Lemma csv_rows_errors (w : World) (test_cases : list json) (e : PyExc) :
  csv_rows w test_cases = inl e → e = TypeError ∨ e = AttributeError.
Proof.
  induction test_cases as [|tc rest IH]; [discriminate|]. simpl.
  destruct (csv_row w tc) as [e'|row] eqn:Hrow.
  - intros [= <-]. unfold csv_row in Hrow.
    destruct tc; try (injection Hrow as <-; by right).
    destruct (py_iter _); [discriminate|]. injection Hrow as <-. by left.
  - destruct (csv_rows w rest) as [e'|rows]; [|discriminate].
    intros [= <-]. by apply IH.
Qed.

Lemma create_csv_file_errors (w : World) (uuid jira_id : pystr) (test_cases : json)
    (e : PyExc) :
  create_csv_file w uuid jira_id test_cases = inl e → e = TypeError ∨ e = AttributeError.
Proof.
  unfold create_csv_file. destruct (py_iter test_cases) as [tcs|]; [|intros [= <-]; by left].
  destruct (csv_rows w tcs) as [e'|rows] eqn:Hrows; [|discriminate].
  intros [= <-]. by eapply csv_rows_errors.
Qed.

(** X14 — The two read endpoints answer 404 for the same tickets: GET
    /get-test-case-csv says "No test cases found" exactly when GET
    /fetch-stored-case does. Each does one lookup and nothing else: the
    store, the count of model calls and the tasks are as before. *)
Theorem read_endpoints_agree_on_absence (w : World) (uuid jira_id : pystr) (s : State) :
  (fst (fetch_stored_case w jira_id s) = Raises (HTTPException 404 (NoTestCasesFound jira_id))
   ↔ fst (get_test_case_csv w uuid jira_id s)
     = Raises (HTTPException 404 (NoTestCasesFound jira_id)))
  ∧ snd (fetch_stored_case w jira_id s) = logged s (lookup_events w jira_id s)
  ∧ snd (get_test_case_csv w uuid jira_id s) = logged s (lookup_events w jira_id s).
Proof.
  rewrite fetch_stored_case_branches, get_test_case_csv_branches.
  destruct (cached w jira_id s) as [[|entry stored]|]; try done.
  split; [|split; [apply new_TestCaseResponse_state | reflexivity]].
  unfold new_TestCaseResponse, from_option. simpl fst.
  destruct (validate_TestCaseResponse _ _ _);
    (destruct (create_csv_file _ _ _ _) as [e|[csv_path rows]] eqn:Hcsv;
     [apply create_csv_file_errors in Hcsv as [-> | ->]|]); split; discriminate.
Qed.

Lemma imap_strings (f : nat → json → pystr) (g : nat → pystr → pystr) (xs : list pystr) :
  (∀ n x, f n (JStr x) = g n x) → imap f (map JStr xs) = imap g xs.
Proof.
  revert f g. induction xs as [|x xs IH]; intros f g Hfg; [done|].
  simpl. rewrite Hfg. f_equal. apply IH. intros n y. apply Hfg.
Qed.

Lemma validated_strings (l : list json) (ss : list pystr) :
  mapM validate_str l = Some ss → l = map JStr ss.
Proof.
  revert ss. induction l as [|x l IH]; intros ss.
  - by intros [= <-].
  - simpl. destruct x; try done. simpl.
    destruct (mapM validate_str l) as [ss'|]; [|done]. simpl.
    intros [= <-]. simpl. f_equal. by apply IH.
Qed.

(** The row of a test case that passes the response model. *)
Lemma csv_row_valid (w : World) (tc : json) (t : TestCase) :
  validate_TestCase tc = Some t → csv_row w tc = inr (row_of t).
Proof.
  unfold validate_TestCase, csv_row, row_of, dict_get. destruct tc as [| | | | | |d]; try done.
  destruct (dict_lookup d (py "test_id")) as [[| | | |i| |]|]; try done. simpl.
  destruct (dict_lookup d (py "title")) as [[| | | |ti| |]|]; try done. simpl.
  destruct (dict_lookup d (py "steps")) as [[| | | | |l|]|]; try done. simpl.
  destruct (mapM validate_str l) as [ss|] eqn:Hsteps; [|done]. simpl.
  destruct (dict_lookup d (py "expected_result")) as [[| | | |ex| |]|]; try done. simpl.
  intros [= <-]. simpl.
  apply validated_strings in Hsteps as ->.
  rewrite (imap_strings (numbered_step w)
             (fun n step => decimal (n + 1) ++ py ". " ++ step)); reflexivity.
Qed.

Lemma csv_rows_valid (w : World) (entries : list json) (tcs : list TestCase) :
  mapM validate_TestCase entries = Some tcs → csv_rows w entries = inr (map row_of tcs).
Proof.
  revert tcs. induction entries as [|tc rest IH]; intros tcs.
  - by intros [= <-].
  - simpl mapM. destruct (validate_TestCase tc) as [t|] eqn:Ht; [|done]. simpl.
    destruct (mapM validate_TestCase rest) as [ts|]; [|done]. simpl.
    intros [= <-]. simpl. rewrite (csv_row_valid w tc t Ht), (IH ts eq_refl). reflexivity.
Qed.

Lemma create_csv_file_valid (w : World) (uuid jira_id : pystr) (entries : list json)
    (tcs : list TestCase) :
  mapM validate_TestCase entries = Some tcs →
  create_csv_file w uuid jira_id (JArr entries)
  = inr (py "/tmp/" ++ (py "test_cases_" ++ jira_id ++ py "_" ++ uuid ++ py ".csv"),
         map row_of tcs).
Proof.
  intros Htcs. unfold create_csv_file. cbn [py_iter].
  by rewrite (csv_rows_valid w entries tcs Htcs).
Qed.

Lemma validated_test_cases (jira_id : pystr) (description test_cases_value : json)
    (response : TestCaseResponse) :
  validate_TestCaseResponse jira_id description test_cases_value = Some response →
  ∃ entries,
    test_cases_value = JArr entries
    ∧ mapM validate_TestCase entries = Some (test_cases response).
Proof.
  unfold validate_TestCaseResponse.
  destruct (validate_str description) as [d|]; [|done]. simpl.
  destruct test_cases_value as [| | | | |entries|]; try done. simpl.
  destruct (mapM validate_TestCase entries) as [tcs|] eqn:Hentries; [|done]. simpl.
  intros [= <-]. by exists entries.
Qed.

(** X15 — The CSV export and GET /fetch-stored-case agree: for a ticket for
    which the latter answers, the file has one row per test case of that
    response, in the same order, with the same test id, title and expected
    result, and with the steps numbered from 1, one per line. The file is
    /tmp/test_cases_{jira_id}_{uuid}.csv, served as
    test_cases_{jira_id}.csv. *)
Theorem csv_matches_response (w : World) (uuid jira_id : pystr) (s s1 : State)
    (response : TestCaseResponse) :
  fetch_stored_case w jira_id s = (Returns response, s1) →
  get_test_case_csv w uuid jira_id s
  = (Returns (csv_file uuid jira_id (map row_of (test_cases response))), s1).
Proof.
  rewrite fetch_stored_case_branches, get_test_case_csv_branches.
  destruct (cached w jira_id s) as [[|entry stored]|]; try done.
  unfold new_TestCaseResponse, from_option.
  destruct (validate_TestCaseResponse _ _ _) as [r|] eqn:Hvalid; [|done].
  intros [= <- <-].
  apply validated_test_cases in Hvalid as (entries & -> & Hentries).
  by rewrite (create_csv_file_valid w uuid jira_id entries _ Hentries).
Qed.

Lemma csv_matches_response_witness :
  get_test_case_csv (Sample.answering Scenario.bare_output) (py "0000") (py "PROJ-1")
    (Sample.holding (Sample.answering Scenario.bare_output) (py "PROJ-1")
       (Some Sample.login_record))
  = (Returns
       (csv_file (py "0000") (py "PROJ-1")
          (map row_of
             [{| test_id := py "TC-001"; title := py "Valid login";
                 steps := [py "Open login page"; py "Click login"];
                 expected_result := py "User is logged in" |}])),
     logged (Sample.holding (Sample.answering Scenario.bare_output) (py "PROJ-1")
               (Some Sample.login_record))
       [QdrantRetrieve [point_id (Sample.answering Scenario.bare_output) (py "PROJ-1")]]).
Proof.
  apply (csv_matches_response (Sample.answering Scenario.bare_output) (py "0000")
           (py "PROJ-1")
           (Sample.holding (Sample.answering Scenario.bare_output) (py "PROJ-1")
              (Some Sample.login_record))
           _
           {| response_jira_id := py "PROJ-1"; description := py "Login page";
              test_cases :=
                [{| test_id := py "TC-001"; title := py "Valid login";
                    steps := [py "Open login page"; py "Click login"];
                    expected_result := py "User is logged in" |}] |}).
  vm_compute. reflexivity.
Defined.

Lemma csv_row_exportable (w : World) (tc : json) :
  (∃ row, csv_row w tc = inr row) ↔ exportable tc.
Proof.
  unfold csv_row, exportable. split.
  - intros [row Hrow]. destruct tc as [| | | | | |d]; try done.
    exists d. split; [done|]. by destruct (py_iter _).
  - intros (d & -> & Hsteps). destruct (py_iter _); [eauto | done].
Qed.

(** X16 — The export is more tolerant than the response model: it succeeds
    exactly when every test case is a dict whose steps, if it has any, can
    be iterated, whatever fields are missing or of other types; and then the
    file has one row per test case. *)
Theorem export_succeeds_iff (w : World) (test_cases : list json) :
  ((∃ rows, csv_rows w test_cases = inr rows) ↔ Forall exportable test_cases)
  ∧ ∀ rows, csv_rows w test_cases = inr rows → length rows = length test_cases.
Proof.
  induction test_cases as [|tc rest [IHiff IHlen]].
  - split; [split; [constructor | by eexists] | by intros rows [= <-]].
  - simpl csv_rows. pose proof (csv_row_exportable w tc) as Hrow.
    destruct (csv_row w tc) as [e|row].
    + split; [|discriminate].
      split; [by intros [rows Hrows]|].
      intros Hall. inversion Hall as [|? ? Htc _]; subst.
      apply Hrow in Htc as [row' ?]. discriminate.
    + destruct (csv_rows w rest) as [e|rows].
      * split; [|discriminate].
        split; [by intros [rows Hrows]|].
        intros Hall. inversion Hall as [|? ? _ Hrest]; subst.
        apply IHiff in Hrest as [rows ?]. discriminate.
      * split.
        -- split; [|by eexists]. intros _. constructor.
           ++ apply Hrow. by eexists.
           ++ apply IHiff. by eexists.
        -- intros rows' [= <-]. simpl. f_equal. by apply IHlen.
Qed.

End CsvExport.

(** ** Start-up and diagnostics *)

Section StartupFacts.
Import Main VectorStore Startup Endpoints.

Local Open Scope string_scope.
Local Open Scope list_scope.
Local Open Scope Z_scope.

(** X17 — Loading the embedding model is tried up to three times: when the
    first [k] attempts fail, with [k < 3], and the next one gives a model,
    the module has that model, after sleeps of 5 seconds after the first
    failure and 10 after the second. *)
Theorem model_loads_after_failures (load : nat → PyExc + Encoder) (k : nat) (m : Encoder)
    (s : State) :
  (k < 3)%nat →
  (∀ i, (i < k)%nat → ∃ e, load i = inl e) →
  load k = inr m →
  load_model load s = (Returns (Some m), logged s (load_back_offs k)).
Proof.
  intros Hk Hfail Hload. unfold load_model, load_back_offs, logged.
  change (Z.to_nat MAX_RETRIES) with 3%nat.
  destruct k as [|[|[|k]]]; [| | |lia].
  - simpl. rewrite Hload. run. by rewrite app_nil_r; destruct s.
  - destruct (Hfail 0%nat) as [e0 H0]; [lia|].
    simpl. rewrite H0. run. rewrite Hload. run. reflexivity.
  - destruct (Hfail 0%nat) as [e0 H0]; [lia|]. destruct (Hfail 1%nat) as [e1 H1]; [lia|].
    simpl. rewrite H0. run. rewrite H1. run. rewrite Hload. run.
    by rewrite <- app_assoc.
Qed.

Lemma model_loads_after_failures_witness :
  load_model (Scenario.slow_download 2) Sample.initial
  = (Returns (Some (fun _ => [])), logged Sample.initial (load_back_offs 2)).
Proof.
  apply (model_loads_after_failures (Scenario.slow_download 2) 2 (fun _ => [])
           Sample.initial).
  - lia.
  - intros i Hi. exists (HttpxError ConnectError).
    destruct i as [|[|i]]; [reflexivity | reflexivity | lia].
  - reflexivity.
Defined.

(** X18 — When all three attempts to load the embedding model fail, the
    import of the module fails with the exception of the third attempt,
    after sleeps of 5 and 10 seconds; there is no sleep after the last
    failure and no fourth attempt. *)
Theorem model_load_gives_up (load : nat → PyExc + Encoder) (e0 e1 e2 : PyExc) (s : State) :
  load 0%nat = inl e0 → load 1%nat = inl e1 → load 2%nat = inl e2 →
  load_model load s = (Raises e2, logged s [Sleep 5; Sleep 10]).
Proof.
  intros H0 H1 H2. unfold load_model, logged. change (Z.to_nat MAX_RETRIES) with 3%nat.
  simpl. rewrite H0. run. rewrite H1. run. rewrite H2. run. by rewrite <- app_assoc.
Qed.

Lemma model_load_gives_up_witness :
  load_model (Scenario.slow_download 3) Sample.initial
  = (Raises (HttpxError ConnectError), logged Sample.initial [Sleep 5; Sleep 10]).
Proof.
  apply (model_load_gives_up (Scenario.slow_download 3) (HttpxError ConnectError)
           (HttpxError ConnectError) (HttpxError ConnectError) Sample.initial);
    reflexivity.
Defined.

(** X19 — GET /health cannot report [model_loaded: false]: whenever the
    loading loop ends without raising, so that the application starts, the
    module's variable holds a model. *)
Theorem health_reports_model_loaded (load : nat → PyExc + Encoder) (s s' : State)
    (model : option Encoder) :
  load_model load s = (Returns model, s') →
  dict_lookup (health_check model) (py "model_loaded") = Some (JBool true).
Proof.
  unfold load_model. change (Z.to_nat MAX_RETRIES) with 3%nat. simpl.
  destruct (load 0%nat) as [e0|m0]; run; [|by intros [= <- _]].
  destruct (load 1%nat) as [e1|m1]; run; [|by intros [= <- _]].
  destruct (load 2%nat) as [e2|m2]; run; [discriminate | by intros [= <- _]].
Qed.

Lemma health_reports_model_loaded_witness :
  dict_lookup (health_check (Some (fun _ => []))) (py "model_loaded") = Some (JBool true).
Proof.
  apply (health_reports_model_loaded (Scenario.slow_download 1) Sample.initial
           (logged Sample.initial (load_back_offs 1)) (Some (fun _ => []))).
  reflexivity.
Defined.

Lemma collection_listed (name : pystr) (cols : list (pystr * VectorParams)) :
  existsb (pystr_eqb name) (map fst cols) = true ↔ ∃ params, (name, params) ∈ cols.
Proof.
  rewrite existsb_exists. split.
  - intros (x & Hin & Heq). apply bool_decide_eq_true_1 in Heq as <-.
    apply in_map_iff in Hin as ([n params] & <- & Hin). exists params.
    by apply list_elem_of_In.
  - intros [params Hin]. exists name. split.
    + apply in_map_iff. exists (name, params). split; [done|]. by apply list_elem_of_In.
    + by apply bool_decide_eq_true_2.
Qed.

(** X20 — Creating the collection at start-up adds and never replaces: after
    [_create_collection_if_not_exists] a collection "test_cases" exists, the
    collections that were there are unchanged, and a collection of that name
    that was there is kept with the parameters it had, whether or not they
    are size 384 and cosine distance. Doing it again changes nothing. *)
Theorem create_collection_keeps_existing (srv srv' : Server) :
  create_collection_if_not_exists srv = inr srv' →
  (∃ params, (collection_name, params) ∈ collections srv')
  ∧ (∃ added, collections srv' = collections srv ++ added)
  ∧ (∀ params, (collection_name, params) ∈ collections srv → srv' = srv)
  ∧ create_collection_if_not_exists srv' = inr srv'.
Proof.
  unfold create_collection_if_not_exists.
  destruct srv as [[] cols]; [|discriminate]. simpl.
  destruct (existsb _ (map fst cols)) eqn:Hlisted; simpl.
  - intros [= <-]. apply collection_listed in Hlisted as Hin. simpl.
    rewrite Hlisted. simpl. split; [done|]. split; [exists []; by rewrite app_nil_r|].
    done.
  - intros [= <-]. simpl.
    assert (Hnow : existsb (pystr_eqb collection_name)
                     (map fst (cols ++ [(collection_name,
                                         {| vector_size := 384; distance := COSINE |})]))
                   = true).
    { apply collection_listed. eexists. apply elem_of_app. right. by left. }
    rewrite Hnow. simpl. split; [|split; [by eexists|split; [|done]]].
    + eexists. apply elem_of_app. right. by left.
    + intros params Hin.
      assert (existsb (pystr_eqb collection_name) (map fst cols) = true) as Hyes
        by (apply collection_listed; eauto).
      congruence.
Qed.

Lemma create_collection_keeps_existing_witness :
  (∃ params, (collection_name, params) ∈ collections Scenario.other_size)
  ∧ (∃ added, collections Scenario.other_size = collections Scenario.other_size ++ added)
  ∧ (∀ params, (collection_name, params) ∈ collections Scenario.other_size →
       Scenario.other_size = Scenario.other_size)
  ∧ create_collection_if_not_exists Scenario.other_size = inr Scenario.other_size.
Proof.
  apply (create_collection_keeps_existing Scenario.other_size Scenario.other_size).
  reflexivity.
Defined.

(** X21 — With a readable timeout setting GET /test-ollama-api always
    answers with a report, whatever the two calls do: it posts once to the
    model endpoint and touches nothing else. The report says the version
    check succeeded unless the version call answered with a status other
    than 200 or with JSON null; when the call raised, the result is the
    error and the check still counts as a success. *)
Theorem test_ollama_api_reports (w : World) (version : pystr → HttpOutcome) (s : State) :
  timeout_setting_ok w →
  ∃ report,
    test_ollama_api w version s = (Returns report, probed w s)
    ∧ (version_success report = false
       ↔ ∃ status_code text json_body,
           version (ollama_base w ++ py "/api/version")
           = HttpResponds status_code text json_body
           ∧ (status_code ≠ 200 ∨ json_body = Json.Dec JNull))
    ∧ (∀ e, version (ollama_base w ++ py "/api/version") = HttpRaises e →
         version_success report = true
         ∧ version_result report = VersionError (HttpxError e)).
Proof.
  intros Hfloat. unfold timeout_setting_ok in Hfloat.
  unfold test_ollama_api. rewrite Hfloat. run.
  eexists. split; [reflexivity|]. simpl.
  fold (ollama_base w).
  destruct (version (ollama_base w ++ py "/api/version"))
    as [e|status_code text json_body]; simpl.
  - split; [|by intros e' [= <-]].
    split; [discriminate | by intros (? & ? & ? & ? & _)].
  - split; [|discriminate].
    destruct (Z.eqb_spec status_code 200) as [->|Hstatus].
    + destruct json_body as [info|e]; simpl.
      * destruct info; simpl; split; try discriminate;
          try (by intros _; eexists _, _, _; split; [done | by right]);
          intros (? & ? & ? & [= <- <- <-] & [Hno | Hnull]); done.
      * split; [discriminate|].
        intros (? & ? & ? & [= <- <- <-] & [Hno | Hnull]); done.
    + split; [|done]. intros _. eexists _, _, _. split; [done | by left].
Qed.

Lemma test_ollama_api_reports_witness :
  ∃ report,
    test_ollama_api (Sample.answering Scenario.bare_output)
      (fun _ => HttpRaises ConnectError) Sample.initial
    = (Returns report, probed (Sample.answering Scenario.bare_output) Sample.initial)
    ∧ (version_success report = false
       ↔ ∃ status_code text json_body,
           HttpRaises ConnectError = HttpResponds status_code text json_body
           ∧ (status_code ≠ 200 ∨ json_body = Json.Dec JNull))
    ∧ (∀ e, HttpRaises ConnectError = HttpRaises e →
         version_success report = true
         ∧ version_result report = VersionError (HttpxError e)).
Proof.
  apply (test_ollama_api_reports (Sample.answering Scenario.bare_output)
           (fun _ => HttpRaises ConnectError) Sample.initial).
  reflexivity.
Defined.

End StartupFacts.

(** ** The search *)

Section Search.
Import Main VectorStore.

Local Open Scope string_scope.
Local Open Scope list_scope.
Local Open Scope Z_scope.

(** X22 — With the store reachable, POST /search-test-cases answers with a
    dict whose [results] are the payloads of the points the server ranked
    for the embedded query, in the server's order and one per point, a point
    without payload giving null; the dict carries the message "No matching
    test cases found" exactly when there are no results. The request does
    one search and changes nothing. *)
Theorem search_answers (w : World) (q : QueryRequest) (s : State) :
  up (qdrant s) = true →
  ∃ response,
    search_test_cases w q s = (Returns (JObj response), logged s [QdrantSearch (limit q)])
    ∧ dict_lookup response (py "results")
      = Some (JArr (map payload_value
                      (map payload
                         (qdrant_search w (points (qdrant s)) (model_encode w (query q))
                            (limit q)))))
    ∧ (dict_lookup response (py "message") = Some (JStr (py "No matching test cases found"))
       ↔ qdrant_search w (points (qdrant s)) (model_encode w (query q)) (limit q) = []).
Proof.
  intros Hup. unfold search_test_cases, search_similar_test_cases, client_search. run.
  rewrite Hup. simpl.
  destruct (qdrant_search w _ _ _) as [|p ranked]; simpl.
  - eexists. split; [reflexivity|]. split; [reflexivity|]. done.
  - eexists. split; [reflexivity|]. split; [reflexivity|]. split; discriminate.
Qed.

Lemma search_answers_witness :
  ∃ response,
    search_test_cases (Sample.answering Scenario.bare_output)
      {| query := py "login"; limit := 5 |}
      (Sample.holding (Sample.answering Scenario.bare_output) (py "PROJ-1")
         (Some Sample.login_record))
    = (Returns (JObj response),
       logged (Sample.holding (Sample.answering Scenario.bare_output) (py "PROJ-1")
                 (Some Sample.login_record))
         [QdrantSearch 5])
    ∧ dict_lookup response (py "results")
      = Some (JArr (map payload_value
                      (map payload
                         (qdrant_search (Sample.answering Scenario.bare_output)
                            (points (qdrant (Sample.holding
                                               (Sample.answering Scenario.bare_output)
                                               (py "PROJ-1") (Some Sample.login_record))))
                            (model_encode (Sample.answering Scenario.bare_output)
                               (py "login"))
                            5))))
    ∧ (dict_lookup response (py "message") = Some (JStr (py "No matching test cases found"))
       ↔ qdrant_search (Sample.answering Scenario.bare_output)
           (points (qdrant (Sample.holding (Sample.answering Scenario.bare_output)
                              (py "PROJ-1") (Some Sample.login_record))))
           (model_encode (Sample.answering Scenario.bare_output) (py "login")) 5
         = []).
Proof.
  apply (search_answers (Sample.answering Scenario.bare_output)
           {| query := py "login"; limit := 5 |}
           (Sample.holding (Sample.answering Scenario.bare_output) (py "PROJ-1")
              (Some Sample.login_record))).
  reflexivity.
Defined.

End Search.
